(** * tasks-map: task-document synchronisation and dependency graph

    A shallow embedding of the document mutator (src/lib/utils.ts), the graph
    builder and layout adapter (src/lib/utils.ts) and the canvas reconciler
    (src/views/TaskMapGraphView.tsx), followed by the properties of the
    specification that were checked against them.  The scan of the task
    files, the task list of the sidebar, the tag editor of a node
    (src/components/task-node.tsx) and the plugin (src/main.tsx) are embedded
    as far as the further properties at the end need them. *)

From Stdlib Require Import String Ascii List ZArith NArith Lia Bool FunInd.
From Stdlib Require Import Permutation.
Import ListNotations.

(* ================================================================== *)
(** * JavaScript strings and arrays *)
(* ================================================================== *)

Module JS.

(** A JavaScript string is a sequence of UTF-16 code units. *)
Definition jsstring := list N.

(** ASCII literals: every character of the Rocq string is one code unit. *)
Definition u (s : string) : jsstring :=
  map N_of_ascii (list_ascii_of_string s).

(** The glyphs the markers use.  U+26D4 and U+2B50 are one code unit each,
    U+1F194 is the surrogate pair D83C DD94. *)
Definition STOP_SIGN : jsstring := [9940%N].
Definition STAR : jsstring := [11088%N].
Definition ID_SIGN : jsstring := [55356%N; 56724%N].

Definition LF : N := 10%N.
Definition CR : N := 13%N.

Fixpoint eqb (a b : jsstring) : bool :=
  match a, b with
  | [], [] => true
  | x :: a', y :: b' => N.eqb x y && eqb a' b'
  | _, _ => false
  end.

(** [String.prototype.startsWith]. *)
Fixpoint startsWith (s pat : jsstring) {struct pat} : bool :=
  match pat, s with
  | [], _ => true
  | p :: pat', c :: s' => N.eqb c p && startsWith s' pat'
  | _ :: _, [] => false
  end.

(** [String.prototype.includes]. *)
Fixpoint includes (s pat : jsstring) : bool :=
  startsWith s pat ||
  match s with
  | [] => false
  | _ :: s' => includes s' pat
  end.

(** [s.replace(pat, rep)] with a string pattern: the first occurrence only. *)
Fixpoint replaceFirst (s pat rep : jsstring) : jsstring :=
  if startsWith s pat then rep ++ skipn (length pat) s
  else match s with
       | [] => []
       | c :: s' => c :: replaceFirst s' pat rep
       end.

(** [Array.prototype.findIndex]; [None] stands for -1. *)
Fixpoint findIndexFrom {A} (p : A -> bool) (l : list A) (i : nat) : option nat :=
  match l with
  | [] => None
  | x :: l' => if p x then Some i else findIndexFrom p l' (S i)
  end.

Definition findIndex {A} (p : A -> bool) (l : list A) : option nat :=
  findIndexFrom p l 0.

(** [Array.prototype.join]. *)
Fixpoint join (sep : jsstring) (l : list jsstring) : jsstring :=
  match l with
  | [] => []
  | [x] => x
  | x :: l' => x ++ sep ++ join sep l'
  end.

(** [lines.join("\n")]. *)
Definition joinLines (lines : list jsstring) : jsstring := join [LF] lines.

Definition consHead (c : N) (l : list jsstring) : list jsstring :=
  match l with
  | [] => [[c]]
  | x :: l' => (c :: x) :: l'
  end.

(** [fileContent.split(/\r?\n/)]: a separator is LF, or CR directly followed
    by LF.  The result is never empty. *)
Function splitLines (s : jsstring) {struct s} : list jsstring :=
  match s with
  | [] => [[]]
  | c :: s' =>
      if N.eqb c LF then [] :: splitLines s'
      else if N.eqb c CR then
        match s' with
        | d :: s'' =>
            if N.eqb d LF then [] :: splitLines s''
            else consHead c (splitLines s')
        | [] => consHead c (splitLines s')
        end
      else consHead c (splitLines s')
  end.

(** [s.split(sep)] for a separator of one code unit. *)
Fixpoint splitOn (sep : N) (s : jsstring) : list jsstring :=
  match s with
  | [] => [[]]
  | c :: s' =>
      if N.eqb c sep then [] :: splitOn sep s'
      else consHead c (splitOn sep s')
  end.

(** ** Character classes of the regular expressions *)

(** [\s] *)
Definition isSpace (c : N) : bool :=
  ((9 <=? c) && (c <=? 13) || (c =? 32) || (c =? 160) || (c =? 5760) ||
   (8192 <=? c) && (c <=? 8202) || (c =? 8232) || (c =? 8233) ||
   (c =? 8239) || (c =? 8287) || (c =? 12288) || (c =? 65279))%N.

(** [[a-zA-Z0-9]] *)
Definition isAlnum (c : N) : bool :=
  ((48 <=? c) && (c <=? 57) || (65 <=? c) && (c <=? 90) ||
   (97 <=? c) && (c <=? 122))%N.

(** [\w] *)
Definition isWord (c : N) : bool := isAlnum c || (c =? 95)%N.

(** [.] matches every code unit but the line terminators. *)
Definition isDot (c : N) : bool :=
  negb ((c =? 10) || (c =? 13) || (c =? 8232) || (c =? 8233))%N.

Fixpoint trimStart (s : jsstring) : jsstring :=
  match s with
  | [] => []
  | c :: s' => if isSpace c then trimStart s' else s
  end.

(** [String.prototype.trimEnd], also [s.replace(/\s+$/, "")]. *)
Definition trimEnd (s : jsstring) : jsstring := rev (trimStart (rev s)).

(** [String.prototype.trim]. *)
Definition trim (s : jsstring) : jsstring := trimEnd (trimStart s).

(** ** Matchers

    A matcher stands for a regular expression tried at the start of a
    string: it gives the length of the match.  Repetitions take as much as
    they can and never give anything back, which for every expression of the
    source is what the backtracking matcher of JavaScript finds. *)

Definition matcher := jsstring -> option nat.

Definition lit (pat : jsstring) : matcher :=
  fun s => if startsWith s pat then Some (length pat) else None.

Definition seq (m1 m2 : matcher) : matcher :=
  fun s =>
    match m1 s with
    | Some n1 =>
        match m2 (skipn n1 s) with
        | Some n2 => Some (n1 + n2)
        | None => None
        end
    | None => None
    end.

Fixpoint countWhile (p : N -> bool) (s : jsstring) : nat :=
  match s with
  | [] => 0
  | c :: s' => if p c then S (countWhile p s') else 0
  end.

(** [c*] for a character class. *)
Definition classStar (p : N -> bool) : matcher :=
  fun s => Some (countWhile p s).

(** [c+] for a character class. *)
Definition classPlus (p : N -> bool) : matcher :=
  fun s => match countWhile p s with 0 => None | n => Some n end.

(** [c{n}] for a character class. *)
Definition classN (p : N -> bool) (n : nat) : matcher :=
  fun s => if (n <=? length s) && forallb p (firstn n s) then Some n else None.

(** [$] *)
Definition eos : matcher :=
  fun s => match s with [] => Some 0 | _ :: _ => None end.

(** [(?:m)?] *)
Definition opt (m : matcher) : matcher :=
  fun s => match m s with Some n => Some n | None => Some 0 end.

(** [(?=m1|m2)] *)
Definition lookahead (m1 m2 : matcher) : matcher :=
  fun s =>
    match m1 s, m2 s with
    | None, None => None
    | _, _ => Some 0
    end.

Fixpoint many (fuel : nat) (m : matcher) (s : jsstring) : nat :=
  match fuel with
  | 0 => 0
  | S fuel' =>
      match m s with
      | Some (S n) => S n + many fuel' m (skipn (S n) s)
      | _ => 0
      end
  end.

(** [(?:m)*]: every round consumes a code unit, so there are at most
    [length s] rounds. *)
Definition star (m : matcher) : matcher :=
  fun s => Some (many (length s) m s).

(** [re.test(s)], [s.match(re)]: the leftmost position where the expression
    matches, with the length of the match. *)
Fixpoint search (m : matcher) (s : jsstring) : option (nat * nat) :=
  match m s with
  | Some n => Some (0, n)
  | None =>
      match s with
      | [] => None
      | _ :: s' =>
          match search m s' with
          | Some (i, n) => Some (S i, n)
          | None => None
          end
      end
  end.

Definition test (m : matcher) (s : jsstring) : bool :=
  match search m s with Some _ => true | None => false end.

(** [s.replace(re, rep)] for an expression with the [g] flag and a
    replacement without [$]; [skip] units of a match are still to be
    dropped.  The expressions used this way match no empty string. *)
Fixpoint replaceAllFrom (m : matcher) (rep : jsstring) (skip : nat)
    (s : jsstring) : jsstring :=
  match s with
  | [] => []
  | c :: s' =>
      match skip with
      | S k => replaceAllFrom m rep k s'
      | 0 =>
          match m s with
          | Some (S n) => rep ++ replaceAllFrom m rep n s'
          | _ => c :: replaceAllFrom m rep 0 s'
          end
      end
  end.

Definition replaceAll (m : matcher) (rep : jsstring) (s : jsstring)
    : jsstring :=
  replaceAllFrom m rep 0 s.

(** [Array.from(s.matchAll(re))]: the matched substrings, left to right. *)
Fixpoint matchAllFrom (m : matcher) (skip : nat) (s : jsstring)
    : list jsstring :=
  match s with
  | [] => []
  | _ :: s' =>
      match skip with
      | S k => matchAllFrom m k s'
      | 0 =>
          match m s with
          | Some (S n) => firstn (S n) s :: matchAllFrom m n s'
          | _ => matchAllFrom m 0 s'
          end
      end
  end.

Definition matchAll (m : matcher) (s : jsstring) : list jsstring :=
  matchAllFrom m 0 s.

Definition isDigit (c : N) : bool := ((48 <=? c) && (c <=? 57))%N.

Definition digitValue (c : N) : nat := N.to_nat (c - 48).

(** The capture [$n] of a replacement string: [None] when [n] is not the
    number of a group. *)
Definition capture (captures : list jsstring) (n : nat) : option jsstring :=
  match n with
  | 0 => None
  | S k => nth_error captures k
  end.

(** [GetSubstitution] of ECMAScript for an expression without named groups:
    the replacement string with [$$], [$&], [$`], [$'], [$n] and [$nn]
    expanded. *)
Fixpoint getSubstitution (matched before after : jsstring)
    (captures : list jsstring) (template : jsstring) : jsstring :=
  match template with
  | [] => []
  | c :: t1 =>
      if negb (c =? 36)%N then
        c :: getSubstitution matched before after captures t1
      else
        match t1 with
        | [] => [c]
        | d :: t2 =>
            if (d =? 36)%N then
              36%N :: getSubstitution matched before after captures t2
            else if (d =? 38)%N then
              matched ++ getSubstitution matched before after captures t2
            else if (d =? 96)%N then
              before ++ getSubstitution matched before after captures t2
            else if (d =? 39)%N then
              after ++ getSubstitution matched before after captures t2
            else if isDigit d then
              let one :=
                match capture captures (digitValue d) with
                | Some g =>
                    g ++ getSubstitution matched before after captures t2
                | None =>
                    c :: d ::
                    getSubstitution matched before after captures t2
                end in
              match t2 with
              | e :: t3 =>
                  if isDigit e then
                    let nn := 10 * digitValue d + digitValue e in
                    if nn <=? length captures then
                      match capture captures nn with
                      | Some g =>
                          g ++
                          getSubstitution matched before after captures t3
                      | None =>
                          c :: d :: e ::
                          getSubstitution matched before after captures t3
                      end
                    else one
                  else one
              | [] => one
              end
            else
              c :: getSubstitution matched before after captures t1
        end
  end.

(** [s.replace(re, rep)] for an expression without the [g] flag whose
    groups are given by [groups], from the matched substring. *)
Definition replaceRegex (m : matcher) (groups : jsstring -> list jsstring)
    (rep : jsstring) (s : jsstring) : jsstring :=
  match search m s with
  | None => s
  | Some (i, n) =>
      let matched := firstn n (skipn i s) in
      let before := firstn i s in
      let after := skipn (i + n) s in
      before ++ getSubstitution matched before after (groups matched) rep
             ++ after
  end.

(** ** Characters, indices and numbers *)

(** [String.prototype.charAt]: the empty string out of range. *)
Definition charAt (s : jsstring) (i : nat) : jsstring :=
  match nth_error s i with
  | Some c => [c]
  | None => []
  end.

(** [Array.prototype.map] with a callback that reads the index. *)
Fixpoint mapiFrom {A B} (f : A -> nat -> B) (i : nat) (l : list A) : list B :=
  match l with
  | [] => []
  | x :: l' => f x i :: mapiFrom f (S i) l'
  end.

Definition mapi {A B} (f : A -> nat -> B) (l : list A) : list B :=
  mapiFrom f 0 l.

(** [Array.prototype.pop] leaves the array without its last element. *)
Definition withoutLast {A} (l : list A) : list A := removelast l.

(** The decimal digits of [n], the most significant first.  A number has at
    most [n + 1] digits, which is the [fuel] it is called with. *)
Fixpoint digitsOf (fuel n : nat) : list nat :=
  match fuel with
  | 0 => []
  | S fuel' =>
      if n <? 10 then [n] else digitsOf fuel' (n / 10) ++ [n mod 10]
  end.

(** [String(n)], also [`${n}`], for an array index or any other natural
    number that a double holds exactly and prints without an exponent. *)
Definition natToString (n : nat) : jsstring :=
  map (fun d => N.of_nat (48 + d)) (digitsOf (S n) n).


(** The value of the decimal digits a string starts with. *)
Fixpoint digitsValue (acc : nat) (s : jsstring) : nat :=
  match s with
  | [] => acc
  | c :: s' =>
      if isDigit c then digitsValue (10 * acc + digitValue c) s' else acc
  end.

(** [parseInt(s, 10)]: white space is skipped, then a sign is read, then the
    digits up to the first other code unit; [None] is [NaN].  The value is
    the one of JavaScript as long as a double holds it exactly. *)
Definition parseInt (s : jsstring) : option Z :=
  let s := trimStart s in
  let signed :=
    match s with
    | c :: s' =>
        if (c =? 45)%N then ((-1)%Z, s')
        else if (c =? 43)%N then (1%Z, s')
        else (1%Z, s)
    | [] => (1%Z, s)
    end in
  match snd signed with
  | c :: _ =>
      if isDigit c
      then Some (fst signed * Z.of_nat (digitsValue 0 (snd signed)))%Z
      else None
  | [] => None
  end.

End JS.

Import JS.

(* ================================================================== *)
(** * Data model (src/types/task, src/types/settings.ts) *)
(* ================================================================== *)

Inductive TaskStatus := todo | in_progress | done | canceled.
Inductive TaskType := inline | note.
Inductive LayoutDirection := Horizontal | Vertical.
Inductive LinkingStyle := individual | csv | dataview.
Inductive TagColorMode := random | static.
Inductive HandleSide := Left | Top | Right | Bottom.

Record Task := mkTask {
  task_id : jsstring;
  task_type : TaskType;
  task_summary : jsstring;
  task_text : jsstring;
  task_tags : list jsstring;
  task_status : TaskStatus;
  task_priority : jsstring;
  task_link : jsstring;
  task_incomingLinks : list jsstring;
  task_starred : bool;
  task_line : option nat
}.

Record XY := mkXY { pos_x : Z; pos_y : Z }.

Record TasksMapSettings := mkSettings {
  showPriorities : bool;
  showTags : bool;
  layoutDirection : LayoutDirection;
  linkingStyle : LinkingStyle;
  debugVisualization : bool;
  tagColorMode : TagColorMode;
  tagColorSeed : Z;
  tagStaticColor : jsstring
}.

(** [TaskNodeData] of src/components/task-node.tsx; [task] is not optional. *)
Record TaskNodeData := mkNodeData {
  data_task : Task;
  data_layoutDirection : LayoutDirection;
  data_showPriorities : bool;
  data_showTags : bool;
  data_debugVisualization : bool;
  data_tagColorMode : TagColorMode;
  data_tagColorSeed : Z;
  data_tagStaticColor : jsstring
}.

(** A canvas node; its [type] is always ["task"]. *)
Record TaskNode := mkNode {
  node_id : jsstring;
  node_position : XY;
  node_data : TaskNodeData;
  node_sourcePosition : HandleSide;
  node_targetPosition : HandleSide;
  node_draggable : bool;
  node_hidden : option bool
}.

Record EdgeData := mkEdgeData {
  edata_hash : jsstring;
  edata_layoutDirection : LayoutDirection;
  edata_debugVisualization : bool
}.

(** A canvas edge; its [type] is always ["hash"]. *)
Record TaskEdge := mkEdge {
  edge_id : jsstring;
  edge_source : jsstring;
  edge_target : jsstring;
  edge_data : EdgeData;
  edge_hidden : option bool
}.

Record SavedNodeData := mkSavedNode {
  saved_id : jsstring;
  saved_position : XY;
  saved_taskId : jsstring;
  saved_taskData : option Task
}.

Record SavedEdgeData := mkSavedEdge {
  sedge_id : jsstring;
  sedge_source : jsstring;
  sedge_target : jsstring
}.

Record SavedViewport := mkViewport { vp_x : Z; vp_y : Z; vp_zoom : Z }.

Record GraphData := mkGraphData {
  gd_nodes : list SavedNodeData;
  gd_edges : list SavedEdgeData;
  gd_viewport : SavedViewport
}.

Definition DEFAULT_GRAPH_DATA : GraphData :=
  mkGraphData [] [] (mkViewport 0 0 1).

Definition DEFAULT_SETTINGS : TasksMapSettings :=
  {| showPriorities := true;
     showTags := true;
     layoutDirection := Horizontal;
     linkingStyle := csv;
     debugVisualization := false;
     tagColorMode := random;
     tagColorSeed := 42;
     tagStaticColor := u "#3b82f6" |}.

(* ================================================================== *)
(** * Graph builder and layout adapter (src/lib/utils.ts) *)
(* ================================================================== *)

Module Graph.

(** src/components/task-node.tsx *)
Definition NODEWIDTH : Z := 250.
Definition NODEHEIGHT : Z := 120.

(** The template string [`${parentTaskId}-${task.id}`]. *)
Definition edgeLabel (parentTaskId taskId : jsstring) : jsstring :=
  parentTaskId ++ u "-" ++ taskId.

(** [createEdgesFromTasks]: two nested [forEach] loops pushing on [edges]. *)
Definition createEdgesFromTasks (tasks : list Task)
    (layoutDirection : LayoutDirection) (debugVisualization : bool)
    : list TaskEdge :=
  fold_left
    (fun edges task =>
       fold_left
         (fun edges parentTaskId =>
            edges ++
            [ {| edge_id := edgeLabel parentTaskId (task_id task);
                 edge_source := parentTaskId;
                 edge_target := task_id task;
                 edge_data :=
                   {| edata_hash := edgeLabel parentTaskId (task_id task);
                      edata_layoutDirection := layoutDirection;
                      edata_debugVisualization := debugVisualization |};
                 edge_hidden := None |} ])
         (task_incomingLinks task) edges)
    tasks [].

Definition withPosition (node : TaskNode) (p : XY) : TaskNode :=
  {| node_id := node_id node;
     node_position := p;
     node_data := node_data node;
     node_sourcePosition := node_sourcePosition node;
     node_targetPosition := node_targetPosition node;
     node_draggable := node_draggable node;
     node_hidden := node_hidden node |}.

Inductive RankDir := LR | TB.

Section Layout.

(** The dagre collaborator: from the node boxes, the edges and the rank
    direction, the positions of the nodes it placed ([dagreGraph.node]). *)
Variable dagre_layout :
  list (jsstring * Z * Z) -> list (jsstring * jsstring) -> RankDir ->
  jsstring -> option XY.

Definition getLayoutedElements (nodes : list TaskNode)
    (edges : list TaskEdge) (direction : LayoutDirection) : list TaskNode :=
  let rankdir := match direction with Horizontal => LR | Vertical => TB end in
  let dagreGraph :=
    dagre_layout
      (map (fun node => (node_id node, NODEWIDTH, NODEHEIGHT)) nodes)
      (map (fun edge => (edge_source edge, edge_target edge)) edges)
      rankdir in
  map (fun node =>
         match dagreGraph (node_id node) with
         | None => withPosition node (mkXY 0 0)
         | Some nodeWithPosition =>
             withPosition node
               (mkXY (pos_x nodeWithPosition - 90)
                     (pos_y nodeWithPosition - 30))
         end)
      nodes.

End Layout.

(** [createNodesFromTasks]: one node per task, stacked 80 apart. *)
Definition createNodesFromTasks (tasks : list Task)
    (layoutDirection : LayoutDirection) (showPriorities showTags : bool)
    (debugVisualization : bool) (tagColorMode : TagColorMode)
    (tagColorSeed : Z) (tagStaticColor : jsstring) : list TaskNode :=
  let isVertical :=
    match layoutDirection with Vertical => true | Horizontal => false end in
  let sourcePosition := if isVertical then Bottom else Right in
  let targetPosition := if isVertical then Top else Left in
  mapi
    (fun task idx =>
       {| node_id := task_id task;
          node_position := mkXY 0 (Z.of_nat idx * 80);
          node_data :=
            {| data_task := task;
               data_layoutDirection := layoutDirection;
               data_showPriorities := showPriorities;
               data_showTags := showTags;
               data_debugVisualization := debugVisualization;
               data_tagColorMode := tagColorMode;
               data_tagColorSeed := tagColorSeed;
               data_tagStaticColor := tagStaticColor |};
          node_sourcePosition := sourcePosition;
          node_targetPosition := targetPosition;
          node_draggable := true;
          node_hidden := None |})
    tasks.







End Graph.

(* ================================================================== *)
(** * Canvas reconciler (src/views/TaskMapGraphView.tsx) *)
(* ================================================================== *)

Module Canvas.

(** The React state of the view together with the plugin's snapshot.  The
    operations below are the ones of the view; the node changes that
    ReactFlow applies on its own (dragging, selecting) are not part of it. *)
Record State := mkState {
  st_tasks : list Task;
  st_nodes : list TaskNode;
  st_edges : list TaskEdge;
  st_viewport : SavedViewport;
  st_graphData : GraphData
}.

Definition setNodes (st : State) (nodes : list TaskNode) : State :=
  mkState (st_tasks st) nodes (st_edges st) (st_viewport st) (st_graphData st).

Definition setEdges (st : State) (edges : list TaskEdge) : State :=
  mkState (st_tasks st) (st_nodes st) edges (st_viewport st) (st_graphData st).

Definition setTasks (st : State) (tasks : list Task) : State :=
  mkState tasks (st_nodes st) (st_edges st) (st_viewport st) (st_graphData st).

Definition setViewport (st : State) (v : SavedViewport) : State :=
  mkState (st_tasks st) (st_nodes st) (st_edges st) v (st_graphData st).

Definition sourceSide (d : LayoutDirection) : HandleSide :=
  match d with Vertical => Bottom | Horizontal => Right end.

Definition targetSide (d : LayoutDirection) : HandleSide :=
  match d with Vertical => Top | Horizontal => Left end.

(** The node literal built in [loadSavedData] and in [addTaskToCanvas]. *)
Definition newTaskNode (settings : TasksMapSettings) (id : jsstring)
    (position : XY) (task : Task) : TaskNode :=
  {| node_id := id;
     node_position := position;
     node_data :=
       {| data_task := task;
          data_layoutDirection := layoutDirection settings;
          data_showPriorities := showPriorities settings;
          data_showTags := showTags settings;
          data_debugVisualization := debugVisualization settings;
          data_tagColorMode := tagColorMode settings;
          data_tagColorSeed := tagColorSeed settings;
          data_tagStaticColor := tagStaticColor settings |};
     node_sourcePosition := sourceSide (layoutDirection settings);
     node_targetPosition := targetSide (layoutDirection settings);
     node_draggable := true;
     node_hidden := None |}.

(** [savedData.nodes.filter((n) => n.taskData).map(...)]: the filter keeps
    the nodes that carry task data, the map reads that data. *)
Definition restoreNodes (settings : TasksMapSettings)
    (saved : list SavedNodeData) : list TaskNode :=
  flat_map
    (fun savedNode =>
       match saved_taskData savedNode with
       | Some taskData =>
           [newTaskNode settings (saved_id savedNode)
              (saved_position savedNode) taskData]
       | None => []
       end)
    saved.

Definition restoreEdges (settings : TasksMapSettings)
    (saved : list SavedEdgeData) : list TaskEdge :=
  map (fun e =>
         {| edge_id := sedge_id e;
            edge_source := sedge_source e;
            edge_target := sedge_target e;
            edge_data :=
              {| edata_hash := sedge_id e;
                 edata_layoutDirection := layoutDirection settings;
                 edata_debugVisualization := debugVisualization settings |};
            edge_hidden := None |})
      saved.

(** [loadSavedData]: nothing happens on an empty snapshot. *)
Definition loadSavedData (settings : TasksMapSettings) (st : State) : State :=
  let savedData := st_graphData st in
  match gd_nodes savedData with
  | [] => st
  | _ :: _ =>
      setViewport
        (setEdges
           (setNodes st (restoreNodes settings (gd_nodes savedData)))
           (restoreEdges settings (gd_edges savedData)))
        (gd_viewport savedData)
  end.

(** [loadInitialData]: [newTasks] is the result of [getAllTasks(app)]. *)
Definition loadInitialData (settings : TasksMapSettings)
    (newTasks : list Task) (st : State) : State :=
  loadSavedData settings (setTasks st newTasks).

Definition withTask (node : TaskNode) (task : Task) : TaskNode :=
  {| node_id := node_id node;
     node_position := node_position node;
     node_data :=
       {| data_task := task;
          data_layoutDirection := data_layoutDirection (node_data node);
          data_showPriorities := data_showPriorities (node_data node);
          data_showTags := data_showTags (node_data node);
          data_debugVisualization := data_debugVisualization (node_data node);
          data_tagColorMode := data_tagColorMode (node_data node);
          data_tagColorSeed := data_tagColorSeed (node_data node);
          data_tagStaticColor := data_tagStaticColor (node_data node) |};
     node_sourcePosition := node_sourcePosition node;
     node_targetPosition := node_targetPosition node;
     node_draggable := node_draggable node;
     node_hidden := node_hidden node |}.

(** The updater passed to [setNodes] in [updateNodes].  The guard
    [if (!nodeTask) return node] never fires: [data.task] is a [Task]. *)
Definition refreshNodes (scannedTasks : list Task)
    (currentNodes : list TaskNode) : list TaskNode :=
  map (fun node =>
         match find (fun t => eqb (task_id t) (node_id node)) scannedTasks with
         | Some updatedTask => withTask node updatedTask
         | None => node
         end)
      currentNodes.

(** [updateNodes]: [scannedTasks] is the result of [scanTasksFromFiles()]. *)
Definition updateNodes (scannedTasks : list Task) (st : State) : State :=
  setNodes (setTasks st scannedTasks) (refreshNodes scannedTasks (st_nodes st)).

(** [tasks.find((t) => t.id === taskId) || taskData] *)
Definition resolveTask (tasks : list Task) (taskId : jsstring)
    (taskData : option Task) : option Task :=
  match find (fun t => eqb (task_id t) taskId) tasks with
  | Some t => Some t
  | None => taskData
  end.

(** [addTaskToCanvas] is a callback that a render of the view creates
    ([useCallback] over [tasks] and [nodes]).  [closure] is the state of that
    render: the callback looks the task up in its [tasks] and tests its
    [nodes] for the id.  [st] is the state the updater handed to [setNodes]
    runs on: [(nds) => [...nds, newNode]] appends to the list of that moment,
    which is the list of the closure only when no other updater ran since
    the render. *)
Definition addTaskToCanvas (settings : TasksMapSettings) (closure : State)
    (taskId : jsstring) (position : XY) (taskData : option Task) (st : State)
    : State :=
  match resolveTask (st_tasks closure) taskId taskData with
  | None => st
  | Some task =>
      if existsb (fun n => eqb (node_id n) (task_id task)) (st_nodes closure)
      then st
      else
        setNodes st
          (st_nodes st ++ [newTaskNode settings (task_id task) position task])
  end.

Definition deleteNode (nodeId : jsstring) (st : State) : State :=
  setEdges
    (setNodes st
       (filter (fun n => negb (eqb (node_id n) nodeId)) (st_nodes st)))
    (filter (fun e => negb (eqb (edge_source e) nodeId) &&
                      negb (eqb (edge_target e) nodeId))
            (st_edges st)).

(** [saveGraphDataImmediate]; [viewport] is read from the flow instance. *)
Definition saveGraphDataImmediate (viewport : SavedViewport) (st : State)
    : State :=
  match st_nodes st with
  | [] => st
  | _ :: _ =>
      mkState (st_tasks st) (st_nodes st) (st_edges st) (st_viewport st)
        {| gd_nodes :=
             map (fun n =>
                    {| saved_id := node_id n;
                       saved_position := node_position n;
                       saved_taskId := node_id n;
                       saved_taskData := Some (data_task (node_data n)) |})
                 (st_nodes st);
           gd_edges :=
             map (fun e => mkSavedEdge (edge_id e) (edge_source e)
                             (edge_target e))
                 (st_edges st);
           gd_viewport := viewport |}
  end.

Definition statusEqb (a b : TaskStatus) : bool :=
  match a, b with
  | todo, todo | in_progress, in_progress | done, done
  | canceled, canceled => true
  | _, _ => false
  end.

(** [{ ...node, hidden }] *)
Definition nodeWithHidden (node : TaskNode) (hidden : bool) : TaskNode :=
  {| node_id := node_id node;
     node_position := node_position node;
     node_data := node_data node;
     node_sourcePosition := node_sourcePosition node;
     node_targetPosition := node_targetPosition node;
     node_draggable := node_draggable node;
     node_hidden := Some hidden |}.

(** [{ ...edge, hidden }] *)
Definition edgeWithHidden (edge : TaskEdge) (hidden : bool) : TaskEdge :=
  {| edge_id := edge_id edge;
     edge_source := edge_source edge;
     edge_target := edge_target edge;
     edge_data := edge_data edge;
     edge_hidden := Some hidden |}.

(** [Array.prototype.includes] on strings. *)
Definition hasString (l : list jsstring) (s : jsstring) : bool :=
  existsb (fun x => eqb x s) l.

Section Operations.

(** The constant of src/components/tag-select, which is not among the
    sources. *)
Variable NO_TAGS_VALUE : jsstring.

Definition getFilteredNodeIds (tasks : list Task)
    (selectedTags : list jsstring) (selectedStatuses : list TaskStatus)
    : list jsstring :=
  let filtered := tasks in
  let filtered :=
    if 0 <? length selectedTags then
      filter
        (fun task =>
           let noTagsSelected := hasString selectedTags NO_TAGS_VALUE in
           let regularTagsSelected :=
             filter (fun tag => negb (eqb tag NO_TAGS_VALUE)) selectedTags in
           let matchesNoTags :=
             noTagsSelected && (length (task_tags task) =? 0) in
           let matchesRegularTags :=
             (0 <? length regularTagsSelected) &&
             existsb (fun tag => hasString (task_tags task) tag)
               regularTagsSelected in
           matchesNoTags || matchesRegularTags)
        filtered
    else filtered in
  let filtered :=
    if 0 <? length selectedStatuses then
      filter
        (fun task => existsb (statusEqb (task_status task)) selectedStatuses)
        filtered
    else filtered in
  map task_id filtered.

(** The effect that hides the nodes and edges the tag and status filters
    exclude. *)
Definition applyFilters (selectedTags : list jsstring)
    (selectedStatuses : list TaskStatus) (st : State) : State :=
  if (length (st_tasks st) =? 0) || (length (st_nodes st) =? 0) then st
  else
    let hasTagFilter := 0 <? length selectedTags in
    let hasStatusFilter := length selectedStatuses <? 4 in
    if negb hasTagFilter && negb hasStatusFilter then
      setEdges
        (setNodes st
           (map (fun node => nodeWithHidden node false) (st_nodes st)))
        (map (fun edge => edgeWithHidden edge false) (st_edges st))
    else
      let filteredNodeIds :=
        getFilteredNodeIds (st_tasks st) selectedTags selectedStatuses in
      let taskIds := map task_id (st_tasks st) in
      setEdges
        (setNodes st
           (map
              (fun node =>
                 if negb (hasString taskIds (node_id node)) then
                   let nodeTask := data_task (node_data node) in
                   let passesStatusFilter :=
                     negb hasStatusFilter ||
                     existsb (statusEqb (task_status nodeTask))
                       selectedStatuses in
                   let passesTagFilter :=
                     negb hasTagFilter ||
                     hasString selectedTags NO_TAGS_VALUE &&
                     (length (task_tags nodeTask) =? 0) ||
                     existsb
                       (fun tag =>
                          negb (eqb tag NO_TAGS_VALUE) &&
                          hasString (task_tags nodeTask) tag)
                       selectedTags in
                   nodeWithHidden node
                     (negb (passesStatusFilter && passesTagFilter))
                 else
                   nodeWithHidden node
                     (negb (hasString filteredNodeIds (node_id node))))
              (st_nodes st)))
        (map
           (fun edge =>
              edgeWithHidden edge
                (negb (hasString filteredNodeIds (edge_source edge)) ||
                 negb (hasString filteredNodeIds (edge_target edge))))
           (st_edges st)).

(** The operations of the view that write its node list.  The saves the
    view schedules after an operation are the operation [OpSave]. *)
Inductive Op :=
| OpLoadInitialData (newTasks : list Task)
| OpLoadSavedData
| OpUpdateNodes (scannedTasks : list Task)
| OpAddTaskToCanvas (taskId : jsstring) (position : XY)
    (taskData : option Task)
| OpDeleteNode (nodeId : jsstring)
| OpApplyFilters (selectedTags : list jsstring)
    (selectedStatuses : list TaskStatus)
| OpSave (viewport : SavedViewport).

(** One operation.  [closure] is the state of the render that created the
    callback called; only [addTaskToCanvas] reads it. *)
Definition step (settings : TasksMapSettings) (op : Op) (closure st : State)
    : State :=
  match op with
  | OpLoadInitialData newTasks => loadInitialData settings newTasks st
  | OpLoadSavedData => loadSavedData settings st
  | OpUpdateNodes scannedTasks => updateNodes scannedTasks st
  | OpAddTaskToCanvas taskId position taskData =>
      addTaskToCanvas settings closure taskId position taskData st
  | OpDeleteNode nodeId => deleteNode nodeId st
  | OpApplyFilters selectedTags selectedStatuses =>
      applyFilters selectedTags selectedStatuses st
  | OpSave viewport => saveGraphDataImmediate viewport st
  end.

(** The operations one after the other, the view rendered between any two:
    each callback closes over the state the operation before it left. *)
Definition run (settings : TasksMapSettings) (ops : list Op) (st : State)
    : State :=
  fold_left (fun st op => step settings op st st) ops st.

(** The operations called before the view is rendered again: every callback
    is the one of the render of [shown]. *)
Definition runInOneRender (settings : TasksMapSettings) (ops : list Op)
    (shown : State) : State :=
  fold_left (fun st op => step settings op shown st) ops shown.

End Operations.

(** A view opened on the snapshot [graphData] read from disk. *)
Definition initialState (graphData : GraphData) : State :=
  mkState [] [] [] (mkViewport 0 0 1) graphData.

End Canvas.

(* ================================================================== *)
(** * Document mutator (src/lib/utils.ts) *)
(* ================================================================== *)

Module Mutator.

(** The outcome of running a callback handed to [vault.process]. *)
Inductive outcome (A : Type) : Type :=
| Ok (a : A)
| Throw      (* a TypeError: a method is called on [undefined] *)
| Timeout.   (* the loop budget of the model is used up *)

Arguments Ok {A} a.
Arguments Throw {A}.
Arguments Timeout {A}.

Definition bind {A B} (x : outcome A) (f : A -> outcome B) : outcome B :=
  match x with
  | Ok a => f a
  | Throw => Throw
  | Timeout => Timeout
  end.

Notation "x <- c1 ;; c2" := (bind c1 (fun x => c2))
  (at level 61, c1 at next level, right associativity).

(** [lines[i]] for a use that calls a method on the element. *)
Definition get (lines : list jsstring) (i : nat) : outcome jsstring :=
  match nth_error lines i with
  | Some l => Ok l
  | None => Throw
  end.

(** [lines[i] === s]: an element that is not there is [undefined]. *)
Definition strictEq (lines : list jsstring) (i : nat) (s : jsstring) : bool :=
  match nth_error lines i with
  | Some l => eqb l s
  | None => false
  end.

(** [lines[i] = v], used on an element that was just read. *)
Fixpoint assign (lines : list jsstring) (i : nat) (v : jsstring)
    : list jsstring :=
  match lines, i with
  | [], _ => []
  | _ :: lines', 0 => v :: lines'
  | l :: lines', S i' => l :: assign lines' i' v
  end.

(** [lines.splice(i, 0, ...items)] *)
Definition spliceInsert (lines : list jsstring) (i : nat)
    (items : list jsstring) : list jsstring :=
  firstn i lines ++ items ++ skipn i lines.

(** [lines.splice(i, 1)] *)
Definition spliceRemove (lines : list jsstring) (i : nat) : list jsstring :=
  firstn i lines ++ skipn (S i) lines.

(** [for (let i = from; i < from + count; i++) if (p(i)) { found = i; break; }]
    with a test that calls no method on an element. *)
Fixpoint firstIndex (count from : nat) (p : nat -> bool) : option nat :=
  match count with
  | 0 => None
  | S count' => if p from then Some from else firstIndex count' (S from) p
  end.

(** The same loop with a test that may throw. *)
Fixpoint forFirst (count from : nat) (p : nat -> outcome bool)
    : outcome (option nat) :=
  match count with
  | 0 => Ok None
  | S count' =>
      b <- p from ;;
      if b then Ok (Some from) else forFirst count' (S from) p
  end.

Definition isEmpty (s : jsstring) : bool :=
  match s with [] => true | _ :: _ => false end.

Definition statusSymbols (s : TaskStatus) : jsstring :=
  match s with
  | todo => u "[ ]"
  | in_progress => u "[/]"
  | canceled => u "[-]"
  | done => u "[x]"
  end.

(** [findTaskLineByIdOrText] *)
Definition findTaskLineByIdOrText (lines : list jsstring)
    (taskId taskText : jsstring) : option nat :=
  match findIndex (fun line => includes line (ID_SIGN ++ u " " ++ taskId))
          lines with
  | Some taskLineIdx => Some taskLineIdx
  | None =>
      match findIndex
              (fun line => includes line (u "[[id:: " ++ taskId ++ u "]]"))
              lines with
      | Some taskLineIdx => Some taskLineIdx
      | None => findIndex (fun line => includes line taskText) lines
      end
  end.

(** The frontmatter boundaries.  [frontmatterStart] is 0 whenever it is not
    -1, so the closing index is all there is to return; [None] is the case
    [frontmatterStart === -1 || frontmatterEnd === -1]. *)
Definition frontmatterEnd (lines : list jsstring) : option nat :=
  if strictEq lines 0 (u "---") then
    firstIndex (length lines - 1) 1 (fun i => strictEq lines i (u "---"))
  else None.

(** ** Regular expressions of the mutator *)

(** [/\[([ x/\-])\]/] *)
Definition isStatusCode (c : N) : bool :=
  ((c =? 32) || (c =? 120) || (c =? 47) || (c =? 45))%N.

Definition statusRegex : matcher :=
  seq (lit (u "[")) (seq (classN isStatusCode 1) (lit (u "]"))).

(** [/^\s{2}- /] *)
Definition listItemRegex : matcher := seq (classN isSpace 2) (lit (u "- ")).

(** [/^\s{2}- (.+)$/] *)
Definition listItemValueRegex : matcher :=
  seq (classN isSpace 2) (seq (lit (u "- ")) (seq (classPlus isDot) eos)).

(** [tagLine.match(/^\s{2}- (.+)$/)] and its group 1. *)
Definition listItemValue (line : jsstring) : option jsstring :=
  match listItemValueRegex line with
  | Some _ => Some (skipn 4 line)
  | None => None
  end.

(** [tagMatch && tagMatch[1] === tag] *)
Definition listItemIs (line tag : jsstring) : bool :=
  match listItemValue line with
  | Some value => eqb value tag
  | None => false
  end.

(** [/^starred:\s*/] *)
Definition starredRegex : matcher := seq (lit (u "starred:")) (classStar isSpace).

(** [/^priority:\s*/] *)
Definition priorityRegex : matcher :=
  seq (lit (u "priority:")) (classStar isSpace).

(** [/^blockedBy:\s*$/] *)
Definition blockedByRegex : matcher :=
  seq (lit (u "blockedBy:")) (seq (classStar isSpace) eos).

(** [/^\s{2}- uid:/] *)
Definition uidItemRegex : matcher := seq (classN isSpace 2) (lit (u "- uid:")).

(** [/^\s{4}reltype:/] *)
Definition reltypeItemRegex : matcher :=
  seq (classN isSpace 4) (lit (u "reltype:")).

(** [/^\s*- uid:/] *)
Definition looseUidRegex : matcher := seq (classStar isSpace) (lit (u "- uid:")).

(** [/^\s*reltype:/] *)
Definition looseReltypeRegex : matcher :=
  seq (classStar isSpace) (lit (u "reltype:")).

(** [/\s*⭐\s*/g] *)
Definition starRegex : matcher :=
  seq (classStar isSpace) (seq (lit STAR) (classStar isSpace)).

(** The [tagPattern] of [removeTagFromTaskInVault]: [\s*], then [#] and the
    tag (the escaping turns it into a literal), then optionally [/\S*], then
    the lookahead [(?=\s|$)]; with the [g] flag. *)
Definition tagPattern (tag : jsstring) : matcher :=
  seq (classStar isSpace)
    (seq (lit (u "#" ++ tag))
       (seq (opt (seq (lit (u "/")) (classStar (fun c => negb (isSpace c)))))
          (lookahead (classN isSpace 1) eos))).

(** [/🆔\s*[a-zA-Z0-9]{6}/] *)
Definition emojiIdRegex : matcher :=
  seq (lit ID_SIGN) (seq (classStar isSpace) (classN isAlnum 6)).

(** [/\[\[id::\s*[a-zA-Z0-9]{6}\]\]/] *)
Definition dataviewIdRegex : matcher :=
  seq (lit (u "[[id::"))
    (seq (classStar isSpace) (seq (classN isAlnum 6) (lit (u "]]")))).

(** The [dataviewRegex]: [\[\[dependsOn::\s*], then group 1, which is
    [[a-zA-Z0-9]{6}] followed by any number of [,\s*[a-zA-Z0-9]{6}], then
    [\]\]]. *)
Definition dataviewHead : matcher :=
  seq (lit (u "[[dependsOn::")) (classStar isSpace).

Definition dataviewRegex : matcher :=
  seq dataviewHead
    (seq (classN isAlnum 6)
       (seq (star (seq (lit (u ","))
                     (seq (classStar isSpace) (classN isAlnum 6))))
          (lit (u "]]")))).

(** Group 1 of [dataviewRegex], from the matched substring. *)
Definition dataviewGroup (matched : jsstring) : jsstring :=
  match dataviewHead matched with
  | Some n => firstn (length matched - n - 2) (skipn n matched)
  | None => []
  end.

(** The [csvRegex] of [addSignToTaskInFile]: the stop sign and [\s*], then
    group 1, which is [[a-zA-Z0-9]{6}] followed by any number of
    [,[a-zA-Z0-9]{6}]. *)
Definition stopHead : matcher := seq (lit STOP_SIGN) (classStar isSpace).

Definition csvRegex : matcher :=
  seq stopHead
    (seq (classN isAlnum 6)
       (star (seq (lit (u ",")) (classN isAlnum 6)))).

(** [/⛔\s*([a-zA-Z0-9]{6})/g] *)
Definition individualRegex : matcher := seq stopHead (classN isAlnum 6).

(** The [csvRegex] of [removeSignFromTaskInFile]: the stop sign and [\s*],
    then group 1, which is [[a-zA-Z0-9]+] followed by any number of
    [,[a-zA-Z0-9]+]. *)
Definition looseCsvRegex : matcher :=
  seq stopHead
    (seq (classPlus isAlnum)
       (star (seq (lit (u ",")) (classPlus isAlnum)))).

(** Group 1 of the three stop-sign expressions, from the matched substring. *)
Definition stopGroup (matched : jsstring) : jsstring :=
  match stopHead matched with
  | Some n => skipn n matched
  | None => []
  end.

(** [s.match(re)]: the matched substring of the leftmost match. *)
Definition matchOf (m : matcher) (s : jsstring) : option jsstring :=
  match search m s with
  | Some (i, n) => Some (firstn n (skipn i s))
  | None => None
  end.

(** [group.split(",").map((id) => id.trim())] *)
Definition idsOf (group : jsstring) : list jsstring :=
  map trim (splitOn 44 group).

(** [ids.includes(hash)] *)
Definition hasId (ids : list jsstring) (hash : jsstring) : bool :=
  existsb (fun id => eqb id hash) ids.

Definition isSome {A} (x : option A) : bool :=
  match x with Some _ => true | None => false end.

(** ** Status *)

(** The status names of note tasks. *)
Definition noteStatus (newStatus : TaskStatus) : jsstring :=
  match newStatus with
  | todo => u "open"
  | done => u "done"
  | in_progress => u "in-progress"
  | canceled => u "canceled"
  end.

(** The callback of [updateTaskStatusInVault] for a note task. *)
Definition updateTaskStatusNote (newStatus : TaskStatus)
    (fileContent : jsstring) : outcome jsstring :=
  let lines := splitLines fileContent in
  match frontmatterEnd lines with
  | None => Ok fileContent
  | Some fmEnd =>
      found <- forFirst (fmEnd - 1) 1
                 (fun i => line <- get lines i ;;
                           Ok (startsWith line (u "status:"))) ;;
      match found with
      | Some i =>
          Ok (joinLines
                (assign lines i (u "status: " ++ noteStatus newStatus)))
      | None => Ok (joinLines lines)
      end
  end.

(** Group 1 of [statusRegex]. *)
Definition statusGroups (matched : jsstring) : list jsstring :=
  [firstn 1 (skipn 1 matched)].

(** The callback of [updateTaskStatusInVault] for an inline task. *)
Definition updateTaskStatusInline (task : Task) (newStatus : TaskStatus)
    (fileContent : jsstring) : outcome jsstring :=
  let lines := splitLines fileContent in
  match findTaskLineByIdOrText lines (task_id task) (task_text task) with
  | None => Ok fileContent
  | Some taskLineIdx =>
      line <- get lines taskLineIdx ;;
      Ok (joinLines
            (assign lines taskLineIdx
               (replaceRegex statusRegex statusGroups
                  (statusSymbols newStatus) line)))
  end.

(** ** Stars *)

(** The callback of [addStarToTaskInVault] for a note task. *)
Definition addStarNote (fileContent : jsstring) : outcome jsstring :=
  let lines := splitLines fileContent in
  match frontmatterEnd lines with
  | None => Ok fileContent
  | Some fmEnd =>
      starredIndex <- forFirst (fmEnd - 1) 1
                        (fun i => line <- get lines i ;;
                                  Ok (isSome (starredRegex line))) ;;
      match starredIndex with
      | Some i => Ok (joinLines (assign lines i (u "starred: true")))
      | None =>
          priorityIndex <- forFirst (fmEnd - 1) 1
                             (fun i => line <- get lines i ;;
                                       Ok (isSome (priorityRegex line))) ;;
          let insertIndex :=
            match priorityIndex with
            | Some i => i + 1
            | None => fmEnd
            end in
          Ok (joinLines (spliceInsert lines insertIndex [u "starred: true"]))
      end
  end.

(** The callback of [addStarToTaskInVault] for an inline task. *)
Definition addStarInline (task : Task) (fileContent : jsstring)
    : outcome jsstring :=
  let lines := splitLines fileContent in
  match findTaskLineByIdOrText lines (task_id task) (task_text task) with
  | None => Ok fileContent
  | Some taskLineIdx =>
      line <- get lines taskLineIdx ;;
      if includes line STAR then Ok fileContent
      else
        Ok (joinLines (assign lines taskLineIdx (line ++ u " " ++ STAR)))
  end.

(** The callback of [removeStarFromTaskInVault] for a note task. *)
Definition removeStarNote (fileContent : jsstring) : outcome jsstring :=
  let lines := splitLines fileContent in
  match frontmatterEnd lines with
  | None => Ok fileContent
  | Some fmEnd =>
      found <- forFirst (fmEnd - 1) 1
                 (fun i => line <- get lines i ;;
                           Ok (isSome (starredRegex line))) ;;
      match found with
      | Some i => Ok (joinLines (assign lines i (u "starred: false")))
      | None => Ok (joinLines lines)
      end
  end.

(** The callback of [removeStarFromTaskInVault] for an inline task. *)
Definition removeStarInline (task : Task) (fileContent : jsstring)
    : outcome jsstring :=
  let lines := splitLines fileContent in
  match findTaskLineByIdOrText lines (task_id task) (task_text task) with
  | None => Ok fileContent
  | Some taskLineIdx =>
      line <- get lines taskLineIdx ;;
      Ok (joinLines
            (assign lines taskLineIdx
               (trim (replaceAll starRegex (u " ") line))))
  end.

(** ** Tags *)

(** The inner loop of [removeTagFromTaskInVault]:
    [while (i < frontmatterEnd && lines[i].match(/^\s{2}- /))];
    [count] is [frontmatterEnd - i]. *)
Fixpoint removeTagItem (count i : nat) (lines : list jsstring)
    (tagToRemove : jsstring) : outcome (list jsstring) :=
  match count with
  | 0 => Ok lines
  | S count' =>
      tagLine <- get lines i ;;
      if isSome (listItemRegex tagLine) then
        if listItemIs tagLine tagToRemove then Ok (spliceRemove lines i)
        else removeTagItem count' (S i) lines tagToRemove
      else Ok lines
  end.

(** The callback of [removeTagFromTaskInVault] for a note task. *)
Definition removeTagNote (tagToRemove : jsstring) (fileContent : jsstring)
    : outcome jsstring :=
  let lines := splitLines fileContent in
  match frontmatterEnd lines with
  | None => Ok fileContent
  | Some fmEnd =>
      match firstIndex (fmEnd - 1) 1
              (fun i => strictEq lines i (u "tags:")) with
      | Some i =>
          lines' <- removeTagItem (fmEnd - (i + 1)) (i + 1) lines
                      tagToRemove ;;
          Ok (joinLines lines')
      | None => Ok (joinLines lines)
      end
  end.

(** The inner loop of [addTagToTaskInVault]:
    [while (j < frontmatterEnd && lines[j].match(/^\s{2}- /))];
    [None] is the early [return fileContent], [Some j] the index where the
    loop stops. *)
Fixpoint findTagSlot (count j : nat) (lines : list jsstring)
    (tagToAdd : jsstring) : outcome (option nat) :=
  match count with
  | 0 => Ok (Some j)
  | S count' =>
      tagLine <- get lines j ;;
      if isSome (listItemRegex tagLine) then
        if listItemIs tagLine tagToAdd then Ok None
        else findTagSlot count' (S j) lines tagToAdd
      else Ok (Some j)
  end.

(** The callback of [addTagToTaskInVault] for a note task. *)
Definition addTagNote (tagToAdd : jsstring) (fileContent : jsstring)
    : outcome jsstring :=
  let lines := splitLines fileContent in
  match frontmatterEnd lines with
  | None => Ok fileContent
  | Some fmEnd =>
      match firstIndex (fmEnd - 1) 1
              (fun i => strictEq lines i (u "tags:")) with
      | Some tagsIndex =>
          slot <- findTagSlot (fmEnd - (tagsIndex + 1)) (tagsIndex + 1)
                    lines tagToAdd ;;
          match slot with
          | None => Ok fileContent
          | Some j =>
              Ok (joinLines (spliceInsert lines j [u "  - " ++ tagToAdd]))
          end
      | None =>
          Ok (joinLines
                (spliceInsert lines fmEnd
                   [u "tags:"; u "  - " ++ tagToAdd]))
      end
  end.

Section InlineTags.

(** The expressions of src/lib/task-regex, each as the replacement it is
    used in: [s.replace(EMOJI_ID_REMOVAL, "")],
    [s.replace(DATAVIEW_ID_REMOVAL, "")], [s.replace(TAG_REMOVAL, "")] and
    [s.replace(WHITESPACE_NORMALIZE, " ")]. *)
Variables removeEmojiId removeDataviewId removeTags normalizeWhitespace :
  jsstring -> jsstring.

Definition coreTextOf (s : jsstring) : jsstring :=
  trim (normalizeWhitespace (removeTags (removeDataviewId (removeEmojiId s)))).

(** The lookup of the tag mutations: by id or text, then by core text. *)
Definition findTaskLineForTags (lines : list jsstring) (task : Task)
    : option nat :=
  match findTaskLineByIdOrText lines (task_id task) (task_text task) with
  | Some taskLineIdx => Some taskLineIdx
  | None =>
      let coreTaskText := coreTextOf (task_text task) in
      findIndex
        (fun line =>
           let coreLineText := coreTextOf line in
           includes coreLineText coreTaskText ||
           includes coreTaskText coreLineText)
        lines
  end.

(** [/\s+/g] *)
Definition spacesRegex : matcher := classPlus isSpace.

(** The callback of [removeTagFromTaskInVault] for an inline task. *)
Definition removeTagInline (task : Task) (tagToRemove : jsstring)
    (fileContent : jsstring) : outcome jsstring :=
  let lines := splitLines fileContent in
  match findTaskLineForTags lines task with
  | None => Ok fileContent
  | Some taskLineIdx =>
      currentLine <- get lines taskLineIdx ;;
      let newLine :=
        trim (replaceAll spacesRegex (u " ")
                (replaceAll (tagPattern tagToRemove) [] currentLine)) in
      Ok (joinLines (assign lines taskLineIdx newLine))
  end.

(** The callback of [addTagToTaskInVault] for an inline task. *)
Definition addTagInline (task : Task) (tagToAdd : jsstring)
    (fileContent : jsstring) : outcome jsstring :=
  let lines := splitLines fileContent in
  match findTaskLineForTags lines task with
  | None => Ok fileContent
  | Some taskLineIdx =>
      currentLine <- get lines taskLineIdx ;;
      let formattedTag :=
        if startsWith tagToAdd (u "#") then tagToAdd else u "#" ++ tagToAdd in
      Ok (joinLines
            (assign lines taskLineIdx
               (trim currentLine ++ u " " ++ formattedTag)))
  end.

End InlineTags.

(** ** Dependencies of note tasks *)

(** The loop of [addDependencyToNoteTask] that walks over the entries of
    [blockedBy]; [bound] is [frontmatterStart + 1 + frontmatterLines.length]. *)
Fixpoint skipBlockedByItems (fuel bound : nat) (lines : list jsstring)
    (insertIndex : nat) : outcome nat :=
  if insertIndex <? bound then
    match fuel with
    | 0 => Timeout
    | S fuel' =>
        line <- get lines insertIndex ;;
        if isSome (uidItemRegex line) then
          let insertIndex := insertIndex + 1 in
          reltype <-
            (if insertIndex <? length lines then
               next <- get lines insertIndex ;;
               Ok (isSome (reltypeItemRegex next))
             else Ok false) ;;
          skipBlockedByItems fuel' bound lines
            (if reltype then insertIndex + 1 else insertIndex)
        else Ok insertIndex
    end
  else Ok insertIndex.

Definition QUOTE : jsstring := [34%N].

(** The callback of [addDependencyToNoteTask]. *)
Definition addDependencyCallback (fromTask : Task) (fileContent : jsstring)
    : outcome jsstring :=
  let lines := splitLines fileContent in
  match frontmatterEnd lines with
  | None => Ok fileContent
  | Some fmEnd =>
      let frontmatterLines := firstn (fmEnd - 1) (skipn 1 lines) in
      blockedByIndex <-
        forFirst (length frontmatterLines) 0
          (fun i => line <- get frontmatterLines i ;;
                    Ok (isSome (blockedByRegex line))) ;;
      let taskIdentifier := u "[[" ++ task_text fromTask ++ u "]]" in
      existing <-
        forFirst (fmEnd - 1) 1
          (fun i => line <- get lines i ;;
                    Ok (includes line (u "uid:") &&
                        includes line taskIdentifier)) ;;
      match existing with
      | Some _ => Ok fileContent
      | None =>
          let uidLine := u "  - uid: " ++ QUOTE ++ taskIdentifier ++ QUOTE in
          let reltypeLine := u "    reltype: FINISHTOSTART" in
          match blockedByIndex with
          | None =>
              Ok (joinLines
                    (spliceInsert lines fmEnd
                       [u "blockedBy:"; uidLine; reltypeLine]))
          | Some blockedByIndex =>
              insertIndex <-
                skipBlockedByItems (length lines)
                  (0 + 1 + length frontmatterLines) lines
                  (0 + 1 + blockedByIndex + 1) ;;
              Ok (joinLines
                    (spliceInsert lines insertIndex [uidLine; reltypeLine]))
          end
      end
  end.

(** [s.replace(/\.md$/, "")] *)
Definition removeMdSuffix (s : jsstring) : jsstring :=
  if (3 <=? length s) && eqb (skipn (length s - 3) s) (u ".md") then
    firstn (length s - 3) s
  else s.

(** [fromTaskId.replace(/\.md$/, "").split("/").pop()] *)
Definition basenameOf (fromTaskId : jsstring) : jsstring :=
  last (splitOn 47 (removeMdSuffix fromTaskId)) [].

(** The loop of [removeDependencyFromNoteTask].  [frontmatterEnd -= 2] is
    reached with [1 <= i < frontmatterEnd] only, so the difference is not
    negative. *)
Fixpoint removeDependencyItems (fuel i fmEnd : nat) (lines : list jsstring)
    (basename : jsstring) : outcome (list jsstring) :=
  if i <? fmEnd then
    match fuel with
    | 0 => Timeout
    | S fuel' =>
        line <- get lines i ;;
        if isSome (looseUidRegex line) &&
           includes line (u "[[" ++ basename ++ u "]]")
        then
          let lines := spliceRemove lines i in
          reltype <-
            (if i <? length lines then
               next <- get lines i ;;
               Ok (isSome (looseReltypeRegex next))
             else Ok false) ;;
          let lines := if reltype then spliceRemove lines i else lines in
          removeDependencyItems fuel' i (fmEnd - 2) lines basename
        else removeDependencyItems fuel' (i + 1) fmEnd lines basename
    end
  else Ok lines.

(** The callback of [removeDependencyFromNoteTask]. *)
Definition removeDependencyCallback (fromTaskId : jsstring)
    (fileContent : jsstring) : outcome jsstring :=
  let lines := splitLines fileContent in
  match frontmatterEnd lines with
  | None => Ok fileContent
  | Some fmEnd =>
      lines' <- removeDependencyItems (length lines) 1 fmEnd lines
                  (basenameOf fromTaskId) ;;
      Ok (joinLines lines')
  end.

(** ** Signs of inline tasks *)

Inductive SignType := SignStop | SignId.

(** The callback of [addSignToTaskInFile]. *)
Definition addSignCallback (task : Task) (type : SignType)
    (hash : jsstring) (linkingStyle : LinkingStyle) (fileContent : jsstring)
    : outcome jsstring :=
  let lines := splitLines fileContent in
  match findIndex (fun line => includes line (task_text task)) lines with
  | None => Ok fileContent
  | Some taskLineIdx =>
      line <- get lines taskLineIdx ;;
      match type with
      | SignId =>
          let emojiIdPresent := test emojiIdRegex line in
          let dataviewIdPresent := test dataviewIdRegex line in
          if emojiIdPresent || dataviewIdPresent then Ok fileContent
          else
            let sign :=
              match linkingStyle with
              | dataview => u "[[id:: " ++ hash ++ u "]]"
              | _ => ID_SIGN ++ u " " ++ hash
              end in
            if includes line sign then Ok fileContent
            else
              Ok (joinLines (assign lines taskLineIdx (line ++ u " " ++ sign)))
      | SignStop =>
          let usesDataviewFormat :=
            match linkingStyle with dataview => true | _ => false end ||
            test dataviewIdRegex line || test dataviewRegex line in
          if usesDataviewFormat then
            match matchOf dataviewRegex line with
            | Some dataviewMatch =>
                let existingIds := idsOf (dataviewGroup dataviewMatch) in
                if hasId existingIds hash then Ok (joinLines lines)
                else
                  let newList := join (u ", ") (existingIds ++ [hash]) in
                  Ok (joinLines
                        (assign lines taskLineIdx
                           (replaceRegex dataviewRegex
                              (fun m => [dataviewGroup m])
                              (u "[[dependsOn:: " ++ newList ++ u "]]")
                              line)))
            | None =>
                Ok (joinLines
                      (assign lines taskLineIdx
                         (line ++ u " [[dependsOn:: " ++ hash ++ u "]]")))
            end
          else
            match linkingStyle with
            | csv =>
                match matchOf csvRegex line with
                | Some csvMatch =>
                    let existingIds := idsOf (stopGroup csvMatch) in
                    if hasId existingIds hash then Ok (joinLines lines)
                    else
                      let newCsvList :=
                        join (u ",") (existingIds ++ [hash]) in
                      Ok (joinLines
                            (assign lines taskLineIdx
                               (replaceRegex csvRegex
                                  (fun m => [stopGroup m])
                                  (STOP_SIGN ++ u " " ++ newCsvList)
                                  line)))
                | None =>
                    let individualMatches := matchAll individualRegex line in
                    match individualMatches with
                    | _ :: _ =>
                        let existingIds := map stopGroup individualMatches in
                        let existingIds :=
                          if hasId existingIds hash then existingIds
                          else existingIds ++ [hash] in
                        let updatedLine :=
                          fold_left
                            (fun updatedLine m => replaceFirst updatedLine m [])
                            individualMatches line in
                        let updatedLine :=
                          trim updatedLine ++ u " " ++ STOP_SIGN ++ u " " ++
                          join (u ",") existingIds in
                        Ok (joinLines (assign lines taskLineIdx updatedLine))
                    | [] =>
                        Ok (joinLines
                              (assign lines taskLineIdx
                                 (line ++ u " " ++ STOP_SIGN ++ u " " ++ hash)))
                    end
                end
            | _ =>
                let sign := STOP_SIGN ++ u " " ++ hash in
                if includes line sign then Ok fileContent
                else
                  Ok (joinLines
                        (assign lines taskLineIdx (line ++ u " " ++ sign)))
            end
      end
  end.

(** [existingIds.filter((id) => id !== hash)] *)
Definition withoutId (ids : list jsstring) (hash : jsstring)
    : list jsstring :=
  filter (fun id => negb (eqb id hash)) ids.

(** The callback of [removeSignFromTaskInFile]. *)
Definition removeSignCallback (task : Task) (type : SignType)
    (hash : jsstring) (fileContent : jsstring) : outcome jsstring :=
  let lines := splitLines fileContent in
  match findIndex (fun line => includes line (task_text task)) lines with
  | None => Ok fileContent
  | Some taskLineIdx =>
      line <- get lines taskLineIdx ;;
      match type with
      | SignId =>
          let emojiSign := ID_SIGN ++ u " " ++ hash in
          if includes line emojiSign then
            Ok (joinLines
                  (assign lines taskLineIdx
                     (trimEnd (replaceFirst line emojiSign []))))
          else
            let dataviewSign := u "[[id:: " ++ hash ++ u "]]" in
            if includes line dataviewSign then
              Ok (joinLines
                    (assign lines taskLineIdx
                       (trimEnd (replaceFirst line dataviewSign []))))
            else Ok (joinLines lines)
      | SignStop =>
          match matchOf dataviewRegex line with
          | Some dataviewMatch =>
              let existingIds := idsOf (dataviewGroup dataviewMatch) in
              let filteredIds := withoutId existingIds hash in
              if length filteredIds =? 0 then
                Ok (joinLines
                      (assign lines taskLineIdx
                         (trimEnd (replaceFirst line dataviewMatch []))))
              else if negb (length filteredIds =? length existingIds) then
                let newList := join (u ", ") filteredIds in
                Ok (joinLines
                      (assign lines taskLineIdx
                         (replaceRegex dataviewRegex
                            (fun m => [dataviewGroup m])
                            (u "[[dependsOn:: " ++ newList ++ u "]]") line)))
              else Ok (joinLines lines)
          | None =>
              match matchOf looseCsvRegex line with
              | Some csvMatch =>
                  let existingIds := idsOf (stopGroup csvMatch) in
                  let filteredIds := withoutId existingIds hash in
                  if length filteredIds =? 0 then
                    Ok (joinLines
                          (assign lines taskLineIdx
                             (trimEnd (replaceFirst line csvMatch []))))
                  else if negb (length filteredIds =? length existingIds) then
                    let newCsvList := join (u ",") filteredIds in
                    Ok (joinLines
                          (assign lines taskLineIdx
                             (replaceFirst line csvMatch
                                (STOP_SIGN ++ u " " ++ newCsvList))))
                  else Ok (joinLines lines)
              | None =>
                  let sign := STOP_SIGN ++ u " " ++ hash in
                  if includes line sign then
                    Ok (joinLines
                          (assign lines taskLineIdx
                             (trimEnd (replaceFirst line sign []))))
                  else Ok (joinLines lines)
              end
          end
      end
  end.

(** ** The vault *)

(** The documents of the vault, by path. *)
Definition Vault := jsstring -> option jsstring.

Definition writeFile (vault : Vault) (path content : jsstring) : Vault :=
  fun p => if eqb p path then Some content else vault p.

(** [vault.process(file, fn)] *)
Definition process (vault : Vault) (path : jsstring)
    (fn : jsstring -> outcome jsstring) : outcome Vault :=
  match vault path with
  | None => Ok vault
  | Some fileContent =>
      newContent <- fn fileContent ;;
      Ok (writeFile vault path newContent)
  end.

(** The guards every mutation starts with: [!task.link || !task.text], and
    the file that is not in the vault. *)
Definition guarded (checkText : bool) (task : Task) (vault : Vault)
    (fn : jsstring -> outcome jsstring) : outcome Vault :=
  if isEmpty (task_link task) || (checkText && isEmpty (task_text task))
  then Ok vault
  else
    match vault (task_link task) with
    | None => Ok vault
    | Some _ => process vault (task_link task) fn
    end.

Definition updateTaskStatusInVault (task : Task) (newStatus : TaskStatus)
    (vault : Vault) : outcome Vault :=
  guarded true task vault
    (match task_type task with
     | note => updateTaskStatusNote newStatus
     | inline => updateTaskStatusInline task newStatus
     end).

Definition addStarToTaskInVault (task : Task) (vault : Vault)
    : outcome Vault :=
  guarded true task vault
    (match task_type task with
     | note => addStarNote
     | inline => addStarInline task
     end).

Definition removeStarFromTaskInVault (task : Task) (vault : Vault)
    : outcome Vault :=
  guarded true task vault
    (match task_type task with
     | note => removeStarNote
     | inline => removeStarInline task
     end).

Definition addSignToTaskInFile (vault : Vault) (task : Task)
    (type : SignType) (hash : jsstring) (linkingStyle : LinkingStyle)
    : outcome Vault :=
  guarded true task vault (addSignCallback task type hash linkingStyle).

Definition removeSignFromTaskInFile (vault : Vault) (task : Task)
    (type : SignType) (hash : jsstring) : outcome Vault :=
  guarded true task vault (removeSignCallback task type hash).

Definition addDependencyToNoteTask (vault : Vault) (toTask fromTask : Task)
    : outcome Vault :=
  guarded false toTask vault (addDependencyCallback fromTask).

Definition removeDependencyFromNoteTask (vault : Vault) (toTask : Task)
    (fromTaskId : jsstring) : outcome Vault :=
  guarded false toTask vault (removeDependencyCallback fromTaskId).

(** [removeLinkSignsBetweenTasks] *)
Definition removeLinkSignsBetweenTasks (vault : Vault) (toTask : Task)
    (hash : jsstring) : outcome Vault :=
  if isEmpty (task_link toTask) then Ok vault
  else
    match task_type toTask with
    | note => removeDependencyFromNoteTask vault toTask hash
    | inline => removeSignFromTaskInFile vault toTask SignStop hash
    end.

(** ** Linking two tasks *)

Definition ID_CHARS : jsstring := u "abcdefghijklmnopqrstuvwxyz0123456789".

(** [generateShortId]; [draw i] is the value of
    [Math.floor(Math.random() * chars.length)] in round [i] of the loop. *)
Definition generateShortId (draw : nat -> nat) : jsstring :=
  fold_left (fun result i => result ++ charAt ID_CHARS (draw i))
    (List.seq 0 6) [].

(** The expression of [getProperIdForLinking]: the id sign, [\s*], then
    group 1, which is [\w+]. *)
Definition idTokenRegex : matcher :=
  seq (lit ID_SIGN) (seq (classStar isSpace) (classPlus isWord)).

(** Group 1 of [idTokenRegex], from the matched substring. *)
Definition idTokenGroup (matched : jsstring) : jsstring :=
  match seq (lit ID_SIGN) (classStar isSpace) matched with
  | Some n => skipn n matched
  | None => []
  end.

(** [getProperIdForLinking] *)
Definition getProperIdForLinking (draw : nat -> nat) (task : Task)
    : jsstring :=
  if negb (isEmpty (task_id task)) &&
     (includes (task_id task) (u "/") || (10 <? length (task_id task)))
  then
    match matchOf idTokenRegex (task_text task) with
    | Some idMatch => idTokenGroup idMatch
    | None => generateShortId draw
    end
  else task_id task.


Section InlineTagsInVault.

Variables removeEmojiId removeDataviewId removeTags normalizeWhitespace :
  jsstring -> jsstring.

Definition removeTagFromTaskInVault (task : Task) (tagToRemove : jsstring)
    (vault : Vault) : outcome Vault :=
  guarded true task vault
    (match task_type task with
     | note => removeTagNote tagToRemove
     | inline =>
         removeTagInline removeEmojiId removeDataviewId removeTags
           normalizeWhitespace task tagToRemove
     end).

Definition addTagToTaskInVault (task : Task) (tagToAdd : jsstring)
    (vault : Vault) : outcome Vault :=
  guarded true task vault
    (match task_type task with
     | note => addTagNote tagToAdd
     | inline =>
         addTagInline removeEmojiId removeDataviewId removeTags
           normalizeWhitespace task tagToAdd
     end).

(** ** The operations as one family *)

(** A mutation of one document. *)
Inductive Operation :=
| SetStatus (newStatus : TaskStatus)
| AddTag (tagToAdd : jsstring)
| RemoveTag (tagToRemove : jsstring)
| AddStar
| RemoveStar
| AddSign (type : SignType) (hash : jsstring) (linkingStyle : LinkingStyle)
| RemoveSign (type : SignType) (hash : jsstring)
| AddNoteDependency (fromTask : Task)
| RemoveNoteDependency (fromTaskId : jsstring).

(** The callback the operation hands to [vault.process] for the document of
    [task]. *)
Definition callback (op : Operation) (task : Task)
    : jsstring -> outcome jsstring :=
  match op with
  | SetStatus newStatus =>
      match task_type task with
      | note => updateTaskStatusNote newStatus
      | inline => updateTaskStatusInline task newStatus
      end
  | AddTag tagToAdd =>
      match task_type task with
      | note => addTagNote tagToAdd
      | inline =>
          addTagInline removeEmojiId removeDataviewId removeTags
            normalizeWhitespace task tagToAdd
      end
  | RemoveTag tagToRemove =>
      match task_type task with
      | note => removeTagNote tagToRemove
      | inline =>
          removeTagInline removeEmojiId removeDataviewId removeTags
            normalizeWhitespace task tagToRemove
      end
  | AddStar =>
      match task_type task with
      | note => addStarNote
      | inline => addStarInline task
      end
  | RemoveStar =>
      match task_type task with
      | note => removeStarNote
      | inline => removeStarInline task
      end
  | AddSign type hash linkingStyle =>
      addSignCallback task type hash linkingStyle
  | RemoveSign type hash => removeSignCallback task type hash
  | AddNoteDependency fromTask => addDependencyCallback fromTask
  | RemoveNoteDependency fromTaskId => removeDependencyCallback fromTaskId
  end.

(** The exported function that carries out the operation on the vault. *)
Definition mutateVault (op : Operation) (task : Task) (vault : Vault)
    : outcome Vault :=
  match op with
  | SetStatus newStatus => updateTaskStatusInVault task newStatus vault
  | AddTag tagToAdd => addTagToTaskInVault task tagToAdd vault
  | RemoveTag tagToRemove => removeTagFromTaskInVault task tagToRemove vault
  | AddStar => addStarToTaskInVault task vault
  | RemoveStar => removeStarFromTaskInVault task vault
  | AddSign type hash linkingStyle =>
      addSignToTaskInFile vault task type hash linkingStyle
  | RemoveSign type hash => removeSignFromTaskInFile vault task type hash
  | AddNoteDependency fromTask => addDependencyToNoteTask vault task fromTask
  | RemoveNoteDependency fromTaskId =>
      removeDependencyFromNoteTask vault task fromTaskId
  end.

End InlineTagsInVault.

End Mutator.

(* ================================================================== *)
(** * Reading the status back (src/views/TaskMapGraphView.tsx) *)
(* ================================================================== *)

Module Parser.

(** [/^[\s]*- \[(.)\]/] of [scanTasksFromFiles]. *)
Definition checklistRegex : matcher :=
  seq (classStar isSpace)
    (seq (lit (u "- [")) (seq (classN isDot 1) (lit (u "]")))).

(** [taskMatch[1]]: the status code of a checklist line. *)
Definition scanStatusCode (line : jsstring) : option N :=
  match checklistRegex line with
  | Some n => nth_error line (n - 2)
  | None => None
  end.

(** Modelled from the spec: the status that [TaskFactory.parse] of
    src/lib/task-factory, which is not among the sources, gives to a status
    code: "space→todo, /→in_progress, -→canceled, x→done".  The spec gives no
    status to another code. *)
Definition parseStatus (code : N) : option TaskStatus :=
  if (code =? 32)%N then Some todo
  else if (code =? 47)%N then Some in_progress
  else if (code =? 45)%N then Some canceled
  else if (code =? 120)%N then Some done
  else None.

(** The status read back from a line of a document. *)
Definition statusOfLine (line : jsstring) : option TaskStatus :=
  match scanStatusCode line with
  | Some code => parseStatus code
  | None => None
  end.

End Parser.

(* ================================================================== *)
(** * Task list of the sidebar (src/views/TaskMapGraphView.tsx) *)
(* ================================================================== *)

Module Sidebar.

(** The template string [`${child.path}:${index}`] that the scans of the
    sidebar and of the canvas give a task as its id. *)
Definition stableTaskId (path : jsstring) (index : nat) : jsstring :=
  path ++ u ":" ++ natToString index.

(** [handleOpenFile]: the path and the line handed to [leaf.openFile], or
    [None] when the handler opens nothing.  [isFile] tells whether
    [getAbstractFileByPath] finds a [TFile]; the line [None] is [NaN]. *)
Definition handleOpenFile (isFile : jsstring -> bool) (task : Task)
    : option (jsstring * option Z) :=
  let target :=
    if includes (task_id task) (u ":") then
      let parts := splitOn 58 (task_id task) in
      let popped := last parts [] in
      let lineNumber :=
        parseInt (if Mutator.isEmpty popped then u "0" else popped) in
      (join (u ":") (withoutLast parts), lineNumber)
    else if negb (Mutator.isEmpty (task_link task)) then
      (task_link task, Some 0%Z)
    else ([], Some 0%Z) in
  if Mutator.isEmpty (fst target) then None
  else if isFile (fst target) then Some target
  else None.

End Sidebar.

(* ================================================================== *)
(** * Tag editor of a node (src/components/task-node.tsx) *)
(* ================================================================== *)

Module TaskNodeView.

(** [tagToAdd.trim().replace(/^#+/, "")] *)
Definition cleanTagOf (tagToAdd : jsstring) : jsstring :=
  let trimmed := trim tagToAdd in
  skipn (countWhile (fun c => (c =? 35)%N) trimmed) trimmed.

Section Handlers.

(** The vault around the node: the two mutations of the tag editor, as the
    node calls them for its task. *)
Variable addTag removeTag :
  jsstring -> Mutator.Vault -> Mutator.outcome Mutator.Vault.

(** [handleAddTag]: the tags the node shows and the vault, before and after
    the handler.  The [catch] restores the tags whenever the mutation does
    not return. *)
Definition handleAddTag (tagToAdd : jsstring)
    (state : list jsstring * Mutator.Vault)
    : list jsstring * Mutator.Vault :=
  let (tags, vault) := state in
  if Mutator.isEmpty (trim tagToAdd) then state
  else if includes tagToAdd (u " ") then state
  else
    let cleanTag := cleanTagOf tagToAdd in
    if Canvas.hasString tags cleanTag then state
    else
      let updatedTags := tags ++ [cleanTag] in
      match addTag cleanTag vault with
      | Mutator.Ok vault' => (updatedTags, vault')
      | _ =>
          (filter (fun tag => negb (eqb tag cleanTag)) updatedTags, vault)
      end.

(** [handleTagRemove] *)
Definition handleTagRemove (tagToRemove : jsstring)
    (state : list jsstring * Mutator.Vault)
    : list jsstring * Mutator.Vault :=
  let (tags, vault) := state in
  let updatedTags := filter (fun tag => negb (eqb tag tagToRemove)) tags in
  match removeTag tagToRemove vault with
  | Mutator.Ok vault' => (updatedTags, vault')
  | _ => (updatedTags ++ [tagToRemove], vault)
  end.

End Handlers.

End TaskNodeView.

(* ================================================================== *)
(** * Scan of the task files (src/views/TaskMapGraphView.tsx) *)
(* ================================================================== *)

Module Scanner.

Section Scan.

(** [TaskFactory.parse] of src/lib/task-factory, which is not among the
    sources, on the raw task with this status code, text and path. *)
Variable parse : jsstring -> jsstring -> jsstring -> Task.

(** The expression of [line.replace(/^[\s]*- \[.\]\s*/, "")]. *)
Definition markerRegex : matcher :=
  seq Parser.checklistRegex (classStar isSpace).

Definition textOfLine (line : jsstring) : jsstring :=
  match markerRegex line with
  | Some n => skipn n line
  | None => line
  end.

(** [task.id = id] *)
Definition withId (task : Task) (id : jsstring) : Task :=
  {| task_id := id;
     task_type := task_type task;
     task_summary := task_summary task;
     task_text := task_text task;
     task_tags := task_tags task;
     task_status := task_status task;
     task_priority := task_priority task;
     task_link := task_link task;
     task_incomingLinks := task_incomingLinks task;
     task_starred := task_starred task;
     task_line := task_line task |}.

(** The callback of [lines.forEach] in [scanTasksFromFiles]: the tasks it
    pushes for one line. *)
Definition scanLine (path line : jsstring) (index : nat) : list Task :=
  match Parser.checklistRegex line with
  | Some n =>
      let rawStatus := firstn 1 (skipn (n - 2) line) in
      let rawText := textOfLine line in
      [withId (parse rawStatus rawText path)
         (Sidebar.stableTaskId path index)]
  | None => []
  end.

(** What [scanTasksFromFiles] pushes for one markdown file:
    [content.split("\n")] and the loop over the lines. *)
Definition scanFile (path content : jsstring) : list Task :=
  concat (mapi (scanLine path) (splitOn 10 content)).

End Scan.

End Scanner.

(* ================================================================== *)
(** * Plugin (src/main.tsx) *)
(* ================================================================== *)

Module Plugin.

(** [getCanvasTaskIds] of the plugin.  [view] is the canvas of the view that
    registered its operations, if there is one: its own [getCanvasTaskIds]
    answers the ids of its nodes.  [graphData] is the snapshot. *)
Definition getCanvasTaskIds (view : option Canvas.State)
    (graphData : GraphData) : list jsstring :=
  match view with
  | Some st => map node_id (Canvas.st_nodes st)
  | None => map saved_taskId (gd_nodes graphData)
  end.

End Plugin.


(* ================================================================== *)
(** * Predicates of the specification *)
(* ================================================================== *)

Import Mutator.

(** The edge the specification asks for: from [parent] to the task. *)
Definition dependencyEdge (direction : LayoutDirection) (debug : bool)
    (task : Task) (parent : jsstring) : TaskEdge :=
  mkEdge (parent ++ u "-" ++ task_id task) parent (task_id task)
    (mkEdgeData (parent ++ u "-" ++ task_id task) direction debug) None.

Definition uniqueNodeIds (st : Canvas.State) : Prop :=
  NoDup (map node_id (Canvas.st_nodes st)).

Definition uniqueSavedIds (graphData : GraphData) : Prop :=
  NoDup (map saved_id (gd_nodes graphData)).

(** The invariant of the canvas: the ids are unique on the canvas and in the
    snapshot the canvas was saved to. *)
Definition canvasInv (st : Canvas.State) : Prop :=
  uniqueNodeIds st /\ uniqueSavedIds (Canvas.st_graphData st).

(** A line read back is the line written, less a carriage return at its
    end. *)
Definition readBack (written read : jsstring) : Prop :=
  read = written \/ written = read ++ [CR].

(** The attribute block is missing (the first line is not [---]) or
    unterminated (no later line is [---]). *)
Definition blockMissing (lines : list jsstring) : Prop :=
  nth_error lines 0 <> Some (u "---") \/
  (forall i, 1 <= i -> nth_error lines i <> Some (u "---")).

(** The line carries the id marker of the task, its id field, or its text. *)
Definition marksTask (task : Task) (line : jsstring) : bool :=
  includes line (ID_SIGN ++ u " " ++ task_id task) ||
  includes line (u "[[id:: " ++ task_id task ++ u "]]") ||
  includes line (task_text task).

(** How an operation finds what it rewrites. *)
Inductive Target :=
| AttributeBlock
| LineByIdOrText
| LineByIdTextOrCore
| LineByText.

Definition targetOf (op : Operation) (task : Task) : Target :=
  match op with
  | SetStatus _ | AddStar | RemoveStar =>
      match task_type task with
      | note => AttributeBlock
      | inline => LineByIdOrText
      end
  | AddTag _ | RemoveTag _ =>
      match task_type task with
      | note => AttributeBlock
      | inline => LineByIdTextOrCore
      end
  | AddSign _ _ _ | RemoveSign _ _ => LineByText
  | AddNoteDependency _ | RemoveNoteDependency _ => AttributeBlock
  end.

Section Targets.

Variables removeEmojiId removeDataviewId removeTags normalizeWhitespace :
  jsstring -> jsstring.

(** The line and the task have the same text once the markers are gone. *)
Definition sameCoreText (task : Task) (line : jsstring) : bool :=
  let core :=
    coreTextOf removeEmojiId removeDataviewId removeTags normalizeWhitespace in
  includes (core line) (core (task_text task)) ||
  includes (core (task_text task)) (core line).

(** The target of the operation cannot be located in the document. *)
Definition targetMissing (op : Operation) (task : Task)
    (fileContent : jsstring) : Prop :=
  match targetOf op task with
  | AttributeBlock => blockMissing (splitLines fileContent)
  | LineByIdOrText =>
      forall line, In line (splitLines fileContent) ->
                   marksTask task line = false
  | LineByIdTextOrCore =>
      forall line, In line (splitLines fileContent) ->
                   marksTask task line = false /\
                   sameCoreText task line = false
  | LineByText =>
      forall line, In line (splitLines fileContent) ->
                   includes line (task_text task) = false
  end.

End Targets.

(** Every edge of the canvas joins two of its nodes. *)
Definition edgesClosed (st : Canvas.State) : Prop :=
  forall e,
    In e (Canvas.st_edges st) ->
    In (edge_source e) (map node_id (Canvas.st_nodes st)) /\
    In (edge_target e) (map node_id (Canvas.st_nodes st)).

(** The test of a loop over the lines, at an index. *)
Definition lineIs (f : jsstring -> bool) (lines : list jsstring) (i : nat)
    : bool :=
  match nth_error lines i with
  | Some l => f l
  | None => false
  end.

(** The test of the loop of [removeDependencyFromNoteTask]. *)
Definition namesDependency (basename line : jsstring) : bool :=
  isSome (looseUidRegex line) &&
  includes line (u "[[" ++ basename ++ u "]]").

(** A lower-case letter or a digit: the units of a base-36 number. *)
Definition isLowerOrDigit (c : N) : bool :=
  ((97 <=? c) && (c <=? 122) || (48 <=? c) && (c <=? 57))%N.

(** The sign [addSignToTaskInFile] writes for an id. *)
Definition idSign (linkingStyle : LinkingStyle) (hash : jsstring)
    : jsstring :=
  match linkingStyle with
  | dataview => u "[[id:: " ++ hash ++ u "]]"
  | _ => ID_SIGN ++ u " " ++ hash
  end.

(** The callback returns a document with as many lines as the one it was
    given, in which every line but the one of the task is the line it
    was. *)
Definition touchesOnlyTaskLine (task : Task) (fileContent : jsstring)
    (fn : jsstring -> outcome jsstring) : Prop :=
  exists out,
    fn fileContent = Ok out /\
    length (splitLines out) = length (splitLines fileContent) /\
    forall j,
      findTaskLineByIdOrText (splitLines fileContent) (task_id task)
        (task_text task) <> Some j ->
      nth_error (splitLines out) j = nth_error (splitLines fileContent) j.

(* ================================================================== *)
(** * Sample documents, tasks and snapshots *)
(* ================================================================== *)

(** A collaborator that places every node with its centre at (125, 60): the
    centre of a 250 x 120 box whose top-left corner is the origin. *)
Definition centreAtHalfSize :
  list (jsstring * Z * Z) -> list (jsstring * jsstring) -> Graph.RankDir ->
  jsstring -> option XY :=
  fun _ _ _ _ => Some (mkXY 125 60).

Definition sampleTask (id text : jsstring) : Task :=
  {| task_id := id; task_type := inline; task_summary := text;
     task_text := text; task_tags := []; task_status := todo;
     task_priority := []; task_link := u "Tasks/plan.md";
     task_incomingLinks := []; task_starred := false; task_line := None |}.

Definition sampleNode (id : jsstring) (x y : Z) : TaskNode :=
  Canvas.newTaskNode DEFAULT_SETTINGS id (mkXY x y) (sampleTask id (u "task")).

(** A snapshot whose second node was saved without task data. *)
Definition legacySnapshot : GraphData :=
  {| gd_nodes :=
       [ mkSavedNode (u "N1") (mkXY 40 70) (u "N1")
           (Some (sampleTask (u "N1") (u "write report")));
         mkSavedNode (u "N2") (mkXY 10 20) (u "N2") None ];
     gd_edges := [];
     gd_viewport := mkViewport 0 0 1 |}.

Definition planDocument : jsstring :=
  u "# Plan" ++ [LF] ++ u "- [ ] write report" ++ [LF] ++ u "- [x] other".

Definition reportTask : Task := sampleTask (u "abc123") (u "write report").

Definition shipTask : Task := sampleTask (u "zzz999") (u "ship it").

Definition twoMarkersLine : jsstring :=
  u "- [ ] ship it " ++ STOP_SIGN ++ u " aaa111 " ++ STOP_SIGN ++ u " bbb222".

(** A task whose checklist marker holds the code X. *)
Definition shoutedLine : jsstring := u "- [X] ship it".

(** A note with an attribute block. *)
Definition noteDocument : jsstring :=
  u "---" ++ [LF] ++ u "status: open" ++ [LF] ++ u "tags:" ++ [LF] ++
  u "  - work" ++ [LF] ++ u "---" ++ [LF] ++ u "Body".

(** A note task as [parseTaskNote] builds it: the id is the path of the
    file, the text its base name. *)
Definition standupNote : Task :=
  {| task_id := u "Notes/standup.md"; task_type := note;
     task_summary := u "standup"; task_text := u "standup";
     task_tags := []; task_status := todo; task_priority := [];
     task_link := u "Notes/standup.md"; task_incomingLinks := [];
     task_starred := false; task_line := None |}.

(** Sample replacements standing for the four of src/lib/task-regex. *)
Definition sampleRemoveEmojiId : jsstring -> jsstring :=
  replaceAll emojiIdRegex [].

Definition sampleRemoveDataviewId : jsstring -> jsstring :=
  replaceAll dataviewIdRegex [].

Definition sampleRemoveTags : jsstring -> jsstring :=
  replaceAll (seq (lit (u "#")) (classPlus (fun c => negb (isSpace c)))) [].

Definition sampleNormalizeWhitespace : jsstring -> jsstring :=
  replaceAll spacesRegex (u " ").

(** A document that no longer holds the task "write report": its second
    line is empty. *)
Definition rewordedDocument : jsstring :=
  u "# Plan" ++ [LF] ++ [LF] ++ u "- [x] other".

(** A note with CR LF line ends and no status field. *)
Definition crlfNote : jsstring :=
  u "---" ++ [CR; LF] ++ u "title: standup" ++ [CR; LF] ++ u "---" ++
  [CR; LF] ++ u "Body".

(** A document whose second task is nested under the first. *)
Definition indentedDocument : jsstring :=
  u "- [ ] parent" ++ [LF] ++ u "  - [ ] write report".

(* ================================================================== *)
(** * Properties of the graph builder *)
(* ================================================================== *)

Lemma eqb_eq : forall a b : jsstring, eqb a b = true <-> a = b.
Proof.
  induction a as [|x a IH]; destruct b as [|y b]; simpl; split;
    try congruence; try reflexivity.
  - intros H. apply andb_true_iff in H as [Hx Hab].
    apply N.eqb_eq in Hx. apply IH in Hab. congruence.
  - intros H. injection H as -> ->.
    rewrite N.eqb_refl. simpl. now apply IH.
Qed.

Lemma eqb_refl : forall a : jsstring, eqb a a = true.
Proof. intros a. now apply eqb_eq. Qed.

Lemma eqb_neq : forall a b : jsstring, eqb a b = false <-> a <> b.
Proof.
  intros a b. split.
  - intros H E. apply eqb_eq in E. congruence.
  - intros H. destruct (eqb a b) eqn:E; [|reflexivity].
    apply eqb_eq in E. contradiction.
Qed.

Section EdgeFacts.

Variables (direction : LayoutDirection) (debug : bool).

Lemma inner_push : forall task links (acc : list TaskEdge),
  fold_left
    (fun edges parentTaskId =>
       edges ++
       [ {| edge_id := Graph.edgeLabel parentTaskId (task_id task);
            edge_source := parentTaskId;
            edge_target := task_id task;
            edge_data :=
              {| edata_hash := Graph.edgeLabel parentTaskId (task_id task);
                 edata_layoutDirection := direction;
                 edata_debugVisualization := debug |};
            edge_hidden := None |} ])
    links acc
  = acc ++ map (dependencyEdge direction debug task) links.
Proof.
  intros task links. induction links as [|p links IH]; intros acc; simpl.
  - now rewrite app_nil_r.
  - rewrite IH. rewrite <- app_assoc. reflexivity.
Qed.

Lemma outer_push : forall tasks (acc : list TaskEdge),
  fold_left
    (fun edges task =>
       fold_left
         (fun edges parentTaskId =>
            edges ++
            [ {| edge_id := Graph.edgeLabel parentTaskId (task_id task);
                 edge_source := parentTaskId;
                 edge_target := task_id task;
                 edge_data :=
                   {| edata_hash := Graph.edgeLabel parentTaskId (task_id task);
                      edata_layoutDirection := direction;
                      edata_debugVisualization := debug |};
                 edge_hidden := None |} ])
         (task_incomingLinks task) edges)
    tasks acc
  = acc ++ flat_map (fun t => map (dependencyEdge direction debug t) (task_incomingLinks t)) tasks.
Proof.
  induction tasks as [|t tasks IH]; intros acc; cbn [fold_left flat_map].
  - now rewrite app_nil_r.
  - rewrite inner_push, IH, <- app_assoc. reflexivity.
Qed.

Lemma createEdges_flat_map : forall tasks,
  Graph.createEdgesFromTasks tasks direction debug
  = flat_map (fun t => map (dependencyEdge direction debug t) (task_incomingLinks t)) tasks.
Proof.
  intros tasks. unfold Graph.createEdgesFromTasks. now rewrite outer_push.
Qed.

End EdgeFacts.

(** C4. Building edges emits exactly one edge per entry of every task's
    [incomingLinks], in order: its source is the entry, its target the task's
    id, and its id and its hash data are both ["${source}-${target}"].  No
    lookup of the source among the tasks takes place, so an entry that names
    no task of the list yields its edge like any other, and the function is
    total. *)
Theorem C4_one_edge_per_incoming_link :
  forall (tasks : list Task) (direction : LayoutDirection) (debug : bool),
    Graph.createEdgesFromTasks tasks direction debug
    = flat_map
        (fun t =>
           map (fun parent =>
                  mkEdge (parent ++ u "-" ++ task_id t) parent (task_id t)
                    (mkEdgeData (parent ++ u "-" ++ task_id t) direction debug)
                    None)
               (task_incomingLinks t))
        tasks
    /\ length (Graph.createEdgesFromTasks tasks direction debug)
       = list_sum (map (fun t => length (task_incomingLinks t)) tasks)
    /\ (forall t parent,
          In t tasks -> In parent (task_incomingLinks t) ->
          exists e,
            In e (Graph.createEdgesFromTasks tasks direction debug) /\
            edge_source e = parent /\ edge_target e = task_id t /\
            edge_id e = parent ++ u "-" ++ task_id t /\
            edata_hash (edge_data e) = parent ++ u "-" ++ task_id t)
    /\ (forall e,
          In e (Graph.createEdgesFromTasks tasks direction debug) ->
          edge_id e = edge_source e ++ u "-" ++ edge_target e /\
          edata_hash (edge_data e) = edge_source e ++ u "-" ++ edge_target e /\
          exists t, In t tasks /\ edge_target e = task_id t /\
                    In (edge_source e) (task_incomingLinks t)).
Proof.
  intros tasks direction debug.
  rewrite createEdges_flat_map. unfold dependencyEdge.
  split; [reflexivity|]. split; [|split].
  - rewrite length_flat_map. f_equal. apply map_ext.
    intros t. apply length_map.
  - intros t parent Ht Hp. eexists. split.
    + apply in_flat_map. exists t. split; [exact Ht|].
      apply in_map_iff. exists parent. split; [reflexivity|exact Hp].
    + simpl. repeat split.
  - intros e He. apply in_flat_map in He as (t & Ht & He).
    apply in_map_iff in He as (parent & <- & Hp). simpl.
    repeat split. exists t. repeat split; assumption.
Qed.

(* ================================================================== *)
(** * Properties of the layout adapter *)
(* ================================================================== *)

(** What the adapter does with the collaborator's answer, node by node. *)
Lemma getLayoutedElements_positions :
  forall dagre_layout nodes edges direction,
    let placed :=
      dagre_layout
        (map (fun n => (node_id n, Graph.NODEWIDTH, Graph.NODEHEIGHT)) nodes)
        (map (fun e => (edge_source e, edge_target e)) edges)
        (match direction with
         | Horizontal => Graph.LR
         | Vertical => Graph.TB
         end) in
    Forall2
      (fun old new =>
         node_id new = node_id old /\
         node_data new = node_data old /\
         match placed (node_id old) with
         | None => node_position new = mkXY 0 0
         | Some p => node_position new = mkXY (pos_x p - 90) (pos_y p - 30)
         end)
      nodes (Graph.getLayoutedElements dagre_layout nodes edges direction).
Proof.
  intros dagre_layout nodes edges direction placed.
  unfold Graph.getLayoutedElements. fold placed.
  generalize placed as g. clear placed. intros g.
  induction nodes as [|n nodes IH]; cbn [map]; constructor; [|exact IH].
  destruct (g (node_id n)); simpl; repeat split.
Qed.

(** C9. With the configured node size 250 x 120 a node whose centre the
    layout puts at (125, 60) has its top-left corner at the origin, which is
    where half the configured width and height would move it; the adapter
    subtracts the constants 90 and 30 and yields (35, 30). *)
Theorem C9_offset_is_not_half_the_node_size :
  map node_position
    (Graph.getLayoutedElements centreAtHalfSize [sampleNode (u "A") 0 0] []
       Horizontal)
  = [mkXY 35 30]
  /\ mkXY (125 - Graph.NODEWIDTH / 2) (60 - Graph.NODEHEIGHT / 2) = mkXY 0 0.
Proof. split; reflexivity. Qed.

(* ================================================================== *)
(** * Properties of the canvas reconciler *)
(* ================================================================== *)

Lemma find_none_iff : forall (id : jsstring) (tasks : list Task),
  find (fun t => eqb (task_id t) id) tasks = None <->
  (forall t, In t tasks -> task_id t <> id).
Proof.
  intros id tasks. split.
  - intros H t Ht. apply (find_none _ _ H) in Ht. now apply eqb_neq.
  - intros H. induction tasks as [|t tasks IH]; simpl; [reflexivity|].
    destruct (eqb (task_id t) id) eqn:E.
    + apply eqb_eq in E. exfalso. apply (H t); [now left|exact E].
    + apply IH. intros t' Ht'. apply H. now right.
Qed.

Lemma find_first : forall (id : jsstring) pre t post,
  task_id t = id ->
  (forall t', In t' pre -> task_id t' <> id) ->
  find (fun t => eqb (task_id t) id) (pre ++ t :: post) = Some t.
Proof.
  intros id pre t post Ht Hpre. induction pre as [|a pre IH]; simpl.
  - rewrite (proj2 (eqb_eq _ _) Ht). reflexivity.
  - destruct (eqb (task_id a) id) eqn:E.
    + apply eqb_eq in E. exfalso. apply (Hpre a); [now left|exact E].
    + apply IH. intros t' Ht'. apply Hpre. now right.
Qed.

Lemma refreshNodes_ids : forall scanned nodes,
  map node_id (Canvas.refreshNodes scanned nodes) = map node_id nodes.
Proof.
  intros scanned nodes. unfold Canvas.refreshNodes. rewrite map_map.
  apply map_ext. intros n.
  now destruct (find (fun t => eqb (task_id t) (node_id n)) scanned).
Qed.

(** C5. A refresh keeps the node list position by position: no node is
    deleted, added or moved in the list.  Each node keeps its id, its
    position, its handles, its flags and the seven display options of its
    data: every field other than the task payload (putting the old payload
    back gives the old node).  If no scanned task has the node's id the node
    is unchanged, payload included; otherwise the payload of the node is the
    first scanned task with that id, whatever else differs between the old
    and the new task, and nothing but the id is compared. *)
Theorem C5_refresh_matches_by_identifier :
  forall (scannedTasks : list Task) (st : Canvas.State),
    Forall2
      (fun old new =>
         node_id new = node_id old /\
         node_position new = node_position old /\
         node_sourcePosition new = node_sourcePosition old /\
         node_targetPosition new = node_targetPosition old /\
         node_draggable new = node_draggable old /\
         node_hidden new = node_hidden old /\
         (data_layoutDirection (node_data new)
          = data_layoutDirection (node_data old) /\
          data_showPriorities (node_data new)
          = data_showPriorities (node_data old) /\
          data_showTags (node_data new) = data_showTags (node_data old) /\
          data_debugVisualization (node_data new)
          = data_debugVisualization (node_data old) /\
          data_tagColorMode (node_data new)
          = data_tagColorMode (node_data old) /\
          data_tagColorSeed (node_data new)
          = data_tagColorSeed (node_data old) /\
          data_tagStaticColor (node_data new)
          = data_tagStaticColor (node_data old)) /\
         Canvas.withTask new (data_task (node_data old)) = old /\
         ((forall t, In t scannedTasks -> task_id t <> node_id old) ->
          new = old /\
          data_task (node_data new) = data_task (node_data old)) /\
         (forall pre t post,
            scannedTasks = pre ++ t :: post ->
            task_id t = node_id old ->
            (forall t', In t' pre -> task_id t' <> node_id old) ->
            data_task (node_data new) = t /\
            new = Canvas.withTask old t))
      (Canvas.st_nodes st)
      (Canvas.st_nodes (Canvas.updateNodes scannedTasks st)).
Proof.
  intros scanned st. unfold Canvas.updateNodes. simpl.
  unfold Canvas.refreshNodes.
  induction (Canvas.st_nodes st) as [|n nodes IH]; cbn [map]; constructor;
    [|exact IH].
  assert (Hback : forall task,
            Canvas.withTask (Canvas.withTask n task) (data_task (node_data n)) = n).
  { intros task. destruct n as [i p [t a b c d e f g] sp tp dr h]. reflexivity. }
  destruct (find (fun t => eqb (task_id t) (node_id n)) scanned) as [t|] eqn:F.
  - do 6 (split; [reflexivity|]).
    split; [do 6 (split; [reflexivity|]); reflexivity|].
    split; [apply Hback|]. split.
    + intros Hno. apply find_some in F as [Hin Hid].
      apply eqb_eq in Hid. exfalso. exact (Hno t Hin Hid).
    + intros pre t' post Hs Hid Hpre. rewrite Hs in F.
      rewrite (find_first _ _ _ post Hid Hpre) in F.
      injection F as <-. split; reflexivity.
  - do 6 (split; [reflexivity|]).
    split; [do 6 (split; [reflexivity|]); reflexivity|].
    split; [|split].
    + destruct n as [i p [t a b c d e f g] sp tp dr h]. reflexivity.
    + intros _. split; reflexivity.
    + intros pre t' post Hs Hid Hpre. rewrite Hs in F.
      rewrite (find_first _ _ _ post Hid Hpre) in F. discriminate.
Qed.

(** C6, as stated, fails: the snapshot node N2 carries no task data and no
    node is restored for it. *)
Lemma C6_node_without_task_data_is_not_restored :
  ~ (forall sn,
       In sn (gd_nodes legacySnapshot) ->
       exists n,
         In n (Canvas.st_nodes
                 (Canvas.loadInitialData DEFAULT_SETTINGS []
                    (Canvas.initialState legacySnapshot))) /\
         node_id n = saved_id sn /\
         node_position n = saved_position sn).
Proof.
  intros H.
  destruct (H (mkSavedNode (u "N2") (mkXY 10 20) (u "N2") None))
    as (n & Hin & Hid & _).
  - simpl. right. left. reflexivity.
  - simpl in Hin. destruct Hin as [<-|[]]. discriminate Hid.
Qed.

Lemma restoreNodes_in : forall settings saved sn taskData,
  In sn saved -> saved_taskData sn = Some taskData ->
  In (Canvas.newTaskNode settings (saved_id sn) (saved_position sn) taskData)
     (Canvas.restoreNodes settings saved).
Proof.
  intros settings saved sn taskData Hin Hdata. unfold Canvas.restoreNodes.
  apply in_flat_map. exists sn. split; [exact Hin|].
  rewrite Hdata. now left.
Qed.

Lemma restoreNodes_from : forall settings saved n,
  In n (Canvas.restoreNodes settings saved) ->
  exists sn taskData,
    In sn saved /\ saved_taskData sn = Some taskData /\
    n = Canvas.newTaskNode settings (saved_id sn) (saved_position sn) taskData.
Proof.
  intros settings saved n Hin. unfold Canvas.restoreNodes in Hin.
  apply in_flat_map in Hin as (sn & Hsn & Hn).
  destruct (saved_taskData sn) as [taskData|] eqn:E; [|contradiction].
  destruct Hn as [<-|[]]. now exists sn, taskData.
Qed.

(** C6, amended. On load, every node of the saved snapshot that carries task
    data is restored with its saved id, its saved position and that task
    data, whatever the freshly parsed tasks are. *)
Theorem C6_load_restores_nodes_with_task_data :
  forall settings (newTasks : list Task) (st : Canvas.State) sn taskData,
    In sn (gd_nodes (Canvas.st_graphData st)) ->
    saved_taskData sn = Some taskData ->
    exists n,
      In n (Canvas.st_nodes (Canvas.loadInitialData settings newTasks st)) /\
      node_id n = saved_id sn /\
      node_position n = saved_position sn /\
      data_task (node_data n) = taskData.
Proof.
  intros settings newTasks st sn taskData Hin Hdata.
  exists (Canvas.newTaskNode settings (saved_id sn) (saved_position sn) taskData).
  split; [|repeat split].
  unfold Canvas.loadInitialData, Canvas.loadSavedData.
  cbn [Canvas.st_graphData Canvas.setTasks].
  destruct (gd_nodes (Canvas.st_graphData st)) as [|a l] eqn:E;
    [contradiction|].
  cbn [Canvas.st_nodes Canvas.setViewport Canvas.setEdges Canvas.setNodes].
  now apply restoreNodes_in.
Qed.

Lemma C6_load_restores_nodes_with_task_data_witness :
  exists n,
    In n (Canvas.st_nodes
            (Canvas.loadInitialData DEFAULT_SETTINGS []
               (Canvas.initialState legacySnapshot))) /\
    node_id n = u "N1" /\
    node_position n = mkXY 40 70 /\
    data_task (node_data n) = sampleTask (u "N1") (u "write report").
Proof.
  apply (C6_load_restores_nodes_with_task_data DEFAULT_SETTINGS []
           (Canvas.initialState legacySnapshot)
           (mkSavedNode (u "N1") (mkXY 40 70) (u "N1")
              (Some (sampleTask (u "N1") (u "write report"))))).
  - simpl. left. reflexivity.
  - reflexivity.
Defined.

(** ** Uniqueness of node identifiers *)

Lemma existsb_node_id : forall id nodes,
  existsb (fun n => eqb (node_id n) id) nodes = true <->
  In id (map node_id nodes).
Proof.
  intros id nodes. rewrite existsb_exists, in_map_iff. split.
  - intros (n & Hn & E). apply eqb_eq in E. now exists n.
  - intros (n & E & Hn). exists n. split; [exact Hn|]. now apply eqb_eq.
Qed.

Lemma NoDup_map_filter : forall (A B : Type) (f : A -> B) (p : A -> bool) l,
  NoDup (map f l) -> NoDup (map f (filter p l)).
Proof.
  intros A B f p l. induction l as [|x l IH]; simpl; intros H; [exact H|].
  inversion H as [|? ? Hx Hl]; subst.
  destruct (p x); simpl; [constructor|]; auto.
  intros Hin. apply Hx. apply in_map_iff in Hin as (y & E & Hy).
  apply filter_In in Hy as [Hy _]. apply in_map_iff. now exists y.
Qed.

Lemma restoreNodes_ids_in : forall settings saved id,
  In id (map node_id (Canvas.restoreNodes settings saved)) ->
  In id (map saved_id saved).
Proof.
  intros settings saved id Hin. apply in_map_iff in Hin as (n & <- & Hn).
  apply restoreNodes_from in Hn as (sn & taskData & Hsn & _ & ->).
  simpl. apply in_map_iff. now exists sn.
Qed.

Lemma restoreNodes_unique : forall settings saved,
  NoDup (map saved_id saved) ->
  NoDup (map node_id (Canvas.restoreNodes settings saved)).
Proof.
  intros settings saved. induction saved as [|sn saved IH]; simpl; intros H.
  - constructor.
  - inversion H as [|? ? Hx Hl]; subst.
    destruct (saved_taskData sn); simpl; [constructor|]; auto.
    intros Hin. apply Hx. eapply restoreNodes_ids_in. exact Hin.
Qed.

Lemma loadSavedData_preserves_canvasInv : forall settings st,
  canvasInv st -> canvasInv (Canvas.loadSavedData settings st).
Proof.
  intros settings st [Hn Hs]. unfold Canvas.loadSavedData.
  destruct (gd_nodes (Canvas.st_graphData st)) as [|a l] eqn:E;
    [now split|].
  split; unfold uniqueNodeIds;
    cbn [Canvas.st_nodes Canvas.st_graphData Canvas.setViewport
         Canvas.setEdges Canvas.setNodes]; [|exact Hs].
  rewrite <- E. apply restoreNodes_unique. exact Hs.
Qed.

Lemma applyFilters_ids : forall noTags selectedTags selectedStatuses st,
  map node_id
    (Canvas.st_nodes (Canvas.applyFilters noTags selectedTags selectedStatuses st))
  = map node_id (Canvas.st_nodes st).
Proof.
  intros noTags selectedTags selectedStatuses st. unfold Canvas.applyFilters.
  destruct ((length (Canvas.st_tasks st) =? 0) ||
            (length (Canvas.st_nodes st) =? 0)); [reflexivity|].
  cbv zeta.
  destruct (negb (0 <? length selectedTags) &&
            negb (length selectedStatuses <? 4));
    cbn [Canvas.st_nodes Canvas.setEdges Canvas.setNodes];
    rewrite map_map; apply map_ext; intros n; [reflexivity|].
  now destruct (negb (Canvas.hasString (map task_id (Canvas.st_tasks st))
                        (node_id n))).
Qed.

Lemma applyFilters_graphData : forall noTags selectedTags selectedStatuses st,
  Canvas.st_graphData
    (Canvas.applyFilters noTags selectedTags selectedStatuses st)
  = Canvas.st_graphData st.
Proof.
  intros noTags selectedTags selectedStatuses st. unfold Canvas.applyFilters.
  destruct ((length (Canvas.st_tasks st) =? 0) ||
            (length (Canvas.st_nodes st) =? 0)); [reflexivity|].
  cbv zeta.
  now destruct (negb (0 <? length selectedTags) &&
                negb (length selectedStatuses <? 4)).
Qed.

Lemma step_preserves_canvasInv : forall noTags settings op st,
  canvasInv st -> canvasInv (Canvas.step noTags settings op st st).
Proof.
  intros noTags settings op st [Hn Hs]. unfold canvasInv, uniqueNodeIds in *.
  destruct op as [newTasks| |scanned|taskId position taskData|nodeId
                 |selectedTags selectedStatuses|viewport];
    cbn [Canvas.step].
  - unfold Canvas.loadInitialData.
    apply loadSavedData_preserves_canvasInv. now split.
  - apply loadSavedData_preserves_canvasInv. now split.
  - unfold Canvas.updateNodes. simpl. rewrite refreshNodes_ids. now split.
  - unfold Canvas.addTaskToCanvas.
    destruct (Canvas.resolveTask (Canvas.st_tasks st) taskId taskData)
      as [task|]; [|now split].
    destruct (existsb (fun n => eqb (node_id n) (task_id task))
                (Canvas.st_nodes st)) eqn:E; [now split|].
    simpl. split; [|exact Hs].
    rewrite map_app. simpl. apply NoDup_app; [exact Hn| |].
    + repeat constructor. intros [].
    + intros id Hid [<-|[]].
      apply existsb_node_id in Hid. congruence.
  - unfold Canvas.deleteNode. simpl. split; [|exact Hs].
    now apply NoDup_map_filter.
  - rewrite applyFilters_ids, applyFilters_graphData. now split.
  - unfold Canvas.saveGraphDataImmediate.
    destruct (Canvas.st_nodes st) as [|n nodes] eqn:E.
    + split; [now rewrite E|exact Hs].
    + split; cbn [Canvas.st_nodes Canvas.st_graphData]; [exact Hn|].
      unfold uniqueSavedIds. cbn [gd_nodes].
      rewrite map_map. cbn [saved_id]. exact Hn.
Qed.

(** A request through a callback whose closure holds a node with the id of
    the task leaves the canvas as it is. *)
Lemma addTaskToCanvas_rejects :
  forall settings closure taskId position taskData st task,
    Canvas.resolveTask (Canvas.st_tasks closure) taskId taskData = Some task ->
    In (task_id task) (map node_id (Canvas.st_nodes closure)) ->
    Canvas.addTaskToCanvas settings closure taskId position taskData st = st.
Proof.
  intros settings closure taskId position taskData st task Hres Hin.
  unfold Canvas.addTaskToCanvas. rewrite Hres.
  apply existsb_node_id in Hin. now rewrite Hin.
Qed.

(** With a render between any two operations the node ids stay distinct. *)
Lemma run_keeps_ids_unique : forall noTags settings ops st,
  canvasInv st ->
  canvasInv (Canvas.run noTags settings ops st).
Proof.
  intros noTags settings ops. unfold Canvas.run.
  induction ops as [|op ops IH]; intros st Hinv; simpl; [exact Hinv|].
  apply IH. now apply step_preserves_canvasInv.
Qed.

(** C10. The test for a node with the id of the task reads the node list of
    the render that created the callback, and the new node is appended to the
    list the updater runs on.  On a view that shows nothing and knows the
    task [A], two requests for [A] made before the view is rendered again
    both pass the test and both append: the canvas holds the ids [A], [A],
    and the ids are no longer distinct.  The same two requests with a render
    in between leave one node, as does every sequence of operations with a
    render between any two; and a request through a closure that holds the id
    is rejected whatever the list of the updater is. *)
Theorem C10_one_closure_adds_an_id_twice :
  forall NO_TAGS_VALUE,
    let shown :=
      Canvas.setTasks (Canvas.initialState DEFAULT_GRAPH_DATA)
        [sampleTask (u "A") (u "write report")] in
    let requests :=
      [Canvas.OpAddTaskToCanvas (u "A") (mkXY 0 0) None;
       Canvas.OpAddTaskToCanvas (u "A") (mkXY 10 10) None] in
    let twice :=
      Canvas.runInOneRender NO_TAGS_VALUE DEFAULT_SETTINGS requests shown in
    uniqueNodeIds shown /\
    map node_id (Canvas.st_nodes twice) = [u "A"; u "A"] /\
    map node_position (Canvas.st_nodes twice) = [mkXY 0 0; mkXY 10 10] /\
    ~ uniqueNodeIds twice /\
    map node_id
      (Canvas.st_nodes
         (Canvas.run NO_TAGS_VALUE DEFAULT_SETTINGS requests shown))
    = [u "A"] /\
    (forall settings closure taskId position taskData st task,
       Canvas.resolveTask (Canvas.st_tasks closure) taskId taskData
       = Some task ->
       In (task_id task) (map node_id (Canvas.st_nodes closure)) ->
       Canvas.addTaskToCanvas settings closure taskId position taskData st
       = st) /\
    (forall settings ops graphData,
       uniqueSavedIds graphData ->
       uniqueNodeIds
         (Canvas.run NO_TAGS_VALUE settings ops
            (Canvas.initialState graphData))).
Proof.
  intros noTags shown requests twice.
  split; [constructor|]. split; [reflexivity|]. split; [reflexivity|].
  split.
  { unfold uniqueNodeIds.
    change (map node_id (Canvas.st_nodes twice)) with [u "A"; u "A"].
    intros H. inversion H as [|x l Hx Hl]; subst. apply Hx. now left. }
  split; [reflexivity|]. split.
  - apply addTaskToCanvas_rejects.
  - intros settings ops graphData Hs.
    apply (run_keeps_ids_unique noTags settings ops).
    split; [constructor|exact Hs].
Qed.

(* ================================================================== *)
(** * Properties of the document mutator *)
(* ================================================================== *)

(** ** Adding a tag twice *)

(** C1. For the inline task "write report" of a three-line document, adding
    the tag x once appends [#x] to the task line; adding it again to the
    result appends a second [#x], whatever the expressions of task-regex
    are: the inline branch has no test for a tag that is already there. *)
Theorem C1_inline_add_tag_twice_appends_twice :
  forall removeEmojiId removeDataviewId removeTags normalizeWhitespace,
    let addTag :=
      addTagInline removeEmojiId removeDataviewId removeTags
        normalizeWhitespace reportTask (u "x") in
    addTag planDocument
    = Ok (u "# Plan" ++ [LF] ++ u "- [ ] write report #x" ++ [LF] ++
          u "- [x] other")
    /\ (once <- addTag planDocument ;; addTag once)
       = Ok (u "# Plan" ++ [LF] ++ u "- [ ] write report #x #x" ++ [LF] ++
             u "- [x] other")
    /\ (once <- addTag planDocument ;; addTag once) <> addTag planDocument.
Proof.
  intros rE rD rT nW addTag. subst addTag.
  split; [reflexivity|]. split; [reflexivity|]. discriminate.
Qed.

(** ** Adding a dependency under the csv style *)

(** C2. On the line with the two individual markers aaa111 and bbb222,
    adding ccc333 under the csv style rewrites the first marker to
    [aaa111,ccc333] and leaves the marker bbb222 behind: the csv expression
    matches an individual marker, so the branch that converts individual
    markers is not taken. *)
Theorem C2_csv_add_leaves_an_individual_marker :
  addSignCallback shipTask SignStop (u "ccc333") csv twoMarkersLine
  = Ok (u "- [ ] ship it " ++ STOP_SIGN ++ u " aaa111,ccc333 " ++
        STOP_SIGN ++ u " bbb222")
  /\ addSignCallback shipTask SignStop (u "ccc333") csv twoMarkersLine
     <> Ok (u "- [ ] ship it " ++ STOP_SIGN ++ u " aaa111,bbb222,ccc333")
  /\ includes
       (u "- [ ] ship it " ++ STOP_SIGN ++ u " aaa111,ccc333 " ++
        STOP_SIGN ++ u " bbb222")
       (STOP_SIGN ++ u " bbb222") = true.
Proof. split; [reflexivity|]. split; [discriminate|reflexivity]. Qed.

(** The branch of [addSignCallback] that converts individual markers is
    dead: where the csv expression finds nothing, the expression for
    individual markers finds nothing either. *)

Lemma csvRegex_of_individual : forall s,
  csvRegex s = None -> individualRegex s = None.
Proof.
  intros s. unfold csvRegex, individualRegex, seq.
  destruct (stopHead s) as [n1|]; [|reflexivity].
  destruct (classN isAlnum 6 (skipn n1 s)) as [n2|]; [|reflexivity].
  unfold star. discriminate.
Qed.

Lemma search_none_head : forall m s, search m s = None -> m s = None.
Proof.
  intros m s H. destruct s; simpl in H; destruct (m _); congruence.
Qed.

Lemma search_none_tail : forall m c s,
  search m (c :: s) = None -> search m s = None.
Proof.
  intros m c s H. simpl in H. destruct (m (c :: s)); [discriminate|].
  destruct (search m s) as [[i n]|]; [discriminate|reflexivity].
Qed.

Lemma matchAllFrom_none : forall m s skip,
  (forall n, m (skipn n s) = None) -> matchAllFrom m skip s = [].
Proof.
  intros m s. induction s as [|c s IH]; intros skip H; simpl; [reflexivity|].
  assert (Hs : forall n, m (skipn n s) = None) by (intros n; apply (H (S n))).
  destruct skip; [|now apply IH].
  specialize (H 0). cbn [skipn] in H. rewrite H. now apply IH.
Qed.

Lemma search_none_everywhere : forall m s,
  search m s = None -> forall n, m (skipn n s) = None.
Proof.
  intros m s. induction s as [|c s IH]; intros H n.
  - rewrite skipn_nil. now apply search_none_head.
  - destruct n; simpl.
    + now apply search_none_head.
    + apply IH. eapply search_none_tail. exact H.
Qed.

Lemma conversion_branch_is_dead : forall line,
  matchOf csvRegex line = None -> matchAll individualRegex line = [].
Proof.
  intros line H. unfold matchOf in H.
  destruct (search csvRegex line) as [[i n]|] eqn:E; [discriminate|].
  apply matchAllFrom_none. intros n. apply csvRegex_of_individual.
  now apply search_none_everywhere.
Qed.

(** ** Strings: basic facts *)

Lemma startsWith_eq : forall pat s,
  startsWith s pat = true -> s = pat ++ skipn (length pat) s.
Proof.
  induction pat as [|p pat IH]; intros s H; simpl in *; [reflexivity|].
  destruct s as [|c s]; [discriminate|].
  apply andb_true_iff in H as [Hc Hs]. apply N.eqb_eq in Hc. subst c.
  simpl. f_equal. now apply IH.
Qed.

Lemma startsWith_app : forall pat s, startsWith (pat ++ s) pat = true.
Proof.
  induction pat as [|p pat IH]; intros s; simpl; [reflexivity|].
  now rewrite N.eqb_refl, IH.
Qed.

Lemma countWhile_le : forall p s, countWhile p s <= length s.
Proof.
  intros p s. induction s as [|c s IH]; simpl; [lia|].
  destruct (p c); simpl; lia.
Qed.

Lemma countWhile_firstn : forall p s,
  forallb p (firstn (countWhile p s) s) = true.
Proof.
  intros p s. induction s as [|c s IH]; simpl; [reflexivity|].
  destruct (p c) eqn:E; simpl; [|reflexivity]. now rewrite E.
Qed.

Lemma countWhile_app : forall p a c s,
  forallb p a = true -> p c = false ->
  countWhile p (a ++ c :: s) = length a.
Proof.
  intros p a c s. induction a as [|x a IH]; simpl; intros Ha Hc.
  - now rewrite Hc.
  - apply andb_true_iff in Ha as [Hx Ha]. rewrite Hx. f_equal. now apply IH.
Qed.

Lemma skipn_app_length : forall (a b : jsstring), skipn (length a) (a ++ b) = b.
Proof.
  intros a b. induction a as [|x a IH]; simpl; [reflexivity|exact IH].
Qed.

Lemma firstn_app_length : forall (a b : jsstring),
  firstn (length a) (a ++ b) = a.
Proof.
  intros a b. induction a as [|x a IH]; simpl; [reflexivity|]. now rewrite IH.
Qed.

(** ** Setting the status of an inline task *)

Lemma checklist_shape : forall line code,
  Parser.scanStatusCode line = Some code ->
  exists indent rest,
    line = indent ++ u "- [" ++ [code] ++ u "]" ++ rest /\
    forallb isSpace indent = true.
Proof.
  intros line code H. unfold Parser.scanStatusCode in H.
  destruct (Parser.checklistRegex line) as [n|] eqn:E; [|discriminate].
  unfold Parser.checklistRegex, seq, classStar, lit, classN in E.
  set (k := countWhile isSpace line) in *.
  destruct (startsWith (skipn k line) (u "- [")) eqn:E1; [|discriminate].
  apply startsWith_eq in E1.
  set (t2 := skipn (length (u "- [")) (skipn k line)) in *.
  destruct ((1 <=? length t2) && forallb isDot (firstn 1 t2)) eqn:E2;
    [|discriminate].
  destruct (startsWith (skipn 1 t2) (u "]")) eqn:E3; [|discriminate].
  apply startsWith_eq in E3.
  destruct t2 as [|c t3]; [discriminate|].
  simpl in E3. injection E as <-.
  exists (firstn k line), (skipn 1 t3). split.
  - assert (Hline : line = firstn k line ++ skipn k line)
      by (symmetry; apply firstn_skipn).
    assert (Hc : c = code).
    { rewrite Hline in H. rewrite nth_error_app2 in H.
      - rewrite length_firstn, Nat.min_l in H by apply countWhile_le.
        rewrite E1 in H.
        match type of H with
        | nth_error _ ?i = _ => replace i with 3 in H by (simpl; lia)
        end.
        simpl in H. congruence.
      - rewrite length_firstn. simpl. lia. }
    subst c. rewrite Hline at 1. f_equal. rewrite E1. simpl. f_equal.
    f_equal. f_equal. f_equal. exact E3.
  - apply countWhile_firstn.
Qed.

Lemma search_prefix : forall (m : matcher) a t i n,
  (forall c s, In c a -> m (c :: s) = None) ->
  search m t = Some (i, n) ->
  search m (a ++ t) = Some (length a + i, n).
Proof.
  intros m a t i n Ha Ht. induction a as [|c a IH]; simpl; [exact Ht|].
  rewrite (Ha c (a ++ t)) by now left.
  rewrite IH; [reflexivity|]. intros c' s Hc'. apply Ha. now right.
Qed.

Lemma statusRegex_needs_bracket : forall c s,
  (c =? 91)%N = false -> statusRegex (c :: s) = None.
Proof.
  intros c s H. unfold statusRegex, seq, lit. simpl. now rewrite H.
Qed.

Lemma isSpace_not_bracket : forall c, isSpace c = true -> (c =? 91)%N = false.
Proof.
  intros c H. destruct (c =? 91)%N eqn:E; [|reflexivity].
  apply N.eqb_eq in E. subst c. discriminate H.
Qed.

Lemma isSpace_not_dash : forall c, isSpace c = true -> (c =? 45)%N = false.
Proof.
  intros c H. destruct (c =? 45)%N eqn:E; [|reflexivity].
  apply N.eqb_eq in E. subst c. discriminate H.
Qed.

Lemma statusSymbols_plain : forall s matched before after captures,
  getSubstitution matched before after captures (statusSymbols s)
  = statusSymbols s.
Proof. intros s matched before after captures. destruct s; reflexivity. Qed.

(** Where the first status marker of a checklist line is, and what the
    replacement makes of the line. *)
Lemma replace_checklist_marker : forall indent code rest s,
  forallb isSpace indent = true ->
  isStatusCode code = true ->
  replaceRegex statusRegex statusGroups (statusSymbols s)
    (indent ++ u "- [" ++ [code] ++ u "]" ++ rest)
  = indent ++ u "- " ++ statusSymbols s ++ rest.
Proof.
  intros indent code rest s Hindent Hcode. unfold replaceRegex.
  assert (Hsearch :
            search statusRegex (indent ++ u "- [" ++ [code] ++ u "]" ++ rest)
            = Some (length indent + 2, 3)).
  { apply search_prefix.
    - intros c t Hc. apply statusRegex_needs_bracket.
      apply isSpace_not_bracket.
      rewrite forallb_forall in Hindent. now apply Hindent.
    - change (u "- [" ++ [code] ++ u "]" ++ rest)
        with (45 :: 32 :: 91 :: code :: 93 :: rest)%N.
      cbn [search]. rewrite !statusRegex_needs_bracket by reflexivity.
      unfold statusRegex, seq, lit, classN. simpl.
      rewrite Hcode. reflexivity. }
  rewrite Hsearch. rewrite statusSymbols_plain.
  change (u "- [" ++ [code] ++ u "]" ++ rest)
    with (45 :: 32 :: 91 :: code :: 93 :: rest)%N.
  rewrite firstn_app, skipn_app.
  rewrite firstn_all2, skipn_all2 by lia.
  replace (length indent + 2 - length indent) with 2 by lia.
  replace (length indent + 2 + 3 - length indent) with 5 by lia.
  simpl. rewrite <- app_assoc. destruct s; reflexivity.
Qed.

Lemma statusOfLine_checklist : forall indent rest s,
  forallb isSpace indent = true ->
  Parser.statusOfLine (indent ++ u "- " ++ statusSymbols s ++ rest) = Some s.
Proof.
  intros indent rest s Hindent.
  unfold Parser.statusOfLine, Parser.scanStatusCode, Parser.checklistRegex.
  unfold seq at 1. unfold classStar.
  assert (Hk : countWhile isSpace (indent ++ u "- " ++ statusSymbols s ++ rest)
               = length indent).
  { change (u "- " ++ statusSymbols s ++ rest)
      with (45%N :: (32%N :: statusSymbols s ++ rest)).
    now apply countWhile_app. }
  rewrite Hk, skipn_app_length.
  destruct s; simpl;
    (rewrite nth_error_app2 by lia);
    (replace (length indent + 5 - 2 - length indent) with 3 by lia);
    reflexivity.
Qed.

(** C7, as stated, fails: the marker [[X]] of the task "ship it" is not one
    the expression of [updateTaskStatusInVault] looks for, so setting the
    status to done and setting it to todo both leave the line as it is.  The
    code X is read back either way, and no mapping of codes to statuses
    gives it both statuses. *)
Lemma C7_other_status_code_is_not_replaced :
  ~ (exists parse : N -> option TaskStatus,
       forall s,
         exists line',
           updateTaskStatusInline shipTask s shoutedLine = Ok line' /\
           match Parser.scanStatusCode line' with
           | Some code => parse code
           | None => None
           end = Some s).
Proof.
  intros (parse & H).
  destruct (H done) as (line1 & Hupdate1 & Hstatus1).
  destruct (H todo) as (line2 & Hupdate2 & Hstatus2).
  vm_compute in Hupdate1. injection Hupdate1 as <-.
  vm_compute in Hupdate2. injection Hupdate2 as <-.
  vm_compute in Hstatus1, Hstatus2. congruence.
Qed.

(** C7, amended. For every status s and every inline task whose line is
    found in the document and whose checklist marker holds one of the four
    codes (space, /, -, x), setting the status replaces exactly that marker
    by the marker of s (space for todo, / for in_progress, - for canceled, x
    for done) and leaves the indentation and the rest of the line alone, so
    that the status read back from the new line is s. *)
Theorem C7_set_status_round_trip :
  forall (task : Task) (s : TaskStatus) (fileContent : jsstring)
         (taskLineIdx : nat) (line : jsstring) (code : N),
    findTaskLineByIdOrText (splitLines fileContent) (task_id task)
      (task_text task) = Some taskLineIdx ->
    nth_error (splitLines fileContent) taskLineIdx = Some line ->
    Parser.scanStatusCode line = Some code ->
    isStatusCode code = true ->
    exists indent rest,
      line = indent ++ u "- [" ++ [code] ++ u "]" ++ rest /\
      forallb isSpace indent = true /\
      updateTaskStatusInline task s fileContent
      = Ok (joinLines
              (assign (splitLines fileContent) taskLineIdx
                 (indent ++ u "- " ++ statusSymbols s ++ rest))) /\
      Parser.statusOfLine (indent ++ u "- " ++ statusSymbols s ++ rest)
      = Some s.
Proof.
  intros task s fileContent taskLineIdx line code Hfind Hline Hscan Hcode.
  destruct (checklist_shape _ _ Hscan) as (indent & rest & Hshape & Hindent).
  exists indent, rest. split; [exact Hshape|]. split; [exact Hindent|]. split.
  - unfold updateTaskStatusInline. rewrite Hfind. unfold get. rewrite Hline.
    cbn [bind]. rewrite Hshape.
    now rewrite replace_checklist_marker.
  - now apply statusOfLine_checklist.
Qed.

Lemma C7_set_status_round_trip_witness :
  exists indent rest,
    u "- [ ] write report" = indent ++ u "- [" ++ [32%N] ++ u "]" ++ rest /\
    forallb isSpace indent = true /\
    updateTaskStatusInline reportTask done planDocument
    = Ok (joinLines
            (assign (splitLines planDocument) 1
               (indent ++ u "- " ++ statusSymbols done ++ rest))) /\
    Parser.statusOfLine (indent ++ u "- " ++ statusSymbols done ++ rest)
    = Some done.
Proof.
  apply (C7_set_status_round_trip reportTask done planDocument 1
           (u "- [ ] write report") 32%N); reflexivity.
Defined.

(** ** Lines of a document *)

Lemma consHead_nonempty : forall c L, consHead c L <> [].
Proof. intros c L. destruct L; discriminate. Qed.

Lemma splitLines_nonempty : forall s, splitLines s <> [].
Proof.
  intros s. functional induction (splitLines s);
    try discriminate; apply consHead_nonempty.
Qed.

Lemma in_consHead : forall c L l,
  In l (consHead c L) ->
  l = [c] /\ L = [] \/ exists h t, L = h :: t /\ (l = c :: h \/ In l t).
Proof.
  intros c L l H. destruct L as [|h t]; simpl in H.
  - left. destruct H as [<-|[]]. now split.
  - right. exists h, t. split; [reflexivity|].
    destruct H as [<-|H]; [now left|now right].
Qed.

Lemma consHead_no_LF : forall c L,
  (c =? LF)%N = false ->
  (forall l, In l L -> ~ In LF l) ->
  forall l, In l (consHead c L) -> ~ In LF l.
Proof.
  intros c L Hc HL l Hl. apply N.eqb_neq in Hc.
  apply in_consHead in Hl as [[-> _]|(h & t & -> & [->|Hl])].
  - intros [E|[]]. congruence.
  - intros [E|E]; [congruence|]. apply (HL h); [now left|exact E].
  - apply HL. now right.
Qed.

(** No line of a document holds a line feed. *)
Lemma splitLines_no_LF : forall s l, In l (splitLines s) -> ~ In LF l.
Proof.
  intros s. functional induction (splitLines s); intros l Hl.
  - destruct Hl as [<-|[]]. intros [].
  - destruct Hl as [<-|Hl]; [intros []|now apply IHl].
  - destruct Hl as [<-|Hl]; [intros []|now apply IHl].
  - revert l Hl. now apply consHead_no_LF.
  - revert l Hl. now apply consHead_no_LF.
  - revert l Hl. now apply consHead_no_LF.
Qed.

(** A string without a line feed is one line. *)
Lemma splitLines_single : forall x, ~ In LF x -> splitLines x = [x].
Proof.
  intros x. functional induction (splitLines x); intros H.
  - reflexivity.
  - apply N.eqb_eq in e0. exfalso. apply H. now left.
  - apply N.eqb_eq in e3. exfalso. apply H. right. now left.
  - rewrite IHl; [reflexivity|]. intros E. apply H. now right.
  - reflexivity.
  - rewrite IHl; [reflexivity|]. intros E. apply H. now right.
Qed.

(** The first line of a document that goes on after a line feed: it is the
    text before the line feed, less a carriage return at its end. *)
Lemma splitLines_app : forall x t,
  ~ In LF x ->
  exists x',
    splitLines (x ++ LF :: t) = x' :: splitLines t /\
    (x' = x \/ x = x' ++ [CR]).
Proof.
  induction x as [|c x IH]; intros t H.
  - exists []. split; [|now left]. cbn [app]. rewrite splitLines_equation.
    now rewrite N.eqb_refl.
  - assert (Hc : (c =? LF)%N = false).
    { apply N.eqb_neq. intros E. apply H. now left. }
    assert (Hx : ~ In LF x) by (intros E; apply H; now right).
    destruct (IH t Hx) as (x' & Hsplit & Hx').
    cbn [app]. rewrite splitLines_equation. rewrite Hc.
    destruct (c =? CR)%N eqn:Ecr.
    + destruct x as [|d x2].
      * cbn [app]. rewrite N.eqb_refl. exists []. split; [reflexivity|].
        right. apply N.eqb_eq in Ecr. now subst c.
      * cbn [app] in *.
        assert (Hd : (d =? LF)%N = false).
        { apply N.eqb_neq. intros E. apply H. right. now left. }
        rewrite Hd. rewrite Hsplit. cbn [consHead].
        exists (c :: x'). split; [reflexivity|].
        destruct Hx' as [-> | ->]; [now left|now right].
    + rewrite Hsplit. cbn [consHead]. exists (c :: x').
      split; [reflexivity|].
      destruct Hx' as [-> | ->]; [now left|now right].
Qed.

Lemma resplit : forall lines,
  lines <> [] ->
  (forall l, In l lines -> ~ In LF l) ->
  Forall2 readBack lines (splitLines (joinLines lines)).
Proof.
  induction lines as [|x lines IH]; intros Hne Hlf; [contradiction|].
  destruct lines as [|y lines].
  - simpl. rewrite splitLines_single by (apply Hlf; now left).
    constructor; [now left|constructor].
  - change (joinLines (x :: y :: lines))
      with (x ++ LF :: joinLines (y :: lines)).
    destruct (splitLines_app x (joinLines (y :: lines))) as (x' & -> & Hx').
    { apply Hlf. now left. }
    constructor; [exact Hx'|].
    apply IH; [discriminate|]. intros l Hl. apply Hlf. now right.
Qed.

(** ** Substrings *)

Lemma startsWith_app_l : forall pat s r,
  startsWith s pat = true -> startsWith (s ++ r) pat = true.
Proof.
  induction pat as [|p pat IH]; intros s r H; simpl in *; [reflexivity|].
  destruct s as [|c s]; [discriminate|]. simpl.
  apply andb_true_iff in H as [Hc Hs]. rewrite Hc. simpl. now apply IH.
Qed.

Lemma includes_app_l : forall s r pat,
  includes s pat = true -> includes (s ++ r) pat = true.
Proof.
  induction s as [|c s IH]; intros r pat H.
  - simpl in H. rewrite orb_false_r in H.
    destruct pat as [|p pat]; [|discriminate].
    destruct r; reflexivity.
  - simpl in *. apply orb_true_iff in H as [H|H].
    + change (c :: s ++ r) with ((c :: s) ++ r).
      now rewrite (startsWith_app_l _ _ r H).
    + rewrite (IH r pat H). apply orb_true_r.
Qed.

Lemma includes_app_r : forall l r pat,
  includes r pat = true -> includes (l ++ r) pat = true.
Proof.
  induction l as [|c l IH]; intros r pat H; [exact H|].
  simpl. rewrite (IH r pat H). apply orb_true_r.
Qed.

Lemma includes_self : forall pat, includes pat pat = true.
Proof.
  intros pat. destruct pat as [|p pat]; [reflexivity|].
  cbn [includes]. rewrite <- (app_nil_r (p :: pat)) at 1.
  now rewrite startsWith_app.
Qed.

(** ** Searching an array *)

Lemma findIndexFrom_some : forall (p : jsstring -> bool) X k i,
  findIndexFrom p X k = Some i ->
  k <= i /\
  (exists x, nth_error X (i - k) = Some x /\ p x = true) /\
  (forall j y, j < i - k -> nth_error X j = Some y -> p y = false).
Proof.
  intros p X. induction X as [|x X IH]; intros k i H; simpl in H;
    [discriminate|].
  destruct (p x) eqn:E.
  - injection H as <-. rewrite Nat.sub_diag. split; [lia|]. split.
    + now exists x.
    + intros j y Hj. lia.
  - apply IH in H as (Hk & (x' & Hx' & Hp) & Hbefore).
    split; [lia|]. replace (i - k) with (S (i - S k)) by lia. split.
    + now exists x'.
    + intros j y Hj Hy. destruct j as [|j]; simpl in Hy.
      * congruence.
      * apply (Hbefore j); [lia|exact Hy].
Qed.

Lemma findIndexFrom_none : forall (p : jsstring -> bool) X k,
  findIndexFrom p X k = None ->
  forall j y, nth_error X j = Some y -> p y = false.
Proof.
  intros p X. induction X as [|x X IH]; intros k H j y Hy.
  - destruct j; discriminate.
  - simpl in H. destruct (p x) eqn:E; [discriminate|].
    destruct j as [|j]; simpl in Hy; [congruence|].
    now apply (IH _ H j).
Qed.

Lemma findIndexFrom_found : forall (p : jsstring -> bool) X k n x,
  nth_error X n = Some x -> p x = true ->
  (forall j y, j < n -> nth_error X j = Some y -> p y = false) ->
  findIndexFrom p X k = Some (k + n).
Proof.
  intros p X. induction X as [|a X IH]; intros k n x Hx Hp Hbefore.
  - destruct n; discriminate.
  - simpl. destruct n as [|n]; simpl in Hx.
    + injection Hx as ->. rewrite Hp. f_equal. lia.
    + rewrite (Hbefore 0 a) by (try lia; reflexivity).
      rewrite (IH (S k) n x Hx Hp).
      * f_equal. lia.
      * intros j y Hj Hy. apply (Hbefore (S j)); [lia|exact Hy].
Qed.

Lemma findIndexFrom_absent : forall (p : jsstring -> bool) X k,
  (forall j y, nth_error X j = Some y -> p y = false) ->
  findIndexFrom p X k = None.
Proof.
  intros p X. induction X as [|a X IH]; intros k H; simpl; [reflexivity|].
  rewrite (H 0 a) by reflexivity. apply IH.
  intros j y Hy. now apply (H (S j)).
Qed.

Lemma findIndex_some : forall (p : jsstring -> bool) X i,
  findIndex p X = Some i ->
  (exists x, nth_error X i = Some x /\ p x = true) /\
  (forall j y, j < i -> nth_error X j = Some y -> p y = false).
Proof.
  intros p X i H. apply findIndexFrom_some in H as (_ & H1 & H2).
  rewrite Nat.sub_0_r in *. now split.
Qed.

Lemma findIndex_bound : forall (p : jsstring -> bool) X i,
  findIndex p X = Some i -> i < length X.
Proof.
  intros p X i H. apply findIndex_some in H as ((x & Hx & _) & _).
  apply nth_error_Some. congruence.
Qed.

Lemma assign_length : forall lines i v, length (assign lines i v) = length lines.
Proof.
  induction lines as [|l lines IH]; intros i v; [reflexivity|].
  destruct i; simpl; [reflexivity|]. now rewrite IH.
Qed.

Lemma assign_same : forall lines i v,
  i < length lines -> nth_error (assign lines i v) i = Some v.
Proof.
  induction lines as [|l lines IH]; intros i v H; simpl in H; [lia|].
  destruct i; simpl; [reflexivity|]. apply IH. lia.
Qed.

Lemma assign_other : forall lines i v j,
  j <> i -> nth_error (assign lines i v) j = nth_error lines j.
Proof.
  induction lines as [|l lines IH]; intros i v j H; [reflexivity|].
  destruct i, j; simpl; try reflexivity; try contradiction.
  apply IH. lia.
Qed.

Lemma assign_in : forall lines i v l,
  In l (assign lines i v) -> l = v \/ In l lines.
Proof.
  induction lines as [|a lines IH]; intros i v l H; [contradiction|].
  destruct i; simpl in H.
  - destruct H as [<-|H]; [now left|right; now right].
  - destruct H as [<-|H]; [right; now left|].
    apply IH in H as [H|H]; [now left|right; now right].
Qed.

Lemma Forall2_nth_error_l : forall (R : jsstring -> jsstring -> Prop) X Y j a,
  Forall2 R X Y -> nth_error X j = Some a ->
  exists b, nth_error Y j = Some b /\ R a b.
Proof.
  intros R X Y j a H. revert j. induction H as [|x y X Y Hxy H IH];
    intros j Ha.
  - destruct j; discriminate.
  - destruct j as [|j]; simpl in Ha.
    + injection Ha as ->. now exists y.
    + now apply IH.
Qed.

Lemma Forall2_nth_error_r : forall (R : jsstring -> jsstring -> Prop) X Y j b,
  Forall2 R X Y -> nth_error Y j = Some b ->
  exists a, nth_error X j = Some a /\ R a b.
Proof.
  intros R X Y j b H. revert j. induction H as [|x y X Y Hxy H IH];
    intros j Hb.
  - destruct j; discriminate.
  - destruct j as [|j]; simpl in Hb.
    + injection Hb as ->. now exists x.
    + now apply IH.
Qed.

(** ** Adding a star twice *)

Lemma readBack_includes : forall a b pat,
  readBack a b -> includes b pat = true -> includes a pat = true.
Proof.
  intros a b pat [->| ->] H; [exact H|]. now apply includes_app_l.
Qed.

Section Relocate.

(** The lines of a document, one of which gets something appended, and the
    lines read back from the document written. *)
Variables (L L2 : list jsstring) (idx : nat) (line newline : jsstring).
Hypothesis Hline : nth_error L idx = Some line.
Hypothesis Hread : Forall2 readBack (assign L idx newline) L2.
Hypothesis Hkept : forall b, readBack newline b -> b = newline.
Hypothesis Hgrows : forall pat,
  includes line pat = true -> includes newline pat = true.

Lemma relocate_idx_bound : idx < length L.
Proof. apply nth_error_Some. congruence. Qed.

Lemma relocate_same : nth_error L2 idx = Some newline.
Proof.
  destruct (Forall2_nth_error_l readBack (assign L idx newline) L2 idx newline Hread)
    as (b & Hb & Hab).
  - apply assign_same. apply relocate_idx_bound.
  - now rewrite (Hkept b Hab) in Hb.
Qed.

Lemma relocate_other : forall j y pat,
  j <> idx -> nth_error L2 j = Some y -> includes y pat = true ->
  exists a, nth_error L j = Some a /\ includes a pat = true.
Proof.
  intros j y pat Hj Hy Hpat.
  destruct (Forall2_nth_error_r readBack (assign L idx newline) L2 j y Hread Hy)
    as (a & Ha & Hay).
  rewrite assign_other in Ha by exact Hj.
  exists a. split; [exact Ha|]. now apply (readBack_includes a y).
Qed.

Lemma relocate_found : forall pat,
  findIndex (fun l => includes l pat) L = Some idx ->
  findIndex (fun l => includes l pat) L2 = Some idx.
Proof.
  intros pat H. apply findIndex_some in H as ((x & Hx & Hp) & Hbefore).
  assert (x = line) by congruence. subst x.
  apply (findIndexFrom_found (fun l => includes l pat) L2 0 idx newline).
  - apply relocate_same.
  - now apply Hgrows.
  - intros j y Hj Hy. destruct (includes y pat) eqn:E; [|reflexivity].
    destruct (relocate_other j y pat) as (a & Ha & Hpa); try assumption; [lia|].
    rewrite (Hbefore j a Hj Ha) in Hpa. discriminate.
Qed.

Lemma relocate_absent : forall pat,
  findIndex (fun l => includes l pat) L = None ->
  findIndex (fun l => includes l pat) L2 = None \/
  findIndex (fun l => includes l pat) L2 = Some idx.
Proof.
  intros pat H.
  assert (Hnone : forall j y, j <> idx -> nth_error L2 j = Some y ->
                              includes y pat = false).
  { intros j y Hj Hy. destruct (includes y pat) eqn:E; [|reflexivity].
    destruct (relocate_other j y pat Hj Hy E) as (a & Ha & Hpa).
    rewrite (findIndexFrom_none _ _ _ H j a Ha) in Hpa. discriminate. }
  destruct (includes newline pat) eqn:E.
  - right.
    apply (findIndexFrom_found (fun l => includes l pat) L2 0 idx newline).
    + apply relocate_same.
    + exact E.
    + intros j y Hj Hy. apply (Hnone j y); [lia|exact Hy].
  - left. apply findIndexFrom_absent. intros j y Hy.
    destruct (Nat.eq_dec j idx) as [->|Hj].
    + rewrite relocate_same in Hy. congruence.
    + now apply (Hnone j y).
Qed.

Lemma relocate_task_line : forall taskId taskText,
  findTaskLineByIdOrText L taskId taskText = Some idx ->
  findTaskLineByIdOrText L2 taskId taskText = Some idx.
Proof.
  intros taskId taskText. unfold findTaskLineByIdOrText.
  set (p1 := ID_SIGN ++ u " " ++ taskId).
  set (p2 := u "[[id:: " ++ taskId ++ u "]]").
  destruct (findIndex (fun l => includes l p1) L) as [i1|] eqn:E1.
  { intros H. injection H as ->. now rewrite (relocate_found p1 E1). }
  destruct (relocate_absent p1 E1) as [-> | ->]; [|reflexivity].
  destruct (findIndex (fun l => includes l p2) L) as [i2|] eqn:E2.
  { intros H. injection H as ->. now rewrite (relocate_found p2 E2). }
  destruct (relocate_absent p2 E2) as [-> | ->]; [|reflexivity].
  intros E3. now apply relocate_found.
Qed.

End Relocate.

Lemma findTaskLineByIdOrText_bound : forall lines taskId taskText i,
  findTaskLineByIdOrText lines taskId taskText = Some i -> i < length lines.
Proof.
  intros lines taskId taskText i. unfold findTaskLineByIdOrText.
  set (p1 := ID_SIGN ++ u " " ++ taskId).
  set (p2 := u "[[id:: " ++ taskId ++ u "]]").
  destruct (findIndex (fun l => includes l p1) lines) eqn:E1.
  { intros H. injection H as ->. eapply findIndex_bound. exact E1. }
  destruct (findIndex (fun l => includes l p2) lines) eqn:E2.
  { intros H. injection H as ->. eapply findIndex_bound. exact E2. }
  apply findIndex_bound.
Qed.

Lemma get_ok : forall lines i,
  i < length lines -> exists l, get lines i = Ok l /\ nth_error lines i = Some l.
Proof.
  intros lines i H. unfold get.
  destruct (nth_error lines i) as [l|] eqn:E.
  - now exists l.
  - apply nth_error_None in E. lia.
Qed.

Lemma starred_line_kept : forall line b,
  readBack (line ++ u " " ++ STAR) b -> b = line ++ u " " ++ STAR.
Proof.
  intros line b [H|H]; [exact H|].
  change (line ++ u " " ++ STAR) with (line ++ [32%N] ++ [11088%N]) in H.
  rewrite app_assoc in H. apply app_inj_tail in H as [_ H]. discriminate H.
Qed.

Lemma starred_line_no_LF : forall line,
  ~ In LF line -> ~ In LF (line ++ u " " ++ STAR).
Proof.
  intros line H E. apply in_app_or in E as [E|E]; [contradiction|].
  simpl in E. destruct E as [E|[E|[]]]; discriminate E.
Qed.

(** C8. Adding a star to an inline task never fails, and adding it again to
    the document the first application wrote gives that document back.
    When the line of the task already holds the star glyph, the first
    application already returns the document it was given. *)
Theorem C8_add_star_is_idempotent :
  forall (task : Task) (fileContent : jsstring),
    (exists once,
       addStarInline task fileContent = Ok once /\
       addStarInline task once = Ok once) /\
    (forall taskLineIdx line,
       findTaskLineByIdOrText (splitLines fileContent) (task_id task)
         (task_text task) = Some taskLineIdx ->
       nth_error (splitLines fileContent) taskLineIdx = Some line ->
       includes line STAR = true ->
       addStarInline task fileContent = Ok fileContent).
Proof.
  intros task fileContent. split.
  - unfold addStarInline at 1.
    destruct (findTaskLineByIdOrText (splitLines fileContent) (task_id task)
                (task_text task)) as [idx|] eqn:F.
    + destruct (get_ok (splitLines fileContent) idx) as (line & Hget & Hline).
      { eapply findTaskLineByIdOrText_bound. exact F. }
      rewrite Hget. cbn [bind].
      destruct (includes line STAR) eqn:Hstar.
      * exists fileContent. split; [reflexivity|].
        unfold addStarInline. rewrite F, Hget. cbn [bind]. now rewrite Hstar.
      * eexists. split; [reflexivity|].
        set (newline := line ++ u " " ++ STAR).
        set (L := splitLines fileContent) in *.
        assert (Hread : Forall2 readBack (assign L idx newline)
                          (splitLines (joinLines (assign L idx newline)))).
        { apply resplit.
          - intros E. apply (f_equal (@length _)) in E.
            rewrite assign_length in E. simpl in E.
            assert (idx < length L) by (apply nth_error_Some; congruence).
            lia.
          - intros l Hl. apply assign_in in Hl as [->|Hl].
            + apply starred_line_no_LF. apply (splitLines_no_LF fileContent).
              eapply nth_error_In. exact Hline.
            + now apply (splitLines_no_LF fileContent). }
        assert (Hgrows : forall pat, includes line pat = true ->
                                     includes newline pat = true).
        { intros pat Hp. now apply includes_app_l. }
        unfold addStarInline.
        rewrite (relocate_task_line L _ idx line newline Hline Hread
                   (starred_line_kept line) Hgrows _ _ F).
        unfold get.
        rewrite (relocate_same L _ idx line newline Hline Hread
                   (starred_line_kept line)).
        cbn [bind].
        assert (Hnow : includes newline STAR = true).
        { unfold newline. rewrite app_assoc. apply includes_app_r.
          apply includes_self. }
        now rewrite Hnow.
    + exists fileContent. split; [reflexivity|].
      unfold addStarInline. now rewrite F.
  - intros idx line F Hline Hstar. unfold addStarInline.
    rewrite F. unfold get. rewrite Hline. cbn [bind]. now rewrite Hstar.
Qed.

(** ** No mutation throws *)

Lemma firstIndex_some : forall count from p i,
  firstIndex count from p = Some i ->
  from <= i < from + count /\ p i = true.
Proof.
  induction count as [|count IH]; intros from p i H; simpl in H;
    [discriminate|].
  destruct (p from) eqn:E.
  - injection H as <-. split; [lia|exact E].
  - apply IH in H. split; [lia|tauto].
Qed.

Lemma firstIndex_none : forall count from p,
  (forall i, from <= i < from + count -> p i = false) ->
  firstIndex count from p = None.
Proof.
  induction count as [|count IH]; intros from p H; simpl; [reflexivity|].
  rewrite H by lia. apply IH. intros i Hi. apply H. lia.
Qed.

Lemma frontmatterEnd_bound : forall lines fmEnd,
  frontmatterEnd lines = Some fmEnd -> 1 <= fmEnd < length lines.
Proof.
  intros lines fmEnd H. unfold frontmatterEnd in H.
  destruct (strictEq lines 0 (u "---")); [|discriminate].
  apply firstIndex_some in H as [H _]. lia.
Qed.

Lemma forFirst_get_ok : forall lines (f : jsstring -> bool) count from,
  from + count <= length lines ->
  exists found,
    forFirst count from (fun i => line <- get lines i ;; Ok (f line))
    = Ok found /\
    (forall i, found = Some i -> from <= i < from + count).
Proof.
  intros lines f. induction count as [|count IH]; intros from H; simpl.
  - exists None. split; [reflexivity|discriminate].
  - destruct (get_ok lines from) as (l & -> & _); [lia|]. cbn [bind].
    destruct (f l).
    + exists (Some from). split; [reflexivity|].
      intros i Hi. injection Hi as <-. lia.
    + destruct (IH (S from)) as (found & -> & Hfound); [lia|].
      exists found. split; [reflexivity|].
      intros i Hi. apply Hfound in Hi. lia.
Qed.

Lemma removeTagItem_ok : forall tag count i lines,
  i + count <= length lines ->
  exists lines', removeTagItem count i lines tag = Ok lines'.
Proof.
  intros tag. induction count as [|count IH]; intros i lines H; simpl.
  - now exists lines.
  - destruct (get_ok lines i) as (l & -> & _); [lia|]. cbn [bind].
    destruct (isSome (listItemRegex l)); [|now exists lines].
    destruct (listItemIs l tag); [now eexists|].
    apply IH. lia.
Qed.

Lemma findTagSlot_ok : forall tag count j lines,
  j + count <= length lines ->
  exists slot, findTagSlot count j lines tag = Ok slot.
Proof.
  intros tag. induction count as [|count IH]; intros j lines H; simpl.
  - now eexists.
  - destruct (get_ok lines j) as (l & -> & _); [lia|]. cbn [bind].
    destruct (isSome (listItemRegex l)); [|now eexists].
    destruct (listItemIs l tag); [now eexists|].
    apply IH. lia.
Qed.

Lemma skipBlockedByItems_ok : forall bound lines fuel insertIndex,
  bound <= length lines ->
  bound - insertIndex <= fuel ->
  exists stop, skipBlockedByItems fuel bound lines insertIndex = Ok stop.
Proof.
  intros bound lines. induction fuel as [|fuel IH];
    intros insertIndex Hbound Hfuel.
  - simpl. destruct (insertIndex <? bound) eqn:E; [|now eexists].
    apply Nat.ltb_lt in E. lia.
  - simpl. destruct (insertIndex <? bound) eqn:E; [|now eexists].
    apply Nat.ltb_lt in E.
    destruct (get_ok lines insertIndex) as (l & -> & _); [lia|]. cbn [bind].
    destruct (isSome (uidItemRegex l)); [|now eexists].
    destruct (insertIndex + 1 <? length lines) eqn:E2.
    + apply Nat.ltb_lt in E2.
      destruct (get_ok lines (insertIndex + 1)) as (l2 & -> & _);
        [exact E2|]. cbn [bind].
      apply IH; [exact Hbound|].
      destruct (isSome (reltypeItemRegex l2)); lia.
    + cbn [bind]. apply IH; [exact Hbound|lia].
Qed.

Lemma spliceRemove_length : forall lines i,
  i < length lines -> length (spliceRemove lines i) = length lines - 1.
Proof.
  intros lines i H. unfold spliceRemove.
  rewrite length_app, length_firstn, length_skipn. lia.
Qed.

Lemma removeDependencyItems_ok : forall basename fuel i fmEnd lines,
  fmEnd <= length lines ->
  fmEnd - i <= fuel ->
  exists lines', removeDependencyItems fuel i fmEnd lines basename = Ok lines'.
Proof.
  intros basename. induction fuel as [|fuel IH];
    intros i fmEnd lines Hbound Hfuel.
  - cbn [removeDependencyItems].
    destruct (i <? fmEnd) eqn:E; [|now eexists].
    apply Nat.ltb_lt in E. lia.
  - cbn [removeDependencyItems].
    destruct (i <? fmEnd) eqn:E; [|now eexists].
    apply Nat.ltb_lt in E.
    destruct (get_ok lines i) as (l & -> & _); [lia|]. cbn [bind].
    destruct (isSome (looseUidRegex l) && _).
    + assert (Hlen : length (spliceRemove lines i) = length lines - 1)
        by (apply spliceRemove_length; lia).
      destruct (i <? length (spliceRemove lines i)) eqn:E2.
      * apply Nat.ltb_lt in E2.
        destruct (get_ok (spliceRemove lines i) i) as (l2 & -> & _);
          [exact E2|]. cbn [bind].
        destruct (isSome (looseReltypeRegex l2)).
        -- apply IH; [|lia].
           rewrite spliceRemove_length by exact E2. lia.
        -- apply IH; lia.
      * cbn [bind]. apply IH; lia.
    + apply IH; lia.
Qed.

Ltac ok_branches :=
  cbv zeta;
  repeat match goal with
         | |- exists _, Ok _ = Ok _ => eexists; reflexivity
         | |- exists _, (if ?c then _ else _) = Ok _ => destruct c
         | |- exists _, match ?x with _ => _ end = Ok _ => destruct x
         end.

Ltac ok_get lines i :=
  let l := fresh "line" in
  let H := fresh "Hget" in
  destruct (get_ok lines i) as (l & H & _);
  [try lia | rewrite H; cbn [bind]].

Lemma findTaskLineForTags_bound :
  forall rE rD rT nW lines task i,
    findTaskLineForTags rE rD rT nW lines task = Some i -> i < length lines.
Proof.
  intros rE rD rT nW lines task i. unfold findTaskLineForTags.
  destruct (findTaskLineByIdOrText lines (task_id task) (task_text task))
    eqn:E.
  - intros H. injection H as ->. eapply findTaskLineByIdOrText_bound. exact E.
  - apply findIndex_bound.
Qed.

Lemma updateTaskStatusNote_ok : forall newStatus fileContent,
  exists doc, updateTaskStatusNote newStatus fileContent = Ok doc.
Proof.
  intros newStatus fileContent. unfold updateTaskStatusNote. cbv zeta.
  destruct (frontmatterEnd (splitLines fileContent)) as [fmEnd|] eqn:E;
    [|now eexists].
  apply frontmatterEnd_bound in E.
  destruct (forFirst_get_ok (splitLines fileContent)
              (fun line => startsWith line (u "status:")) (fmEnd - 1) 1)
    as (found & -> & _); [lia|].
  cbn [bind]. ok_branches.
Qed.

Lemma updateTaskStatusInline_ok : forall task newStatus fileContent,
  exists doc, updateTaskStatusInline task newStatus fileContent = Ok doc.
Proof.
  intros task newStatus fileContent. unfold updateTaskStatusInline. cbv zeta.
  destruct (findTaskLineByIdOrText (splitLines fileContent) (task_id task)
              (task_text task)) as [idx|] eqn:E; [|now eexists].
  apply findTaskLineByIdOrText_bound in E.
  ok_get (splitLines fileContent) idx. ok_branches.
Qed.

Lemma addStarNote_ok : forall fileContent,
  exists doc, addStarNote fileContent = Ok doc.
Proof.
  intros fileContent. unfold addStarNote. cbv zeta.
  destruct (frontmatterEnd (splitLines fileContent)) as [fmEnd|] eqn:E;
    [|now eexists].
  apply frontmatterEnd_bound in E.
  destruct (forFirst_get_ok (splitLines fileContent)
              (fun line => isSome (starredRegex line)) (fmEnd - 1) 1)
    as (found & -> & _); [lia|].
  cbn [bind]. destruct found; [now eexists|].
  destruct (forFirst_get_ok (splitLines fileContent)
              (fun line => isSome (priorityRegex line)) (fmEnd - 1) 1)
    as (found & -> & _); [lia|].
  cbn [bind]. ok_branches.
Qed.

Lemma addStarInline_ok : forall task fileContent,
  exists doc, addStarInline task fileContent = Ok doc.
Proof.
  intros task fileContent. unfold addStarInline. cbv zeta.
  destruct (findTaskLineByIdOrText (splitLines fileContent) (task_id task)
              (task_text task)) as [idx|] eqn:E; [|now eexists].
  apply findTaskLineByIdOrText_bound in E.
  ok_get (splitLines fileContent) idx. ok_branches.
Qed.

Lemma removeStarNote_ok : forall fileContent,
  exists doc, removeStarNote fileContent = Ok doc.
Proof.
  intros fileContent. unfold removeStarNote. cbv zeta.
  destruct (frontmatterEnd (splitLines fileContent)) as [fmEnd|] eqn:E;
    [|now eexists].
  apply frontmatterEnd_bound in E.
  destruct (forFirst_get_ok (splitLines fileContent)
              (fun line => isSome (starredRegex line)) (fmEnd - 1) 1)
    as (found & -> & _); [lia|].
  cbn [bind]. ok_branches.
Qed.

Lemma removeStarInline_ok : forall task fileContent,
  exists doc, removeStarInline task fileContent = Ok doc.
Proof.
  intros task fileContent. unfold removeStarInline. cbv zeta.
  destruct (findTaskLineByIdOrText (splitLines fileContent) (task_id task)
              (task_text task)) as [idx|] eqn:E; [|now eexists].
  apply findTaskLineByIdOrText_bound in E.
  ok_get (splitLines fileContent) idx. ok_branches.
Qed.

Lemma removeTagNote_ok : forall tag fileContent,
  exists doc, removeTagNote tag fileContent = Ok doc.
Proof.
  intros tag fileContent. unfold removeTagNote. cbv zeta.
  destruct (frontmatterEnd (splitLines fileContent)) as [fmEnd|] eqn:E;
    [|now eexists].
  apply frontmatterEnd_bound in E.
  destruct (firstIndex (fmEnd - 1) 1 _) as [i|] eqn:F; [|now eexists].
  apply firstIndex_some in F as [F _].
  destruct (removeTagItem_ok tag (fmEnd - (i + 1)) (i + 1)
              (splitLines fileContent)) as (lines' & ->); [lia|].
  cbn [bind]. now eexists.
Qed.

Lemma addTagNote_ok : forall tag fileContent,
  exists doc, addTagNote tag fileContent = Ok doc.
Proof.
  intros tag fileContent. unfold addTagNote. cbv zeta.
  destruct (frontmatterEnd (splitLines fileContent)) as [fmEnd|] eqn:E;
    [|now eexists].
  apply frontmatterEnd_bound in E.
  destruct (firstIndex (fmEnd - 1) 1 _) as [i|] eqn:F; [|now eexists].
  apply firstIndex_some in F as [F _].
  destruct (findTagSlot_ok tag (fmEnd - (i + 1)) (i + 1)
              (splitLines fileContent)) as (slot & ->); [lia|].
  cbn [bind]. ok_branches.
Qed.

Lemma removeTagInline_ok : forall rE rD rT nW task tag fileContent,
  exists doc, removeTagInline rE rD rT nW task tag fileContent = Ok doc.
Proof.
  intros rE rD rT nW task tag fileContent. unfold removeTagInline. cbv zeta.
  destruct (findTaskLineForTags rE rD rT nW (splitLines fileContent) task)
    as [idx|] eqn:E; [|now eexists].
  apply findTaskLineForTags_bound in E.
  ok_get (splitLines fileContent) idx. ok_branches.
Qed.

Lemma addTagInline_ok : forall rE rD rT nW task tag fileContent,
  exists doc, addTagInline rE rD rT nW task tag fileContent = Ok doc.
Proof.
  intros rE rD rT nW task tag fileContent. unfold addTagInline. cbv zeta.
  destruct (findTaskLineForTags rE rD rT nW (splitLines fileContent) task)
    as [idx|] eqn:E; [|now eexists].
  apply findTaskLineForTags_bound in E.
  ok_get (splitLines fileContent) idx. ok_branches.
Qed.

Lemma addSignCallback_ok : forall task type hash style fileContent,
  exists doc, addSignCallback task type hash style fileContent = Ok doc.
Proof.
  intros task type hash style fileContent. unfold addSignCallback. cbv zeta.
  destruct (findIndex _ (splitLines fileContent)) as [idx|] eqn:E;
    [|now eexists].
  apply findIndex_bound in E.
  ok_get (splitLines fileContent) idx. ok_branches.
Qed.

Lemma removeSignCallback_ok : forall task type hash fileContent,
  exists doc, removeSignCallback task type hash fileContent = Ok doc.
Proof.
  intros task type hash fileContent. unfold removeSignCallback. cbv zeta.
  destruct (findIndex _ (splitLines fileContent)) as [idx|] eqn:E;
    [|now eexists].
  apply findIndex_bound in E.
  ok_get (splitLines fileContent) idx. ok_branches.
Qed.

Lemma addDependencyCallback_ok : forall fromTask fileContent,
  exists doc, addDependencyCallback fromTask fileContent = Ok doc.
Proof.
  intros fromTask fileContent. unfold addDependencyCallback. cbv zeta.
  destruct (frontmatterEnd (splitLines fileContent)) as [fmEnd|] eqn:E;
    [|now eexists].
  apply frontmatterEnd_bound in E.
  set (lines := splitLines fileContent) in *.
  set (frontmatterLines := firstn (fmEnd - 1) (skipn 1 lines)).
  assert (Hlen : length frontmatterLines <= length lines - 1).
  { unfold frontmatterLines. rewrite length_firstn, length_skipn. lia. }
  destruct (forFirst_get_ok frontmatterLines
              (fun line => isSome (blockedByRegex line))
              (length frontmatterLines) 0)
    as (blockedByIndex & -> & _); [lia|].
  cbn [bind].
  destruct (forFirst_get_ok lines
              (fun line => includes line (u "uid:") &&
                           includes line (u "[[" ++ task_text fromTask ++ u "]]"))
              (fmEnd - 1) 1)
    as (existing & -> & _); [lia|].
  cbn [bind]. destruct existing; [now eexists|].
  destruct blockedByIndex as [b|]; [|now eexists].
  destruct (skipBlockedByItems_ok (0 + 1 + length frontmatterLines) lines
              (length lines) (0 + 1 + b + 1))
    as (stop & ->); [lia|lia|].
  cbn [bind]. now eexists.
Qed.

Lemma removeDependencyCallback_ok : forall fromTaskId fileContent,
  exists doc, removeDependencyCallback fromTaskId fileContent = Ok doc.
Proof.
  intros fromTaskId fileContent. unfold removeDependencyCallback. cbv zeta.
  destruct (frontmatterEnd (splitLines fileContent)) as [fmEnd|] eqn:E;
    [|now eexists].
  apply frontmatterEnd_bound in E.
  destruct (removeDependencyItems_ok (basenameOf fromTaskId)
              (length (splitLines fileContent)) 1 fmEnd
              (splitLines fileContent))
    as (lines' & ->); [lia|lia|].
  cbn [bind]. now eexists.
Qed.

(** ** A target that is not there *)

Section Missing.

Variables removeEmojiId removeDataviewId removeTags normalizeWhitespace :
  jsstring -> jsstring.

Lemma strictEq_true : forall lines i s,
  strictEq lines i s = true <-> nth_error lines i = Some s.
Proof.
  intros lines i s. unfold strictEq.
  destruct (nth_error lines i) as [l|]; split; try discriminate.
  - intros H. apply eqb_eq in H. now subst.
  - intros H. injection H as ->. apply eqb_refl.
Qed.

Lemma frontmatterEnd_missing : forall lines,
  blockMissing lines -> frontmatterEnd lines = None.
Proof.
  intros lines [H|H]; unfold frontmatterEnd.
  - destruct (strictEq lines 0 (u "---")) eqn:E; [|reflexivity].
    apply strictEq_true in E. contradiction.
  - destruct (strictEq lines 0 (u "---")); [|reflexivity].
    apply firstIndex_none. intros i Hi.
    destruct (strictEq lines i (u "---")) eqn:E; [|reflexivity].
    apply strictEq_true in E. exfalso. apply (H i); [lia|exact E].
Qed.

Lemma findIndex_absent : forall (p : jsstring -> bool) X,
  (forall x, In x X -> p x = false) -> findIndex p X = None.
Proof.
  intros p X H. apply findIndexFrom_absent. intros j y Hy.
  apply H. eapply nth_error_In. exact Hy.
Qed.

Lemma findTaskLineByIdOrText_missing : forall lines task,
  (forall line, In line lines -> marksTask task line = false) ->
  findTaskLineByIdOrText lines (task_id task) (task_text task) = None.
Proof.
  intros lines task H. unfold findTaskLineByIdOrText.
  rewrite !findIndex_absent; [reflexivity| | |]; intros x Hx;
    specialize (H x Hx); unfold marksTask in H;
    apply orb_false_iff in H as [H H3];
    apply orb_false_iff in H as [H1 H2]; assumption.
Qed.

Lemma findTaskLineForTags_missing : forall lines task,
  (forall line, In line lines ->
                marksTask task line = false /\
                sameCoreText removeEmojiId removeDataviewId removeTags
                  normalizeWhitespace task line = false) ->
  findTaskLineForTags removeEmojiId removeDataviewId removeTags
    normalizeWhitespace lines task = None.
Proof.
  intros lines task H. unfold findTaskLineForTags.
  rewrite findTaskLineByIdOrText_missing by (intros l Hl; apply H; exact Hl).
  apply findIndex_absent. intros x Hx. now apply H.
Qed.

Lemma callback_ok : forall op task fileContent,
  exists doc,
    callback removeEmojiId removeDataviewId removeTags normalizeWhitespace
      op task fileContent = Ok doc.
Proof.
  intros op task fileContent. destruct op; simpl;
    try match goal with
        | |- context [task_type task] => destruct (task_type task)
        end.
  - apply updateTaskStatusInline_ok.
  - apply updateTaskStatusNote_ok.
  - apply addTagInline_ok.
  - apply addTagNote_ok.
  - apply removeTagInline_ok.
  - apply removeTagNote_ok.
  - apply addStarInline_ok.
  - apply addStarNote_ok.
  - apply removeStarInline_ok.
  - apply removeStarNote_ok.
  - apply addSignCallback_ok.
  - apply removeSignCallback_ok.
  - apply addDependencyCallback_ok.
  - apply removeDependencyCallback_ok.
Qed.

Lemma callback_missing : forall op task fileContent,
  targetMissing removeEmojiId removeDataviewId removeTags normalizeWhitespace
    op task fileContent ->
  callback removeEmojiId removeDataviewId removeTags normalizeWhitespace
    op task fileContent = Ok fileContent.
Proof.
  intros op task fileContent. unfold targetMissing, targetOf.
  destruct op; simpl;
    try match goal with
        | |- context [task_type task] => destruct (task_type task)
        end;
    intros H;
    try (apply frontmatterEnd_missing in H);
    try (apply findTaskLineByIdOrText_missing in H);
    try (apply findTaskLineForTags_missing in H);
    try (apply findIndex_absent in H).
  - unfold updateTaskStatusInline. now rewrite H.
  - unfold updateTaskStatusNote. now rewrite H.
  - unfold addTagInline. now rewrite H.
  - unfold addTagNote. now rewrite H.
  - unfold removeTagInline. now rewrite H.
  - unfold removeTagNote. now rewrite H.
  - unfold addStarInline. now rewrite H.
  - unfold addStarNote. now rewrite H.
  - unfold removeStarInline. now rewrite H.
  - unfold removeStarNote. now rewrite H.
  - unfold addSignCallback. now rewrite H.
  - unfold removeSignCallback. now rewrite H.
  - unfold addDependencyCallback. now rewrite H.
  - unfold removeDependencyCallback. now rewrite H.
Qed.

End Missing.

(** ** The vault around the callbacks *)

Lemma process_ok : forall vault path fn,
  (forall fileContent, exists doc, fn fileContent = Ok doc) ->
  exists vault', process vault path fn = Ok vault'.
Proof.
  intros vault path fn Hfn. unfold process.
  destruct (vault path) as [fileContent|]; [|now eexists].
  destruct (Hfn fileContent) as (doc & ->). cbn [bind]. now eexists.
Qed.

(** A mutation of the vault returns whenever its callback does. *)
Lemma guarded_ok : forall checkText task vault fn,
  (forall fileContent, exists doc, fn fileContent = Ok doc) ->
  exists vault', guarded checkText task vault fn = Ok vault'.
Proof.
  intros checkText task vault fn Hfn. unfold guarded.
  destruct (isEmpty (task_link task) || checkText && isEmpty (task_text task));
    [now eexists|].
  destruct (vault (task_link task)); [|now eexists].
  now apply process_ok.
Qed.

(** A task without a document leaves the vault as it is. *)
Lemma guarded_without_document : forall checkText task vault fn,
  vault (task_link task) = None ->
  guarded checkText task vault fn = Ok vault.
Proof.
  intros checkText task vault fn H. unfold guarded.
  destruct (isEmpty (task_link task) || checkText && isEmpty (task_text task));
    [reflexivity|].
  now rewrite H.
Qed.

(** A callback that gives the document back leaves every document of the
    vault as it is. *)
Lemma guarded_same_document : forall checkText task vault fn fileContent,
  vault (task_link task) = Some fileContent ->
  fn fileContent = Ok fileContent ->
  exists vault',
    guarded checkText task vault fn = Ok vault' /\
    forall path, vault' path = vault path.
Proof.
  intros checkText task vault fn fileContent Hfile Hfn. unfold guarded.
  destruct (isEmpty (task_link task) || checkText && isEmpty (task_text task)).
  { exists vault. now split. }
  rewrite Hfile. unfold process. rewrite Hfile, Hfn. cbn [bind].
  eexists. split; [reflexivity|].
  intros path. unfold writeFile.
  destruct (eqb path (task_link task)) eqn:E; [|reflexivity].
  apply eqb_eq in E. now subst path.
Qed.

(** Every exported function is its callback behind the guards; the two
    functions for note dependencies do not test the text of the task. *)
Lemma mutateVault_guarded :
  forall removeEmojiId removeDataviewId removeTags normalizeWhitespace
         op task vault,
    mutateVault removeEmojiId removeDataviewId removeTags normalizeWhitespace
      op task vault
    = guarded
        (match op with
         | AddNoteDependency _ | RemoveNoteDependency _ => false
         | _ => true
         end)
        task vault
        (callback removeEmojiId removeDataviewId removeTags
           normalizeWhitespace op task).
Proof. intros rE rD rT nW op task vault. destruct op; reflexivity. Qed.

(** Whatever the document, the task and the expressions of task-regex are,
    the callback of every mutation (set-status, add and remove tag, add and
    remove star, add and remove sign, add and remove note dependency) returns
    a document: it neither throws nor uses up a loop budget.  When the
    operation works on the attribute block and the block is missing or
    unterminated, or works on a line and no line of the document passes its
    lookup, the callback returns the document it was given.  So the exported
    function returns on every vault, and it leaves every document of the vault
    as it is when the task has no document or the lookup finds nothing. *)
Lemma mutations_return_and_skip_missing_targets :
  forall removeEmojiId removeDataviewId removeTags normalizeWhitespace
         (op : Operation) (task : Task),
    let run :=
      callback removeEmojiId removeDataviewId removeTags normalizeWhitespace
        op task in
    let missing :=
      targetMissing removeEmojiId removeDataviewId removeTags
        normalizeWhitespace op task in
    let runInVault :=
      mutateVault removeEmojiId removeDataviewId removeTags
        normalizeWhitespace op task in
    (forall fileContent, exists doc, run fileContent = Ok doc) /\
    (forall fileContent, missing fileContent ->
                         run fileContent = Ok fileContent) /\
    (forall vault, exists vault', runInVault vault = Ok vault') /\
    (forall vault,
       vault (task_link task) = None \/
       (exists fileContent,
          vault (task_link task) = Some fileContent /\ missing fileContent) ->
       exists vault',
         runInVault vault = Ok vault' /\
         forall path, vault' path = vault path).
Proof.
  intros rE rD rT nW op task run missing runInVault.
  subst run missing runInVault.
  split; [|split; [|split]].
  - intros fileContent. apply callback_ok.
  - intros fileContent. apply callback_missing.
  - intros vault. rewrite mutateVault_guarded. apply guarded_ok.
    intros fileContent. apply callback_ok.
  - intros vault [Hnone|(fileContent & Hfile & Hmissing)];
      rewrite mutateVault_guarded.
    + rewrite guarded_without_document by exact Hnone.
      exists vault. now split.
    + apply (guarded_same_document _ task vault _ fileContent Hfile).
      now apply callback_missing.
Qed.

(** ** Adding a tag to a note twice *)

Lemma firstIndex_first : forall count from p i,
  firstIndex count from p = Some i ->
  forall k, from <= k < i -> p k = false.
Proof.
  induction count as [|count IH]; intros from p i H k Hk; simpl in H;
    [discriminate|].
  destruct (p from) eqn:E.
  - injection H as <-. lia.
  - destruct (Nat.eq_dec k from) as [->|Hne]; [exact E|].
    apply (IH _ _ _ H). lia.
Qed.

Lemma firstIndex_found : forall count from p i,
  from <= i < from + count ->
  p i = true ->
  (forall k, from <= k < i -> p k = false) ->
  firstIndex count from p = Some i.
Proof.
  induction count as [|count IH]; intros from p i Hi Hp Hbefore; [lia|].
  simpl. destruct (Nat.eq_dec i from) as [->|Hne].
  - now rewrite Hp.
  - rewrite Hbefore by lia. apply IH; [lia|exact Hp|].
    intros k Hk. apply Hbefore. lia.
Qed.

Lemma spliceInsert_before : forall lines j items k,
  k < j -> j <= length lines ->
  nth_error (spliceInsert lines j items) k = nth_error lines k.
Proof.
  intros lines j items k Hk Hj. unfold spliceInsert.
  rewrite nth_error_app1 by (rewrite length_firstn; lia).
  rewrite nth_error_firstn.
  now rewrite (proj2 (Nat.ltb_lt k j) Hk).
Qed.

Lemma spliceInsert_at : forall lines j items k,
  j <= length lines -> k < length items ->
  nth_error (spliceInsert lines j items) (j + k) = nth_error items k.
Proof.
  intros lines j items k Hj Hk. unfold spliceInsert.
  rewrite nth_error_app2 by (rewrite length_firstn; lia).
  rewrite length_firstn, Nat.min_l by exact Hj.
  replace (j + k - j) with k by lia.
  now rewrite nth_error_app1.
Qed.

Lemma spliceInsert_after : forall lines j items k,
  j <= length lines -> j <= k ->
  nth_error (spliceInsert lines j items) (k + length items)
  = nth_error lines k.
Proof.
  intros lines j items k Hj Hk. unfold spliceInsert.
  rewrite nth_error_app2 by (rewrite length_firstn; lia).
  rewrite length_firstn, Nat.min_l by exact Hj.
  rewrite nth_error_app2 by lia.
  rewrite nth_error_skipn. f_equal. lia.
Qed.

Lemma spliceInsert_length : forall lines j items,
  length (spliceInsert lines j items) = length lines + length items.
Proof.
  intros lines j items. unfold spliceInsert.
  rewrite !length_app, length_firstn, length_skipn. lia.
Qed.

Lemma spliceInsert_in : forall lines j items l,
  In l (spliceInsert lines j items) -> In l lines \/ In l items.
Proof.
  intros lines j items l H. unfold spliceInsert in H.
  apply in_app_or in H as [H|H].
  - left. rewrite <- (firstn_skipn j lines). apply in_or_app. now left.
  - apply in_app_or in H as [H|H]; [now right|].
    left. rewrite <- (firstn_skipn j lines). apply in_or_app. now right.
Qed.

Lemma readBack_exact : forall X Y,
  Forall2 readBack X Y ->
  (forall l, In l X -> forall l', l <> l' ++ [CR]) ->
  Y = X.
Proof.
  intros X Y H. induction H as [|a b X Y Hab H IH]; intros Hcr;
    [reflexivity|].
  f_equal.
  - destruct Hab as [Hab|Hab]; [exact Hab|].
    exfalso. apply (Hcr a (or_introl eq_refl) b). exact Hab.
  - apply IH. intros l Hl. apply Hcr. now right.
Qed.

(** Lines that hold no line feed and end in no carriage return are read
    back as they were written. *)
Lemma resplit_exact : forall lines,
  lines <> [] ->
  (forall l, In l lines -> ~ In LF l) ->
  (forall l, In l lines -> forall l', l <> l' ++ [CR]) ->
  splitLines (joinLines lines) = lines.
Proof.
  intros lines Hne Hlf Hcr. apply readBack_exact; [|exact Hcr].
  now apply resplit.
Qed.

Lemma countWhile_all : forall p s,
  forallb p s = true -> countWhile p s = length s.
Proof.
  intros p s. induction s as [|c s IH]; simpl; intros H; [reflexivity|].
  apply andb_true_iff in H as [Hc Hs]. rewrite Hc. f_equal. now apply IH.
Qed.

(** The list item written for a tag is read as an item with that tag. *)
Lemma tagItem_is : forall tag,
  tag <> [] -> forallb isDot tag = true ->
  isSome (listItemRegex (u "  - " ++ tag)) = true /\
  listItemIs (u "  - " ++ tag) tag = true.
Proof.
  intros tag Hne Hdot. split; [reflexivity|].
  unfold listItemIs, listItemValue, listItemValueRegex.
  change (u "  - " ++ tag) with (32 :: 32 :: 45 :: 32 :: tag)%N.
  unfold seq, classN, lit, classPlus.
  cbn [length Nat.leb firstn forallb skipn andb].
  change (isSpace 32) with true. cbn [andb skipn].
  change (startsWith (45 :: 32 :: tag)%N (u "- ")) with true. cbv iota.
  change (length (u "- ")) with 2. cbn [skipn].
  rewrite countWhile_all by exact Hdot.
  destruct tag as [|c tag]; [contradiction|].
  cbn [length]. cbv iota.
  change (S (length tag)) with (length (c :: tag)).
  rewrite skipn_all. cbn [eos]. apply eqb_refl.
Qed.

Lemma tagItem_no_CR : forall prefix tag l',
  tag <> [] -> forallb isDot tag = true -> prefix ++ tag <> l' ++ [CR].
Proof.
  intros prefix tag l' Hne Hdot E.
  destruct (exists_last Hne) as (tag' & z & ->).
  rewrite app_assoc in E. apply app_inj_tail in E as [_ ->].
  rewrite forallb_app in Hdot. apply andb_true_iff in Hdot as [_ Hz].
  discriminate Hz.
Qed.

Lemma tagItem_no_LF : forall tag,
  forallb isDot tag = true -> ~ In LF (u "  - " ++ tag).
Proof.
  intros tag Hdot H. apply in_app_or in H as [H|H].
  - simpl in H. repeat destruct H as [H|H]; try discriminate H; exact H.
  - rewrite forallb_forall in Hdot. apply Hdot in H. discriminate H.
Qed.

Lemma findTagSlot_some : forall tag count j0 lines j,
  findTagSlot count j0 lines tag = Ok (Some j) ->
  j0 <= j <= j0 + count /\
  forall k, j0 <= k < j ->
    exists l, nth_error lines k = Some l /\
              isSome (listItemRegex l) = true /\ listItemIs l tag = false.
Proof.
  intros tag. induction count as [|count IH]; intros j0 lines j H; simpl in H.
  - injection H as <-. split; [lia|]. intros k Hk. lia.
  - unfold get in H. destruct (nth_error lines j0) as [l|] eqn:El;
      [|discriminate]. cbn [bind] in H.
    destruct (isSome (listItemRegex l)) eqn:Eitem.
    + destruct (listItemIs l tag) eqn:Eis; [discriminate|].
      apply IH in H as [Hj Hbefore]. split; [lia|].
      intros k Hk. destruct (Nat.eq_dec k j0) as [->|Hne].
      * now exists l.
      * apply Hbefore. lia.
    + injection H as <-. split; [lia|]. intros k Hk. lia.
Qed.

Lemma findTagSlot_none : forall tag count j0 lines j item,
  j0 <= j < j0 + count ->
  (forall k, j0 <= k < j ->
     exists l, nth_error lines k = Some l /\
               isSome (listItemRegex l) = true /\ listItemIs l tag = false) ->
  nth_error lines j = Some item ->
  isSome (listItemRegex item) = true ->
  listItemIs item tag = true ->
  findTagSlot count j0 lines tag = Ok None.
Proof.
  intros tag. induction count as [|count IH];
    intros j0 lines j item Hj Hbefore Hitem Hre His; [lia|].
  simpl. unfold get. destruct (Nat.eq_dec j j0) as [->|Hne].
  - rewrite Hitem. cbn [bind]. now rewrite Hre, His.
  - destruct (Hbefore j0) as (l & -> & Hl1 & Hl2); [lia|]. cbn [bind].
    rewrite Hl1, Hl2. apply (IH (S j0) lines j item); try assumption; [lia|].
    intros k Hk. apply Hbefore. lia.
Qed.

Lemma strictEq_same : forall A B i k s,
  nth_error A i = nth_error B k -> strictEq A i s = strictEq B k s.
Proof. intros A B i k s H. unfold strictEq. now rewrite H. Qed.

Lemma strictEq_other : forall lines i s x,
  nth_error lines i = Some x -> x <> s -> strictEq lines i s = false.
Proof.
  intros lines i s x H Hne. unfold strictEq. rewrite H. now apply eqb_neq.
Qed.

Lemma firstIndex_none_elim : forall count from p,
  firstIndex count from p = None ->
  forall k, from <= k < from + count -> p k = false.
Proof.
  induction count as [|count IH]; intros from p H k Hk; [lia|].
  simpl in H. destruct (p from) eqn:E; [discriminate|].
  destruct (Nat.eq_dec k from) as [->|Hne]; [exact E|].
  apply (IH _ _ H). lia.
Qed.

(** The closing line of the attribute block after lines are inserted in the
    block. *)
Lemma frontmatterEnd_insert : forall lines fmEnd j items,
  frontmatterEnd lines = Some fmEnd ->
  1 <= j <= fmEnd ->
  (forall x, In x items -> x <> u "---") ->
  frontmatterEnd (spliceInsert lines j items) = Some (fmEnd + length items).
Proof.
  intros lines fmEnd j items H Hj Hitems.
  pose proof (frontmatterEnd_bound _ _ H) as Hbound.
  unfold frontmatterEnd in *.
  destruct (strictEq lines 0 (u "---")) eqn:E0; [|discriminate].
  rewrite (strictEq_same (spliceInsert lines j items) lines 0 0)
    by (apply spliceInsert_before; lia).
  rewrite E0.
  pose proof (firstIndex_some _ _ _ _ H) as [_ Hend].
  pose proof (firstIndex_first _ _ _ _ H) as Hfirst.
  apply firstIndex_found.
  - rewrite spliceInsert_length. lia.
  - rewrite (strictEq_same _ lines _ fmEnd); [exact Hend|].
    apply spliceInsert_after; lia.
  - intros k Hk.
    destruct (Nat.lt_ge_cases k j) as [Hlt|Hge].
    + rewrite (strictEq_same _ lines _ k) by (apply spliceInsert_before; lia).
      apply Hfirst. lia.
    + destruct (Nat.lt_ge_cases k (j + length items)) as [Hin|Hout].
      * replace k with (j + (k - j)) by lia.
        destruct (nth_error items (k - j)) as [x|] eqn:Ex.
        -- apply (strictEq_other _ _ _ x).
           ++ rewrite spliceInsert_at by lia. exact Ex.
           ++ apply Hitems. eapply nth_error_In. exact Ex.
        -- apply nth_error_None in Ex. lia.
      * replace k with ((k - length items) + length items) by lia.
        rewrite (strictEq_same _ lines _ (k - length items))
          by (apply spliceInsert_after; lia).
        apply Hfirst. lia.
Qed.

Lemma written_lines_read_back : forall fileContent j items,
  (forall l, In l (splitLines fileContent) -> forall l', l <> l' ++ [CR]) ->
  (forall x, In x items -> ~ In LF x /\ forall l', x <> l' ++ [CR]) ->
  splitLines (joinLines (spliceInsert (splitLines fileContent) j items))
  = spliceInsert (splitLines fileContent) j items.
Proof.
  intros fileContent j items Hcr Hitems. apply resplit_exact.
  - intros E. apply (f_equal (@length _)) in E.
    rewrite spliceInsert_length in E. simpl in E.
    pose proof (splitLines_nonempty fileContent) as Hne.
    destruct (splitLines fileContent); [contradiction|]. simpl in E. lia.
  - intros l Hl. apply spliceInsert_in in Hl as [Hl|Hl].
    + now apply (splitLines_no_LF fileContent).
    + now apply Hitems.
  - intros l Hl. apply spliceInsert_in in Hl as [Hl|Hl].
    + now apply Hcr.
    + now apply Hitems.
Qed.

(** X14. The note branch of [addTagToTaskInVault] is idempotent on the documents
    whose lines end in no carriage return, for the tags that are not empty
    and hold no line terminator: the second application finds the item the
    first one wrote. *)
Lemma addTagNote_idempotent : forall tag fileContent,
  tag <> [] ->
  forallb isDot tag = true ->
  (forall l, In l (splitLines fileContent) -> forall l', l <> l' ++ [CR]) ->
  exists once,
    addTagNote tag fileContent = Ok once /\ addTagNote tag once = Ok once.
Proof.
  intros tag fileContent Hne Hdot Hcr.
  destruct (tagItem_is tag Hne Hdot) as [Hitem His].
  assert (Hgood : forall x, In x [u "  - " ++ tag] ->
                            ~ In LF x /\ forall l', x <> l' ++ [CR]).
  { intros x [<-|[]]. split; [now apply tagItem_no_LF|].
    intros l'. now apply tagItem_no_CR. }
  assert (Hgood2 : forall x, In x [u "tags:"; u "  - " ++ tag] ->
                             ~ In LF x /\ forall l', x <> l' ++ [CR]).
  { intros x [<-|Hx]; [|now apply Hgood]. split.
    - intros H. simpl in H. repeat destruct H as [H|H]; try discriminate H.
      exact H.
    - intros l' E. change (u "tags:") with (u "tags" ++ [58%N]) in E.
      apply app_inj_tail in E as [_ E]. discriminate E. }
  unfold addTagNote at 1. cbv zeta.
  set (L := splitLines fileContent) in *.
  destruct (frontmatterEnd L) as [fmEnd|] eqn:E.
  2:{ exists fileContent. split; [reflexivity|].
      unfold addTagNote. fold L. now rewrite E. }
  pose proof (frontmatterEnd_bound _ _ E) as Hbound.
  destruct (firstIndex (fmEnd - 1) 1 (fun i => strictEq L i (u "tags:")))
    as [i|] eqn:T.
  - pose proof (firstIndex_some _ _ _ _ T) as [Hi Htags].
    pose proof (firstIndex_first _ _ _ _ T) as Hfirst.
    destruct (findTagSlot_ok tag (fmEnd - (i + 1)) (i + 1) L) as (slot & Hslot);
      [lia|].
    rewrite Hslot. cbn [bind]. destruct slot as [j|].
    + eexists. split; [reflexivity|].
      pose proof (findTagSlot_some _ _ _ _ _ Hslot) as [Hj Hbefore].
      unfold addTagNote. cbv zeta. unfold L.
      rewrite written_lines_read_back by assumption. fold L.
      rewrite (frontmatterEnd_insert L fmEnd j [u "  - " ++ tag] E).
      2:{ lia. }
      2:{ intros x [<-|[]]. discriminate. }
      cbn [length].
      replace (firstIndex (fmEnd + 1 - 1) 1
                 (fun k => strictEq (spliceInsert L j [u "  - " ++ tag]) k
                             (u "tags:")))
        with (Some i).
      2:{ symmetry. apply firstIndex_found.
          - lia.
          - rewrite (strictEq_same _ L _ i); [exact Htags|].
            apply spliceInsert_before; lia.
          - intros k Hk. rewrite (strictEq_same _ L _ k).
            + now apply Hfirst.
            + apply spliceInsert_before; lia. }
      rewrite (findTagSlot_none tag _ _ _ j (u "  - " ++ tag)).
      * reflexivity.
      * lia.
      * intros k Hk. destruct (Hbefore k Hk) as (l & Hl & Hl1 & Hl2).
        exists l. split; [|now split].
        rewrite spliceInsert_before by lia. exact Hl.
      * replace j with (j + 0) at 2 by lia.
        rewrite spliceInsert_at by (simpl; lia). reflexivity.
      * exact Hitem.
      * exact His.
    + exists fileContent. split; [reflexivity|].
      unfold addTagNote. cbv zeta. fold L. rewrite E, T, Hslot. reflexivity.
  - eexists. split; [reflexivity|].
    pose proof (firstIndex_none_elim _ _ _ T) as Hnone.
    unfold addTagNote. cbv zeta. unfold L.
    rewrite written_lines_read_back by assumption. fold L.
    rewrite (frontmatterEnd_insert L fmEnd fmEnd
               [u "tags:"; u "  - " ++ tag] E).
    2:{ lia. }
    2:{ intros x [<-|[<-|[]]]; discriminate. }
    cbn [length].
    replace (firstIndex (fmEnd + 2 - 1) 1
               (fun k => strictEq
                           (spliceInsert L fmEnd [u "tags:"; u "  - " ++ tag])
                           k (u "tags:")))
      with (Some fmEnd).
    2:{ symmetry. apply firstIndex_found.
        - lia.
        - unfold strictEq. replace fmEnd with (fmEnd + 0) at 2 by lia.
          rewrite spliceInsert_at by (simpl; lia). apply eqb_refl.
        - intros k Hk. rewrite (strictEq_same _ L _ k).
          + apply Hnone. lia.
          + apply spliceInsert_before; lia. }
    rewrite (findTagSlot_none tag _ _ _ (fmEnd + 1) (u "  - " ++ tag)).
    + reflexivity.
    + lia.
    + intros k Hk. lia.
    + rewrite spliceInsert_at by (simpl; lia). reflexivity.
    + exact Hitem.
    + exact His.
Qed.

(* ================================================================== *)
(** * Further properties of the canvas reconciler *)
(* ================================================================== *)

Lemma restoreNodes_of_saved : forall settings (nodes : list TaskNode),
  Canvas.restoreNodes settings
    (map (fun n =>
            {| saved_id := node_id n;
               saved_position := node_position n;
               saved_taskId := node_id n;
               saved_taskData := Some (data_task (node_data n)) |})
         nodes)
  = map (fun n =>
           Canvas.newTaskNode settings (node_id n) (node_position n)
             (data_task (node_data n)))
        nodes.
Proof.
  intros settings nodes. unfold Canvas.restoreNodes.
  induction nodes as [|n nodes IH]; [reflexivity|].
  simpl. now rewrite IH.
Qed.

(** X1. Saving a canvas that shows at least one node and loading the snapshot
    again gives the same nodes in the same order, each with its id, its
    position and its task, and the same edges with their ids and end points;
    the viewport is the one that was saved.  What is not kept is the
    visibility of a node or an edge, which is unset again, the display
    options of a node, which are those of the settings, and the hash of an
    edge, which is its id. *)
Theorem X1_save_then_load_restores_the_canvas :
  forall settings viewport (st : Canvas.State),
    Canvas.st_nodes st <> [] ->
    let st' :=
      Canvas.loadSavedData settings
        (Canvas.saveGraphDataImmediate viewport st) in
    Forall2
      (fun old new =>
         node_id new = node_id old /\
         node_position new = node_position old /\
         data_task (node_data new) = data_task (node_data old) /\
         node_hidden new = None /\
         new = Canvas.newTaskNode settings (node_id old) (node_position old)
                 (data_task (node_data old)))
      (Canvas.st_nodes st) (Canvas.st_nodes st') /\
    Forall2
      (fun old new =>
         edge_id new = edge_id old /\
         edge_source new = edge_source old /\
         edge_target new = edge_target old /\
         edge_hidden new = None /\
         edata_hash (edge_data new) = edge_id old)
      (Canvas.st_edges st) (Canvas.st_edges st') /\
    Canvas.st_viewport st' = viewport /\
    Canvas.st_tasks st' = Canvas.st_tasks st.
Proof.
  intros settings viewport st Hne st'. subst st'.
  unfold Canvas.saveGraphDataImmediate, Canvas.loadSavedData.
  destruct (Canvas.st_nodes st) as [|n nodes] eqn:E; [contradiction|].
  cbn [Canvas.st_graphData gd_nodes gd_edges gd_viewport map].
  cbn [Canvas.setViewport Canvas.setEdges Canvas.setNodes Canvas.st_nodes
       Canvas.st_edges Canvas.st_viewport Canvas.st_tasks
       Canvas.st_graphData].
  split; [|split; [|split; reflexivity]].
  - change ({| saved_id := node_id n; saved_position := node_position n;
               saved_taskId := node_id n;
               saved_taskData := Some (data_task (node_data n)) |}
            :: map (fun n0 =>
                      {| saved_id := node_id n0;
                         saved_position := node_position n0;
                         saved_taskId := node_id n0;
                         saved_taskData := Some (data_task (node_data n0)) |})
                 nodes)
      with (map (fun n0 =>
                   {| saved_id := node_id n0;
                      saved_position := node_position n0;
                      saved_taskId := node_id n0;
                      saved_taskData := Some (data_task (node_data n0)) |})
              (n :: nodes)).
    rewrite restoreNodes_of_saved.
    generalize (n :: nodes). intros l.
    induction l as [|x l IH]; simpl; constructor; [|exact IH].
    repeat split.
  - unfold Canvas.restoreEdges. rewrite map_map.
    induction (Canvas.st_edges st) as [|e l IH]; simpl; constructor;
      [|exact IH].
    repeat split.
Qed.

Lemma X1_save_then_load_restores_the_canvas_witness :
  let st :=
    Canvas.mkState [] [sampleNode (u "A") 10 20] [] (mkViewport 0 0 1)
      DEFAULT_GRAPH_DATA in
  let st' :=
    Canvas.loadSavedData DEFAULT_SETTINGS
      (Canvas.saveGraphDataImmediate (mkViewport 5 6 2) st) in
  Forall2
    (fun old new =>
       node_id new = node_id old /\
       node_position new = node_position old /\
       data_task (node_data new) = data_task (node_data old) /\
       node_hidden new = None /\
       new = Canvas.newTaskNode DEFAULT_SETTINGS (node_id old)
               (node_position old) (data_task (node_data old)))
    (Canvas.st_nodes st) (Canvas.st_nodes st') /\
  Forall2
    (fun old new =>
       edge_id new = edge_id old /\
       edge_source new = edge_source old /\
       edge_target new = edge_target old /\
       edge_hidden new = None /\
       edata_hash (edge_data new) = edge_id old)
    (Canvas.st_edges st) (Canvas.st_edges st') /\
  Canvas.st_viewport st' = mkViewport 5 6 2 /\
  Canvas.st_tasks st' = Canvas.st_tasks st.
Proof.
  apply (X1_save_then_load_restores_the_canvas DEFAULT_SETTINGS
           (mkViewport 5 6 2)
           (Canvas.mkState [] [sampleNode (u "A") 10 20] []
              (mkViewport 0 0 1) DEFAULT_GRAPH_DATA)).
  simpl. discriminate.
Defined.

Lemma filter_all_out : forall (A : Type) (p : A -> bool) l,
  (forall x, In x l -> p x = false) -> filter p l = [].
Proof.
  intros A p l. induction l as [|x l IH]; intros H; [reflexivity|].
  simpl. rewrite (H x (or_introl eq_refl)). apply IH.
  intros y Hy. apply H. now right.
Qed.

(** X2. A save is skipped while the canvas shows no node.  So when a canvas
    that shows at least one node, all with one id, has been saved, deleting
    that id empties the canvas, and the save the view schedules after the
    deletion leaves the snapshot as it was saved: it still lists the ids of
    the deleted nodes, and loading it gives every deleted node back with its
    id, its position and its task. *)
Theorem X2_deleting_the_last_node_is_not_saved :
  forall settings viewport later nodeId (st : Canvas.State),
    Canvas.st_nodes st <> [] ->
    (forall n, In n (Canvas.st_nodes st) -> node_id n = nodeId) ->
    let saved := Canvas.saveGraphDataImmediate viewport st in
    let st' :=
      Canvas.saveGraphDataImmediate later (Canvas.deleteNode nodeId saved) in
    Canvas.st_nodes st' = [] /\
    Canvas.st_graphData st' = Canvas.st_graphData saved /\
    map saved_id (gd_nodes (Canvas.st_graphData st'))
    = map node_id (Canvas.st_nodes st) /\
    Canvas.st_nodes (Canvas.loadSavedData settings st')
    = map (fun n =>
             Canvas.newTaskNode settings (node_id n) (node_position n)
               (data_task (node_data n)))
          (Canvas.st_nodes st) /\
    Canvas.st_nodes (Canvas.loadSavedData settings st') <> [].
Proof.
  intros settings viewport later nodeId st Hne Hall saved st'.
  assert (Hsaved : Canvas.st_nodes saved = Canvas.st_nodes st /\
                   gd_nodes (Canvas.st_graphData saved)
                   = map (fun n =>
                            {| saved_id := node_id n;
                               saved_position := node_position n;
                               saved_taskId := node_id n;
                               saved_taskData :=
                                 Some (data_task (node_data n)) |})
                         (Canvas.st_nodes st)).
  { subst saved. unfold Canvas.saveGraphDataImmediate.
    destruct (Canvas.st_nodes st) as [|n nodes] eqn:E; [contradiction|].
    split; reflexivity. }
  destruct Hsaved as [Hshape Hlist].
  assert (E : Canvas.st_nodes (Canvas.deleteNode nodeId saved) = []).
  { unfold Canvas.deleteNode.
    cbn [Canvas.setEdges Canvas.setNodes Canvas.st_nodes].
    rewrite Hshape.
    apply filter_all_out. intros n Hn. rewrite (Hall n Hn), eqb_refl.
    reflexivity. }
  assert (Hst' : st' = Canvas.deleteNode nodeId saved).
  { subst st'. unfold Canvas.saveGraphDataImmediate. now rewrite E. }
  assert (Hdata : Canvas.st_graphData st' = Canvas.st_graphData saved).
  { rewrite Hst'. reflexivity. }
  assert (Hload : Canvas.st_nodes (Canvas.loadSavedData settings st')
                  = map (fun n =>
                           Canvas.newTaskNode settings (node_id n)
                             (node_position n) (data_task (node_data n)))
                        (Canvas.st_nodes st)).
  { unfold Canvas.loadSavedData. cbv zeta. rewrite Hdata, Hlist.
    destruct (Canvas.st_nodes st) as [|n nodes] eqn:En; [contradiction|].
    cbn [map].
    cbn [Canvas.setViewport Canvas.setEdges Canvas.setNodes Canvas.st_nodes].
    change ({| saved_id := node_id n; saved_position := node_position n;
               saved_taskId := node_id n;
               saved_taskData := Some (data_task (node_data n)) |}
            :: map (fun n0 =>
                      {| saved_id := node_id n0;
                         saved_position := node_position n0;
                         saved_taskId := node_id n0;
                         saved_taskData := Some (data_task (node_data n0)) |})
                 nodes)
      with (map (fun n0 =>
                   {| saved_id := node_id n0;
                      saved_position := node_position n0;
                      saved_taskId := node_id n0;
                      saved_taskData := Some (data_task (node_data n0)) |})
              (n :: nodes)).
    now rewrite restoreNodes_of_saved. }
  split; [rewrite Hst'; exact E|]. split; [exact Hdata|].
  split; [rewrite Hdata, Hlist, map_map; reflexivity|].
  split; [exact Hload|].
  rewrite Hload. destruct (Canvas.st_nodes st); [contradiction|discriminate].
Qed.

Lemma X2_deleting_the_last_node_is_not_saved_witness :
  let st :=
    Canvas.mkState [] [sampleNode (u "N1") 40 70] [] (mkViewport 0 0 1)
      DEFAULT_GRAPH_DATA in
  let saved := Canvas.saveGraphDataImmediate (mkViewport 5 6 2) st in
  let st' :=
    Canvas.saveGraphDataImmediate (mkViewport 7 8 1)
      (Canvas.deleteNode (u "N1") saved) in
  Canvas.st_nodes st' = [] /\
  Canvas.st_graphData st' = Canvas.st_graphData saved /\
  map saved_id (gd_nodes (Canvas.st_graphData st'))
  = map node_id (Canvas.st_nodes st) /\
  Canvas.st_nodes (Canvas.loadSavedData DEFAULT_SETTINGS st')
  = map (fun n =>
           Canvas.newTaskNode DEFAULT_SETTINGS (node_id n) (node_position n)
             (data_task (node_data n)))
        (Canvas.st_nodes st) /\
  Canvas.st_nodes (Canvas.loadSavedData DEFAULT_SETTINGS st') <> [].
Proof.
  apply (X2_deleting_the_last_node_is_not_saved DEFAULT_SETTINGS
           (mkViewport 5 6 2) (mkViewport 7 8 1) (u "N1")
           (Canvas.mkState [] [sampleNode (u "N1") 40 70] []
              (mkViewport 0 0 1) DEFAULT_GRAPH_DATA)).
  - simpl. discriminate.
  - intros n H. simpl in H. destruct H as [<-|[]]. reflexivity.
Defined.

(** X3. Deleting a node leaves no node with that id and no edge that starts
    or ends at it, and keeps every other node and every edge between other
    nodes.  So a canvas on which every edge joins two nodes is still such a
    canvas after the deletion, and node ids that were unique stay unique.
    The snapshot is not written by the deletion itself. *)
Theorem X3_delete_node_removes_the_node_and_its_edges :
  forall nodeId (st : Canvas.State),
    let st' := Canvas.deleteNode nodeId st in
    ~ In nodeId (map node_id (Canvas.st_nodes st')) /\
    (forall e, In e (Canvas.st_edges st') ->
               edge_source e <> nodeId /\ edge_target e <> nodeId) /\
    (forall n, In n (Canvas.st_nodes st) -> node_id n <> nodeId ->
               In n (Canvas.st_nodes st')) /\
    (forall e, In e (Canvas.st_edges st) ->
               edge_source e <> nodeId -> edge_target e <> nodeId ->
               In e (Canvas.st_edges st')) /\
    (edgesClosed st -> edgesClosed st') /\
    (uniqueNodeIds st -> uniqueNodeIds st') /\
    Canvas.st_graphData st' = Canvas.st_graphData st.
Proof.
  intros nodeId st st'. subst st'.
  assert (Hkept : forall n, In n (Canvas.st_nodes st) -> node_id n <> nodeId ->
                            In n (Canvas.st_nodes (Canvas.deleteNode nodeId st))).
  { intros n Hn Hid. unfold Canvas.deleteNode.
    cbn [Canvas.setEdges Canvas.setNodes Canvas.st_nodes].
    apply filter_In. split; [exact Hn|].
    apply negb_true_iff. now apply eqb_neq. }
  assert (Hends : forall e,
            In e (Canvas.st_edges (Canvas.deleteNode nodeId st)) ->
            In e (Canvas.st_edges st) /\
            edge_source e <> nodeId /\ edge_target e <> nodeId).
  { intros e H. unfold Canvas.deleteNode in H.
    cbn [Canvas.setEdges Canvas.st_edges] in H.
    apply filter_In in H as [He H]. apply andb_true_iff in H as [Hs Ht].
    apply negb_true_iff in Hs, Ht. apply eqb_neq in Hs, Ht. now repeat split. }
  split; [|split; [|split; [|split; [|split; [|split]]]]].
  - unfold Canvas.deleteNode.
    cbn [Canvas.setEdges Canvas.setNodes Canvas.st_nodes].
    intros H. apply in_map_iff in H as (n & Hid & Hn).
    apply filter_In in Hn as [_ Hn]. rewrite Hid, eqb_refl in Hn.
    discriminate Hn.
  - intros e He. now apply Hends in He.
  - exact Hkept.
  - intros e He Hs Ht. unfold Canvas.deleteNode.
    cbn [Canvas.setEdges Canvas.st_edges].
    apply filter_In. split; [exact He|].
    apply andb_true_iff. split; apply negb_true_iff; now apply eqb_neq.
  - intros Hclosed e He. apply Hends in He as (He & Hs & Ht).
    destruct (Hclosed e He) as [Hsrc Htgt].
    apply in_map_iff in Hsrc as (n1 & Hn1 & Hin1).
    apply in_map_iff in Htgt as (n2 & Hn2 & Hin2).
    split; apply in_map_iff.
    + exists n1. split; [exact Hn1|]. apply Hkept; congruence.
    + exists n2. split; [exact Hn2|]. apply Hkept; congruence.
  - unfold uniqueNodeIds, Canvas.deleteNode.
    cbn [Canvas.setEdges Canvas.setNodes Canvas.st_nodes].
    apply NoDup_map_filter.
  - reflexivity.
Qed.

(** X4. The tag and status filters change nothing but the visibility of the
    nodes and edges: the canvas keeps every node and every edge in its
    place, with its id, position, task and end points, and the tasks, the
    viewport and the snapshot are untouched.  When there are tasks and
    nodes, no tag is selected and four or more statuses are, every node and
    every edge is made visible. *)
Theorem X4_filters_only_toggle_visibility :
  forall NO_TAGS_VALUE selectedTags selectedStatuses (st : Canvas.State),
    let st' :=
      Canvas.applyFilters NO_TAGS_VALUE selectedTags selectedStatuses st in
    Forall2
      (fun old new =>
         Canvas.nodeWithHidden new false = Canvas.nodeWithHidden old false)
      (Canvas.st_nodes st) (Canvas.st_nodes st') /\
    Forall2
      (fun old new =>
         Canvas.edgeWithHidden new false = Canvas.edgeWithHidden old false)
      (Canvas.st_edges st) (Canvas.st_edges st') /\
    Canvas.st_tasks st' = Canvas.st_tasks st /\
    Canvas.st_viewport st' = Canvas.st_viewport st /\
    Canvas.st_graphData st' = Canvas.st_graphData st /\
    (Canvas.st_tasks st <> [] -> Canvas.st_nodes st <> [] ->
     selectedTags = [] -> 4 <= length selectedStatuses ->
     (forall n, In n (Canvas.st_nodes st') -> node_hidden n = Some false) /\
     (forall e, In e (Canvas.st_edges st') -> edge_hidden e = Some false)).
Proof.
  intros noTags selectedTags selectedStatuses st st'. subst st'.
  assert (Hn : forall (g : TaskNode -> TaskNode) (l : list TaskNode),
            (forall n, Canvas.nodeWithHidden (g n) false
                       = Canvas.nodeWithHidden n false) ->
            Forall2 (fun old new =>
                       Canvas.nodeWithHidden new false
                       = Canvas.nodeWithHidden old false)
              l (map g l)).
  { intros g l Hg. induction l; simpl; constructor; auto. }
  assert (He : forall (g : TaskEdge -> TaskEdge) (l : list TaskEdge),
            (forall e, Canvas.edgeWithHidden (g e) false
                       = Canvas.edgeWithHidden e false) ->
            Forall2 (fun old new =>
                       Canvas.edgeWithHidden new false
                       = Canvas.edgeWithHidden old false)
              l (map g l)).
  { intros g l Hg. induction l; simpl; constructor; auto. }
  unfold Canvas.applyFilters.
  destruct ((length (Canvas.st_tasks st) =? 0) ||
            (length (Canvas.st_nodes st) =? 0)) eqn:Eempty.
  { split; [|split; [|split; [|split; [|split]]]]; try reflexivity.
    - rewrite <- (map_id (Canvas.st_nodes st)) at 2. now apply Hn.
    - rewrite <- (map_id (Canvas.st_edges st)) at 2. now apply He.
    - intros Ht Hnodes _ _. exfalso.
      apply orb_true_iff in Eempty as [E|E]; apply Nat.eqb_eq in E;
        apply length_zero_iff_nil in E; contradiction. }
  destruct (negb (0 <? length selectedTags) &&
            negb (length selectedStatuses <? 4)) eqn:Enone;
    cbn [Canvas.setEdges Canvas.setNodes Canvas.st_nodes Canvas.st_edges
         Canvas.st_tasks Canvas.st_viewport Canvas.st_graphData];
    (split; [|split; [|split; [|split; [|split]]]]); try reflexivity.
  - now apply Hn.
  - now apply He.
  - intros _ _ _ _. split.
    + intros n H. apply in_map_iff in H as (x & <- & _). reflexivity.
    + intros e H. apply in_map_iff in H as (x & <- & _). reflexivity.
  - apply Hn. intros n.
    destruct (negb (Canvas.hasString (map task_id (Canvas.st_tasks st))
                      (node_id n))); reflexivity.
  - now apply He.
  - intros _ _ -> Hfour. exfalso.
    apply Nat.ltb_ge in Hfour. simpl in Enone. rewrite Hfour in Enone.
    discriminate Enone.
Qed.

(* ================================================================== *)
(** * Further properties of the graph builder *)
(* ================================================================== *)

Lemma mapiFrom_nth_error : forall (A B : Type) (f : A -> nat -> B) l i k,
  nth_error (mapiFrom f i l) k
  = option_map (fun x => f x (i + k)) (nth_error l k).
Proof.
  intros A B f l. induction l as [|x l IH]; intros i k.
  - now destruct k.
  - destruct k as [|k]; simpl.
    + now rewrite Nat.add_0_r.
    + rewrite IH. now replace (S i + k) with (i + S k) by lia.
Qed.

Lemma mapiFrom_map : forall (A B C : Type) (f : A -> nat -> B) (g : B -> C)
    (h : A -> C) l i,
  (forall x k, g (f x k) = h x) ->
  map g (mapiFrom f i l) = map h l.
Proof.
  intros A B C f g h l. induction l as [|x l IH]; intros i H;
    [reflexivity|].
  simpl. now rewrite H, IH.
Qed.

Lemma createNodes_ids :
  forall tasks direction showPriorities showTags debug mode seed colour,
    map node_id
      (Graph.createNodesFromTasks tasks direction showPriorities showTags
         debug mode seed colour)
    = map task_id tasks.
Proof.
  intros. unfold Graph.createNodesFromTasks, mapi.
  now apply mapiFrom_map.
Qed.

Lemma getLayoutedElements_ids : forall dagre_layout nodes edges direction,
  map node_id (Graph.getLayoutedElements dagre_layout nodes edges direction)
  = map node_id nodes.
Proof.
  intros. unfold Graph.getLayoutedElements. rewrite map_map.
  apply map_ext. intros n.
  match goal with |- context [match ?x with _ => _ end] => destruct x end;
    reflexivity.
Qed.

(** X5. The nodes built from a list of tasks are one per task, in the order
    of the tasks: the node of the task at index [i] has the id of the task,
    holds the task, and is placed at (0, 80 i).  Every edge built from the
    same tasks ends at one of these nodes, and the layout, whatever the
    layout library answers, keeps the ids of the nodes and their order. *)
Theorem X5_nodes_and_edges_from_tasks :
  forall dagre_layout tasks direction showPriorities showTags debug mode seed
         colour,
    let nodes :=
      Graph.createNodesFromTasks tasks direction showPriorities showTags
        debug mode seed colour in
    let edges := Graph.createEdgesFromTasks tasks direction debug in
    length nodes = length tasks /\
    (forall i task,
       nth_error tasks i = Some task ->
       exists node,
         nth_error nodes i = Some node /\
         node_id node = task_id task /\
         data_task (node_data node) = task /\
         node_position node = mkXY 0 (80 * Z.of_nat i) /\
         node_hidden node = None) /\
    (forall e, In e edges -> In (edge_target e) (map node_id nodes)) /\
    map node_id (Graph.getLayoutedElements dagre_layout nodes edges direction)
    = map task_id tasks.
Proof.
  intros dagre_layout tasks direction showPriorities showTags debug mode seed
    colour nodes edges.
  split; [|split; [|split]].
  - rewrite <- (length_map node_id nodes), <- (length_map task_id tasks).
    f_equal. apply createNodes_ids.
  - intros i task Hi. subst nodes.
    unfold Graph.createNodesFromTasks, mapi.
    rewrite mapiFrom_nth_error, Hi. cbn [option_map].
    eexists. split; [reflexivity|].
    cbn [node_id node_data data_task node_position node_hidden Nat.add].
    repeat split. f_equal. lia.
  - intros e He. subst nodes edges. rewrite createNodes_ids.
    rewrite createEdges_flat_map in He.
    apply in_flat_map in He as (t & Ht & He).
    apply in_map_iff in He as (parent & <- & _).
    apply in_map_iff. now exists t.
  - subst nodes. rewrite getLayoutedElements_ids. apply createNodes_ids.
Qed.

(* ================================================================== *)
(** * Colours of the tags *)
(* ================================================================== *)




(* ================================================================== *)
(** * Further properties of the document mutator *)
(* ================================================================== *)

(** ** Writing one line *)

Lemma tail_kept : forall (x y : jsstring) b,
  y <> [] -> (forall l', y <> l' ++ [CR]) ->
  readBack (x ++ y) b -> b = x ++ y.
Proof.
  intros x y b Hne Hcr [H|H]; [exact H|]. exfalso.
  destruct (exists_last Hne) as (y' & z & ->).
  rewrite app_assoc in H. apply app_inj_tail in H as [_ ->].
  now apply (Hcr y').
Qed.

Lemma not_CR_ended_tail : forall (x y : jsstring),
  y <> [] -> (forall l', y <> l' ++ [CR]) -> forall l', x ++ y <> l' ++ [CR].
Proof.
  intros x y Hne Hcr l' H.
  destruct (exists_last Hne) as (y' & z & ->).
  rewrite app_assoc in H. apply app_inj_tail in H as [_ ->].
  now apply (Hcr y').
Qed.

Lemma isDot_not_CR_ended : forall hash l',
  forallb isDot hash = true -> hash <> l' ++ [CR].
Proof.
  intros hash l' H ->. rewrite forallb_app in H.
  apply andb_true_iff in H as [_ H]. discriminate H.
Qed.

Lemma isDot_no_LF : forall hash, forallb isDot hash = true -> ~ In LF hash.
Proof.
  intros hash H Hin. rewrite forallb_forall in H. apply H in Hin.
  discriminate Hin.
Qed.

(** The lines of a document of which one is rewritten, as they are read
    back from the document written. *)
Lemma rewritten_lines_read_back : forall fileContent idx line newline,
  nth_error (splitLines fileContent) idx = Some line ->
  ~ In LF newline ->
  Forall2 readBack (assign (splitLines fileContent) idx newline)
    (splitLines (joinLines (assign (splitLines fileContent) idx newline))).
Proof.
  intros fileContent idx line newline Hline Hlf. apply resplit.
  - intros E. apply (f_equal (@length _)) in E.
    rewrite assign_length in E. simpl in E.
    assert (idx < length (splitLines fileContent))
      by (apply nth_error_Some; congruence).
    lia.
  - intros l Hl. apply assign_in in Hl as [->|Hl]; [exact Hlf|].
    now apply (splitLines_no_LF fileContent).
Qed.

(** ** White space at the ends of a string *)

Lemma trimStart_in : forall s x, In x (trimStart s) -> In x s.
Proof.
  induction s as [|c s IH]; intros x H; [exact H|].
  simpl in H. destruct (isSpace c); [right; now apply IH|exact H].
Qed.

Lemma trimStart_head : forall s c t,
  trimStart s = c :: t -> isSpace c = false.
Proof.
  induction s as [|d s IH]; intros c t H; [discriminate|].
  simpl in H. destruct (isSpace d) eqn:E; [now apply (IH c t)|].
  now injection H as <- _.
Qed.

Lemma trimStart_split : forall s,
  exists w, s = w ++ trimStart s /\ forallb isSpace w = true.
Proof.
  induction s as [|c s (w & Hs & Hw)]; [now exists []|].
  simpl. destruct (isSpace c) eqn:E.
  - exists (c :: w). split; [simpl; now f_equal|]. simpl. now rewrite E.
  - now exists [].
Qed.

Lemma trimStart_all : forall s, forallb isSpace s = true -> trimStart s = [].
Proof.
  induction s as [|c s IH]; intros H; [reflexivity|].
  simpl in *. apply andb_true_iff in H as [-> H]. now apply IH.
Qed.

Lemma trimStart_app : forall a x,
  trimStart a <> [] -> trimStart (a ++ x) = trimStart a ++ x.
Proof.
  induction a as [|c a IH]; intros x H; [contradiction|].
  simpl in *. destruct (isSpace c); [now apply IH|reflexivity].
Qed.

Lemma trimStart_skip : forall w s,
  forallb isSpace w = true -> trimStart (w ++ s) = trimStart s.
Proof.
  induction w as [|c w IH]; intros s H; [reflexivity|].
  simpl in *. apply andb_true_iff in H as [-> H]. now apply IH.
Qed.

Lemma trimEnd_in : forall s x, In x (trimEnd s) -> In x s.
Proof.
  intros s x H. unfold trimEnd in H. apply in_rev in H.
  apply trimStart_in in H. now apply in_rev.
Qed.

Lemma trim_in : forall s x, In x (trim s) -> In x s.
Proof.
  intros s x H. unfold trim in H. apply trimEnd_in in H.
  now apply trimStart_in.
Qed.

Lemma trimEnd_last : forall s l' c,
  trimEnd s = l' ++ [c] -> isSpace c = false.
Proof.
  intros s l' c H. unfold trimEnd in H.
  apply (f_equal (@rev N)) in H. rewrite rev_involutive, rev_app_distr in H.
  simpl in H. now apply trimStart_head in H.
Qed.

(** A string is what [trimEnd] keeps of it, then white space. *)
Lemma trimEnd_split : forall s,
  exists w, s = trimEnd s ++ w /\ forallb isSpace w = true.
Proof.
  intros s. destruct (trimStart_split (rev s)) as (w & Hs & Hw).
  exists (rev w). split.
  - unfold trimEnd. rewrite <- rev_app_distr, <- Hs. now rewrite rev_involutive.
  - rewrite forallb_forall in *. intros x Hx. apply Hw. now apply in_rev.
Qed.

Lemma trimEnd_skip : forall s w,
  forallb isSpace w = true -> trimEnd (s ++ w) = trimEnd s.
Proof.
  intros s w H. unfold trimEnd. rewrite rev_app_distr.
  rewrite trimStart_skip; [reflexivity|].
  rewrite forallb_forall in *. intros x Hx. apply H. now apply in_rev.
Qed.

Lemma trimEnd_all : forall s, forallb isSpace s = true -> trimEnd s = [].
Proof.
  intros s H. unfold trimEnd. rewrite trimStart_all; [reflexivity|].
  rewrite forallb_forall in *. intros x Hx. apply H. now apply in_rev.
Qed.

(** What [trim] gives does not end in a carriage return. *)
Lemma trim_kept : forall s b, readBack (trim s) b -> b = trim s.
Proof.
  intros s b [H|H]; [exact H|]. unfold trim in H.
  apply trimEnd_last in H. discriminate H.
Qed.

Lemma trim_not_CR_ended : forall s l', trim s <> l' ++ [CR].
Proof.
  intros s l' H. unfold trim in H. apply trimEnd_last in H. discriminate H.
Qed.

Lemma includes_single : forall s c, includes s [c] = true <-> In c s.
Proof.
  induction s as [|d s IH]; intros c; simpl.
  - split; [discriminate|contradiction].
  - rewrite orb_true_iff, IH, andb_true_r, N.eqb_eq. intuition congruence.
Qed.

Lemma includes_single_false : forall s c, includes s [c] = false <-> ~ In c s.
Proof.
  intros s c. rewrite <- includes_single.
  destruct (includes s [c]); intuition congruence.
Qed.

(** ** Removing the star of an inline task *)

Lemma starRegex_at_star : forall s,
  exists n, starRegex (11088%N :: s) = Some (S n).
Proof.
  intros s. unfold starRegex, seq, classStar, lit.
  cbn [countWhile]. change (isSpace 11088%N) with false. cbv iota.
  cbn [skipn]. change (startsWith (11088%N :: s) STAR) with true.
  cbv iota. now eexists.
Qed.

Lemma replaceAll_star_in : forall s skip x,
  In x (replaceAllFrom starRegex (u " ") skip s) ->
  x = 32%N \/ (In x s /\ x <> 11088%N).
Proof.
  induction s as [|c s IH]; intros skip x H; [contradiction|].
  simpl in H. destruct skip as [|k].
  - destruct (starRegex (c :: s)) as [[|n]|] eqn:E.
    + destruct H as [<-|H].
      * right. split; [now left|]. intros ->.
        destruct (starRegex_at_star s) as (n & Hn). congruence.
      * apply IH in H as [H|[H1 H2]]; [now left|right; split; [now right|exact H2]].
    + destruct H as [<-|H]; [now left|].
      apply IH in H as [H|[H1 H2]]; [now left|right; split; [now right|exact H2]].
    + destruct H as [<-|H].
      * right. split; [now left|]. intros ->.
        destruct (starRegex_at_star s) as (n & Hn). congruence.
      * apply IH in H as [H|[H1 H2]]; [now left|right; split; [now right|exact H2]].
  - apply IH in H as [H|[H1 H2]]; [now left|right; split; [now right|exact H2]].
Qed.

Lemma unstarred_no_star : forall line,
  includes (trim (replaceAll starRegex (u " ") line)) STAR = false.
Proof.
  intros line. apply includes_single_false. intros H.
  apply trim_in in H. apply replaceAll_star_in in H as [H|[_ H]].
  - discriminate H.
  - now apply H.
Qed.

Lemma unstarred_no_LF : forall line,
  ~ In LF line -> ~ In LF (trim (replaceAll starRegex (u " ") line)).
Proof.
  intros line Hlf H. apply trim_in in H.
  apply replaceAll_star_in in H as [H|[H _]]; [discriminate H|].
  now apply Hlf.
Qed.

Lemma trimStart_idem : forall s, trimStart (trimStart s) = trimStart s.
Proof.
  intros s. destruct (trimStart s) as [|c t] eqn:E; [reflexivity|].
  simpl. now rewrite (trimStart_head s c t E).
Qed.

Lemma trim_idem : forall s, trim (trim s) = trim s.
Proof.
  intros s. unfold trim.
  assert (H : trimStart (trimEnd (trimStart s)) = trimEnd (trimStart s)).
  { destruct (trimEnd_split (trimStart s)) as (w & Hs & _).
    destruct (trimEnd (trimStart s)) as [|c t] eqn:E; [reflexivity|].
    simpl. destruct (trimStart s) as [|d y] eqn:Ey; [discriminate|].
    injection Hs as -> _. now rewrite (trimStart_head s c y Ey). }
  rewrite H. unfold trimEnd at 1 2. rewrite rev_involutive.
  now rewrite trimStart_idem.
Qed.

(** X7. Removing the star of an inline task returns a document.  When the
    line of the task is found, that line is read back from the document
    without any star glyph and without white space at its ends, however many
    stars it held, and the document has as many lines as before. *)
Theorem X7_remove_star_leaves_no_star :
  forall (task : Task) (fileContent : jsstring),
    exists out,
      removeStarInline task fileContent = Ok out /\
      forall taskLineIdx,
        findTaskLineByIdOrText (splitLines fileContent) (task_id task)
          (task_text task) = Some taskLineIdx ->
        exists newLine,
          nth_error (splitLines out) taskLineIdx = Some newLine /\
          includes newLine STAR = false /\
          trim newLine = newLine /\
          length (splitLines out) = length (splitLines fileContent).
Proof.
  intros task fileContent. unfold removeStarInline.
  set (L := splitLines fileContent).
  destruct (findTaskLineByIdOrText L (task_id task) (task_text task))
    as [idx|] eqn:F.
  2:{ exists fileContent. split; [reflexivity|]. intros i H. discriminate H. }
  destruct (get_ok L idx) as (line & Hget & Hline).
  { eapply findTaskLineByIdOrText_bound. exact F. }
  rewrite Hget. cbn [bind]. eexists. split; [reflexivity|].
  intros i H. injection H as <-.
  set (newline := trim (replaceAll starRegex (u " ") line)).
  assert (Hread : Forall2 readBack (assign L idx newline)
                    (splitLines (joinLines (assign L idx newline)))).
  { apply (rewritten_lines_read_back fileContent idx line); [exact Hline|].
    apply unstarred_no_LF. apply (splitLines_no_LF fileContent).
    eapply nth_error_In. exact Hline. }
  exists newline. split; [|split; [|split]].
  - apply (relocate_same L _ idx line newline Hline Hread). apply trim_kept.
  - apply unstarred_no_star.
  - apply trim_idem.
  - rewrite <- (Forall2_length Hread). apply assign_length.
Qed.

(** ** Adding a star and removing it again *)

Lemma replaceAllFrom_skip_all : forall m rep s k,
  length s <= k -> replaceAllFrom m rep k s = [].
Proof.
  intros m rep. induction s as [|c s IH]; intros k H; [reflexivity|].
  simpl in *. destruct k as [|k]; [lia|]. apply IH. lia.
Qed.

Lemma replaceAllFrom_prefix : forall m rep a t,
  (forall i, i < length a -> m (skipn i (a ++ t)) = None) ->
  replaceAllFrom m rep 0 (a ++ t) = a ++ replaceAllFrom m rep 0 t.
Proof.
  intros m rep. induction a as [|c a IH]; intros t H; [reflexivity|].
  simpl. pose proof (H 0) as H0. simpl in H0. rewrite H0 by lia.
  f_equal. apply IH. intros i Hi. apply (H (S i)). simpl. lia.
Qed.

Lemma starRegex_none : forall r d rest,
  forallb isSpace r = true -> isSpace d = false -> d <> 11088%N ->
  starRegex (r ++ d :: rest) = None.
Proof.
  intros r d rest Hr Hd Hstar. unfold starRegex, seq, classStar, lit.
  rewrite countWhile_app by assumption. rewrite skipn_app_length.
  cbn [startsWith STAR]. apply N.eqb_neq in Hstar. now rewrite Hstar.
Qed.

Lemma trimStart_nonempty : forall s z,
  In z s -> isSpace z = false -> trimStart s <> [].
Proof.
  intros s z Hin Hz E. destruct (trimStart_split s) as (w & Hs & Hw).
  rewrite E, app_nil_r in Hs. subst w. rewrite forallb_forall in Hw.
  rewrite (Hw z Hin) in Hz. discriminate Hz.
Qed.

Lemma ws_then_star : forall w,
  forallb isSpace w = true ->
  replaceAllFrom starRegex (u " ") 0 (w ++ u " " ++ STAR) = u " ".
Proof.
  intros w Hw.
  assert (Hw' : forallb isSpace (w ++ [32%N]) = true).
  { rewrite forallb_app, Hw. reflexivity. }
  change (w ++ u " " ++ STAR) with (w ++ [32%N] ++ [11088%N]).
  rewrite app_assoc.
  destruct (w ++ [32%N]) as [|c w''] eqn:E.
  { destruct w; discriminate E. }
  assert (Hre : starRegex ((c :: w'') ++ [11088%N])
                = Some (S (length w'' + 1))).
  { unfold starRegex, seq, classStar, lit.
    rewrite countWhile_app by (assumption || reflexivity).
    rewrite skipn_app_length. reflexivity. }
  cbn [replaceAllFrom app]. cbn [app] in Hre. rewrite Hre.
  rewrite replaceAllFrom_skip_all; [reflexivity|].
  rewrite length_app. simpl. lia.
Qed.

Lemma replaceAll_star_appended : forall line,
  ~ In 11088%N line ->
  replaceAll starRegex (u " ") (line ++ u " " ++ STAR)
  = trimEnd line ++ u " ".
Proof.
  intros line Hstar. unfold replaceAll.
  destruct (trimEnd_split line) as (w & Hs & Hw).
  rewrite Hs at 1. rewrite <- app_assoc.
  destruct (trimEnd line) as [|c0 a0] eqn:Ea.
  { simpl. now apply ws_then_star. }
  assert (Hne : trimEnd line <> []) by (rewrite Ea; discriminate).
  rewrite <- Ea in Hs. rewrite <- Ea. clear c0 a0 Ea.
  destruct (exists_last Hne) as (a' & z & Ea).
  pose proof (trimEnd_last line a' z Ea) as Hz.
  rewrite replaceAllFrom_prefix; [now rewrite ws_then_star|].
  intros i Hi. rewrite skipn_app.
  replace (i - length (trimEnd line)) with 0 by lia. cbn [skipn].
  assert (Hin : In z (skipn i (trimEnd line))).
  { rewrite Ea, skipn_app. apply in_or_app. right.
    rewrite Ea, length_app in Hi. simpl in Hi.
    replace (i - length a') with 0 by lia. now left. }
  destruct (trimStart_split (skipn i (trimEnd line))) as (r & Hr & Hrw).
  pose proof (trimStart_nonempty _ z Hin Hz) as Hnonempty.
  destruct (trimStart (skipn i (trimEnd line))) as [|d rest] eqn:Et;
    [contradiction|].
  rewrite Hr, <- app_assoc. cbn [app].
  apply starRegex_none; [exact Hrw| |].
  - now apply (trimStart_head _ d rest Et).
  - intros ->. apply Hstar. rewrite Hs. apply in_or_app. left.
    assert (In 11088%N (skipn i (trimEnd line))).
    { rewrite Hr. apply in_or_app. right. now left. }
    rewrite <- (firstn_skipn i (trimEnd line)). apply in_or_app. now right.
Qed.

Lemma trim_of_trimEnd_space : forall line,
  trim (trimEnd line ++ u " ") = trim line.
Proof.
  intros line. destruct (trimEnd_split line) as (w & Hs & Hw).
  rewrite Hs at 2. unfold trim.
  destruct (trimEnd line) as [|c0 a0] eqn:Ea.
  { simpl. rewrite (trimStart_all w Hw). reflexivity. }
  assert (Hne : trimEnd line <> []) by (rewrite Ea; discriminate).
  rewrite <- Ea in Hs. rewrite <- Ea. clear c0 a0 Ea.
  destruct (exists_last Hne) as (a' & z & Ea).
  pose proof (trimEnd_last line a' z Ea) as Hz.
  assert (Hnonempty : trimStart (trimEnd line) <> []).
  { apply (trimStart_nonempty _ z); [|exact Hz].
    rewrite Ea. apply in_or_app. right. now left. }
  rewrite !trimStart_app by exact Hnonempty.
  rewrite !trimEnd_skip by (assumption || reflexivity).
  reflexivity.
Qed.

(** X8. Adding a star to an inline task whose line holds none, and removing
    it again, does not give the line back as it was but trimmed: the line of
    the task is then the old line without the white space at its two ends,
    so the indentation of the line is gone. *)
Theorem X8_star_then_unstar_trims_the_line :
  forall (task : Task) (fileContent : jsstring) (taskLineIdx : nat)
         (line : jsstring),
    findTaskLineByIdOrText (splitLines fileContent) (task_id task)
      (task_text task) = Some taskLineIdx ->
    nth_error (splitLines fileContent) taskLineIdx = Some line ->
    includes line STAR = false ->
    exists starred unstarred,
      addStarInline task fileContent = Ok starred /\
      removeStarInline task starred = Ok unstarred /\
      nth_error (splitLines starred) taskLineIdx
      = Some (line ++ u " " ++ STAR) /\
      unstarred
      = joinLines (assign (splitLines starred) taskLineIdx (trim line)) /\
      nth_error (splitLines unstarred) taskLineIdx = Some (trim line).
Proof.
  intros task fileContent idx line F Hline Hstar.
  set (L := splitLines fileContent) in *.
  assert (Hlf : ~ In LF line).
  { apply (splitLines_no_LF fileContent). eapply nth_error_In. exact Hline. }
  set (newline := line ++ u " " ++ STAR).
  assert (Hread : Forall2 readBack (assign L idx newline)
                    (splitLines (joinLines (assign L idx newline)))).
  { apply (rewritten_lines_read_back fileContent idx line); [exact Hline|].
    now apply starred_line_no_LF. }
  assert (Hgrows : forall pat, includes line pat = true ->
                               includes newline pat = true).
  { intros pat Hp. now apply includes_app_l. }
  pose proof (relocate_same L _ idx line newline Hline Hread
                (starred_line_kept line)) as Hsame.
  pose proof (relocate_task_line L _ idx line newline Hline Hread
                (starred_line_kept line) Hgrows _ _ F) as Hfound.
  exists (joinLines (assign L idx newline)).
  eexists. split; [|split; [|split; [|split]]].
  - unfold addStarInline. fold L. rewrite F. unfold get. rewrite Hline.
    cbn [bind]. now rewrite Hstar.
  - unfold removeStarInline. rewrite Hfound. unfold get. rewrite Hsame.
    cbn [bind]. reflexivity.
  - exact Hsame.
  - unfold newline. rewrite replaceAll_star_appended.
    + now rewrite trim_of_trimEnd_space.
    + now apply includes_single_false.
  - unfold newline. rewrite replaceAll_star_appended
      by now apply includes_single_false.
    rewrite trim_of_trimEnd_space.
    set (L2 := splitLines (joinLines (assign L idx (line ++ u " " ++ STAR)))).
    assert (Hread2 : Forall2 readBack (assign L2 idx (trim line))
                       (splitLines (joinLines (assign L2 idx (trim line))))).
    { apply (rewritten_lines_read_back _ idx newline); [exact Hsame|].
      intros H. apply trim_in in H. contradiction. }
    apply (relocate_same L2 _ idx newline (trim line) Hsame Hread2).
    apply trim_kept.
Qed.

Lemma X8_star_then_unstar_trims_the_line_witness :
  exists starred unstarred,
    addStarInline reportTask indentedDocument = Ok starred /\
    removeStarInline reportTask starred = Ok unstarred /\
    nth_error (splitLines starred) 1
    = Some (u "  - [ ] write report" ++ u " " ++ STAR) /\
    unstarred
    = joinLines (assign (splitLines starred) 1
                   (trim (u "  - [ ] write report"))) /\
    nth_error (splitLines unstarred) 1
    = Some (trim (u "  - [ ] write report")).
Proof.
  apply (X8_star_then_unstar_trims_the_line reportTask indentedDocument 1
           (u "  - [ ] write report")); reflexivity.
Defined.

(** ** What a mutation of one line leaves alone *)

Lemma touchesOnlyTaskLine_same : forall task fileContent fn,
  fn fileContent = Ok fileContent -> touchesOnlyTaskLine task fileContent fn.
Proof.
  intros task fileContent fn H. exists fileContent. now repeat split.
Qed.

Lemma touchesOnlyTaskLine_rewrite :
  forall task fileContent fn idx line newline,
    (forall l, In l (splitLines fileContent) -> forall l', l <> l' ++ [CR]) ->
    findTaskLineByIdOrText (splitLines fileContent) (task_id task)
      (task_text task) = Some idx ->
    nth_error (splitLines fileContent) idx = Some line ->
    ~ In LF newline ->
    (forall l', newline <> l' ++ [CR]) ->
    fn fileContent
    = Ok (joinLines (assign (splitLines fileContent) idx newline)) ->
    touchesOnlyTaskLine task fileContent fn.
Proof.
  intros task fileContent fn idx line newline Hcr F Hline Hlf Hnl Hfn.
  eexists. split; [exact Hfn|].
  assert (E : splitLines (joinLines (assign (splitLines fileContent) idx
                                       newline))
              = assign (splitLines fileContent) idx newline).
  { apply resplit_exact.
    - intros E. apply (f_equal (@length _)) in E.
      rewrite assign_length in E. simpl in E.
      assert (idx < length (splitLines fileContent))
        by (apply nth_error_Some; congruence).
      lia.
    - intros l Hl. apply assign_in in Hl as [->|Hl]; [exact Hlf|].
      now apply (splitLines_no_LF fileContent).
    - intros l Hl. apply assign_in in Hl as [->|Hl]; [exact Hnl|].
      now apply Hcr. }
  rewrite E. split; [apply assign_length|].
  intros j Hj. apply assign_other. intros ->. now apply Hj.
Qed.

Lemma firstn_in : forall (s : jsstring) n x, In x (firstn n s) -> In x s.
Proof.
  intros s n x H. rewrite <- (firstn_skipn n s). apply in_or_app. now left.
Qed.

Lemma skipn_in : forall (s : jsstring) n x, In x (skipn n s) -> In x s.
Proof.
  intros s n x H. rewrite <- (firstn_skipn n s). apply in_or_app. now right.
Qed.

Lemma statusSymbols_last : forall s,
  statusSymbols s <> [] /\ (forall l', statusSymbols s <> l' ++ [CR]) /\
  ~ In LF (statusSymbols s).
Proof.
  intros s. split; [destruct s; discriminate|]. split.
  - intros l' E.
    assert (H : exists c, statusSymbols s = [91%N; c] ++ [93%N])
      by (destruct s; eexists; reflexivity).
    destruct H as (c & H). rewrite H in E.
    apply app_inj_tail in E as [_ E]. discriminate E.
  - intros H. destruct s; simpl in H;
      repeat destruct H as [H|H]; try discriminate H; exact H.
Qed.

Lemma status_line_good : forall s line,
  ~ In LF line -> (forall l', line <> l' ++ [CR]) ->
  ~ In LF (replaceRegex statusRegex statusGroups (statusSymbols s) line) /\
  forall l',
    replaceRegex statusRegex statusGroups (statusSymbols s) line
    <> l' ++ [CR].
Proof.
  intros s line Hlf Hcr. unfold replaceRegex.
  destruct (search statusRegex line) as [[i n]|]; [|now split].
  rewrite statusSymbols_plain.
  destruct (statusSymbols_last s) as (Hne & Hscr & Hslf).
  split.
  - intros H. apply in_app_or in H as [H|H].
    + apply Hlf. now apply (firstn_in line i).
    + apply in_app_or in H as [H|H]; [contradiction|].
      apply Hlf. now apply (skipn_in line (i + n)).
  - intros l'. destruct (skipn (i + n) line) as [|c after] eqn:E.
    + rewrite app_nil_r. now apply not_CR_ended_tail.
    + rewrite app_assoc. apply not_CR_ended_tail; [discriminate|].
      intros l'' E'. apply (Hcr (firstn (i + n) line ++ l'')).
      rewrite <- (firstn_skipn (i + n) line) at 1.
      rewrite E, E'. now rewrite app_assoc.
Qed.

(** X9. On a document none of whose lines ends in a carriage return, setting
    the status of an inline task, adding its star and removing its star each
    return a document with the same number of lines in which every line but
    the one of the task is the line it was. *)
Theorem X9_status_and_star_touch_one_line :
  forall (task : Task) (newStatus : TaskStatus) (fileContent : jsstring),
    (forall l, In l (splitLines fileContent) -> forall l', l <> l' ++ [CR]) ->
    touchesOnlyTaskLine task fileContent
      (updateTaskStatusInline task newStatus) /\
    touchesOnlyTaskLine task fileContent (addStarInline task) /\
    touchesOnlyTaskLine task fileContent (removeStarInline task).
Proof.
  intros task newStatus fileContent Hcr.
  set (L := splitLines fileContent) in *.
  destruct (findTaskLineByIdOrText L (task_id task) (task_text task))
    as [idx|] eqn:F.
  2:{ repeat split; apply touchesOnlyTaskLine_same;
        unfold updateTaskStatusInline, addStarInline, removeStarInline;
        fold L; now rewrite F. }
  destruct (get_ok L idx) as (line & Hget & Hline).
  { eapply findTaskLineByIdOrText_bound. exact F. }
  assert (Hlf : ~ In LF line).
  { apply (splitLines_no_LF fileContent). eapply nth_error_In. exact Hline. }
  assert (Hlcr : forall l', line <> l' ++ [CR]).
  { apply Hcr. eapply nth_error_In. exact Hline. }
  split; [|split].
  - destruct (status_line_good newStatus line Hlf Hlcr) as [H1 H2].
    apply (touchesOnlyTaskLine_rewrite task fileContent _ idx line
             (replaceRegex statusRegex statusGroups (statusSymbols newStatus)
                line)); try assumption.
    unfold updateTaskStatusInline. fold L. rewrite F, Hget. reflexivity.
  - destruct (includes line STAR) eqn:Hstar.
    + apply touchesOnlyTaskLine_same. unfold addStarInline. fold L.
      rewrite F, Hget. cbn [bind]. now rewrite Hstar.
    + apply (touchesOnlyTaskLine_rewrite task fileContent _ idx line
               (line ++ u " " ++ STAR)); try assumption.
      * now apply starred_line_no_LF.
      * intros l' E.
        change (line ++ u " " ++ STAR) with (line ++ [32%N] ++ [11088%N]) in E.
        rewrite app_assoc in E. apply app_inj_tail in E as [_ E].
        discriminate E.
      * unfold addStarInline. fold L. rewrite F, Hget. cbn [bind].
        now rewrite Hstar.
  - apply (touchesOnlyTaskLine_rewrite task fileContent _ idx line
             (trim (replaceAll starRegex (u " ") line))); try assumption.
    + now apply unstarred_no_LF.
    + apply trim_not_CR_ended.
    + unfold removeStarInline. fold L. rewrite F, Hget. reflexivity.
Qed.

Lemma X9_status_and_star_touch_one_line_witness :
  touchesOnlyTaskLine reportTask planDocument
    (updateTaskStatusInline reportTask done) /\
  touchesOnlyTaskLine reportTask planDocument (addStarInline reportTask) /\
  touchesOnlyTaskLine reportTask planDocument (removeStarInline reportTask).
Proof.
  apply (X9_status_and_star_touch_one_line reportTask done planDocument).
  intros l Hl l' E. simpl in Hl.
  destruct Hl as [<-|[<-|[<-|[]]]];
    apply (f_equal (@rev N)) in E; rewrite rev_app_distr in E;
    discriminate E.
Defined.

(** ** Adding a dependency under the csv style, continued *)

(** X10. Under the csv style, when the line of the task uses no dataview
    field and holds no list of the csv shape, the new dependency is appended
    to the line as a marker of its own.  The branch that is meant to gather
    separate markers into one list is never taken: a line without a csv list
    has no separate marker either. *)
Theorem X10_csv_style_appends_a_marker :
  forall (task : Task) (hash fileContent : jsstring) (taskLineIdx : nat)
         (line : jsstring),
    findIndex (fun l => includes l (task_text task)) (splitLines fileContent)
    = Some taskLineIdx ->
    nth_error (splitLines fileContent) taskLineIdx = Some line ->
    test dataviewIdRegex line = false ->
    test dataviewRegex line = false ->
    matchOf csvRegex line = None ->
    matchAll individualRegex line = [] /\
    addSignCallback task SignStop hash csv fileContent
    = Ok (joinLines
            (assign (splitLines fileContent) taskLineIdx
               (line ++ u " " ++ STOP_SIGN ++ u " " ++ hash))).
Proof.
  intros task hash fileContent idx line F Hline Hid Hdv Hcsv.
  pose proof (conversion_branch_is_dead line Hcsv) as Hdead.
  split; [exact Hdead|].
  unfold addSignCallback. rewrite F. unfold get. rewrite Hline. cbn [bind].
  rewrite Hid, Hdv. cbn [orb]. cbv iota. rewrite Hcsv, Hdead. reflexivity.
Qed.

Lemma X10_csv_style_appends_a_marker_witness :
  matchAll individualRegex (u "- [ ] write report") = [] /\
  addSignCallback reportTask SignStop (u "k3x9ab") csv planDocument
  = Ok (joinLines
          (assign (splitLines planDocument) 1
             (u "- [ ] write report" ++ u " " ++ STOP_SIGN ++ u " " ++
              u "k3x9ab"))).
Proof.
  apply (X10_csv_style_appends_a_marker reportTask (u "k3x9ab") planDocument 1
           (u "- [ ] write report")); reflexivity.
Defined.

(** ** Giving a task its id twice *)

Lemma idSign_good : forall linkingStyle hash,
  forallb isDot hash = true ->
  idSign linkingStyle hash <> [] /\
  (forall l', idSign linkingStyle hash <> l' ++ [CR]) /\
  ~ In LF (idSign linkingStyle hash).
Proof.
  intros linkingStyle hash Hdot.
  assert (Hemoji : ID_SIGN ++ u " " ++ hash <> [] /\
                   (forall l', ID_SIGN ++ u " " ++ hash <> l' ++ [CR]) /\
                   ~ In LF (ID_SIGN ++ u " " ++ hash)).
  { split; [discriminate|]. split.
    - intros l' E. destruct hash as [|c hash].
      + change (ID_SIGN ++ u " " ++ []) with (ID_SIGN ++ [32%N]) in E.
        apply app_inj_tail in E as [_ E]. discriminate E.
      + rewrite app_assoc in E. revert E.
        apply not_CR_ended_tail; [discriminate|].
        intros l''. now apply isDot_not_CR_ended.
    - intros H. apply in_app_or in H as [H|H].
      + simpl in H. repeat destruct H as [H|H]; try discriminate H; exact H.
      + apply in_app_or in H as [H|H].
        * simpl in H. repeat destruct H as [H|H]; try discriminate H; exact H.
        * now apply (isDot_no_LF hash). }
  destruct linkingStyle; try exact Hemoji.
  unfold idSign. split; [discriminate|]. split.
  - intros l' E. change (u "]]") with ([93%N] ++ [93%N]) in E.
    rewrite !app_assoc in E. apply app_inj_tail in E as [_ E].
    discriminate E.
  - intros H. apply in_app_or in H as [H|H].
    + simpl in H. repeat destruct H as [H|H]; try discriminate H; exact H.
    + apply in_app_or in H as [H|H].
      * now apply (isDot_no_LF hash).
      * simpl in H. repeat destruct H as [H|H]; try discriminate H; exact H.
Qed.

(** X11. Giving a task its id is idempotent for every hash that holds no line
    terminator, under each of the three linking styles: the callback returns
    a document, and run on that document it returns it unchanged.  The
    second run finds the line by the text of the task and finds on it an id
    or the sign the first run wrote. *)
Theorem X11_add_id_sign_is_idempotent :
  forall (task : Task) (hash : jsstring) (linkingStyle : LinkingStyle)
         (fileContent : jsstring),
    forallb isDot hash = true ->
    exists once,
      addSignCallback task SignId hash linkingStyle fileContent = Ok once /\
      addSignCallback task SignId hash linkingStyle once = Ok once.
Proof.
  intros task hash linkingStyle fileContent Hdot.
  destruct (idSign_good linkingStyle hash Hdot) as (Hne & Hcr & Hlf).
  assert (Hunfold : forall doc,
    addSignCallback task SignId hash linkingStyle doc
    = match findIndex (fun line => includes line (task_text task))
              (splitLines doc) with
      | None => Ok doc
      | Some taskLineIdx =>
          line <- get (splitLines doc) taskLineIdx ;;
          if test emojiIdRegex line || test dataviewIdRegex line then Ok doc
          else if includes line (idSign linkingStyle hash) then Ok doc
          else Ok (joinLines
                     (assign (splitLines doc) taskLineIdx
                        (line ++ u " " ++ idSign linkingStyle hash)))
      end).
  { intros doc. unfold addSignCallback.
    destruct linkingStyle; reflexivity. }
  rewrite Hunfold.
  set (L := splitLines fileContent).
  destruct (findIndex (fun line => includes line (task_text task)) L)
    as [idx|] eqn:F.
  2:{ exists fileContent. split; [reflexivity|].
      rewrite Hunfold. fold L. now rewrite F. }
  destruct (get_ok L idx) as (line & Hget & Hline).
  { eapply findIndex_bound. exact F. }
  rewrite Hget. cbn [bind].
  destruct (test emojiIdRegex line || test dataviewIdRegex line) eqn:Eid.
  { exists fileContent. split; [reflexivity|].
    rewrite Hunfold. fold L. rewrite F, Hget. cbn [bind]. now rewrite Eid. }
  destruct (includes line (idSign linkingStyle hash)) eqn:Esign.
  { exists fileContent. split; [reflexivity|].
    rewrite Hunfold. fold L. rewrite F, Hget. cbn [bind].
    now rewrite Eid, Esign. }
  eexists. split; [reflexivity|].
  set (sign := idSign linkingStyle hash) in *.
  set (newline := line ++ u " " ++ sign).
  assert (Hkept : forall b, readBack newline b -> b = newline).
  { intros b Hb. unfold newline in *. rewrite app_assoc in *.
    now apply tail_kept. }
  assert (Hread : Forall2 readBack (assign L idx newline)
                    (splitLines (joinLines (assign L idx newline)))).
  { apply (rewritten_lines_read_back fileContent idx line); [exact Hline|].
    intros H. unfold newline in H.
    apply in_app_or in H as [H|H].
    - apply (splitLines_no_LF fileContent line); [|exact H].
      eapply nth_error_In. exact Hline.
    - apply in_app_or in H as [H|H]; [|contradiction].
      simpl in H. destruct H as [H|[]]. discriminate H. }
  assert (Hgrows : forall pat, includes line pat = true ->
                               includes newline pat = true).
  { intros pat Hp. now apply includes_app_l. }
  rewrite Hunfold.
  rewrite (relocate_found L _ idx line newline Hline Hread Hkept Hgrows _ F).
  unfold get.
  rewrite (relocate_same L _ idx line newline Hline Hread Hkept).
  cbn [bind].
  destruct (test emojiIdRegex newline || test dataviewIdRegex newline);
    [reflexivity|].
  assert (Hnow : includes newline sign = true).
  { unfold newline. rewrite app_assoc. apply includes_app_r.
    apply includes_self. }
  now rewrite Hnow.
Qed.

Lemma X11_add_id_sign_is_idempotent_witness :
  exists once,
    addSignCallback reportTask SignId (u "k3x9ab") individual planDocument
    = Ok once /\
    addSignCallback reportTask SignId (u "k3x9ab") individual once = Ok once.
Proof.
  apply (X11_add_id_sign_is_idempotent reportTask (u "k3x9ab") individual
           planDocument).
  reflexivity.
Defined.

(** ** The id that links two tasks *)

Lemma charAt_ID_CHARS : forall d,
  d < 36 ->
  exists c, charAt ID_CHARS d = [c] /\ isAlnum c = true /\ isDot c = true.
Proof.
  intros d H.
  do 36 (destruct d as [|d]; [eexists; repeat split; reflexivity|]).
  lia.
Qed.

Lemma charAt_ID_CHARS_lower : forall d c,
  d < 36 -> charAt ID_CHARS d = [c] -> isLowerOrDigit c = true.
Proof.
  intros d c H.
  do 36 (destruct d as [|d];
         [intros E; injection E as <-; reflexivity|]).
  lia.
Qed.

Lemma isAlnum_not_space : forall c, isAlnum c = true -> isSpace c = false.
Proof.
  intros c H. destruct (isSpace c) eqn:E; [|reflexivity]. exfalso.
  unfold isAlnum, isSpace in *.
  rewrite ?orb_true_iff, ?andb_true_iff, ?N.leb_le, ?N.eqb_eq in *. lia.
Qed.

Lemma test_app_r : forall m a t, test m t = true -> test m (a ++ t) = true.
Proof.
  intros m a t H. unfold test in *. induction a as [|c a IH]; [exact H|].
  simpl. destruct (m (c :: a ++ t)); [reflexivity|].
  destruct (search m (a ++ t)) as [[i n]|]; [reflexivity|discriminate IH].
Qed.

Lemma search_head : forall m s n, m s = Some n -> search m s = Some (0, n).
Proof. intros m s n H. destruct s; simpl; now rewrite H. Qed.

(** X12. When every draw of the random source is below 36, as the draws of
    [Math.floor(Math.random() * 36)] are, the generated id has six code
    units, each a lower-case letter or a digit: the unit at position [i] is
    the character of the alphabet at the [i]-th draw.  Written behind the id sign
    it is found by the expression with which the mutator looks for an id,
    and it is the id used for linking a task whose own id holds a slash and
    whose text holds no id sign followed by a word. *)
Theorem X12_generated_id_is_six_alphanumerics :
  forall (draw : nat -> nat),
    (forall i, i < 6 -> draw i < 36) ->
    length (generateShortId draw) = 6 /\
    forallb isLowerOrDigit (generateShortId draw) = true /\
    generateShortId draw
    = flat_map (fun i => charAt ID_CHARS (draw i)) [0; 1; 2; 3; 4; 5] /\
    forallb isAlnum (generateShortId draw) = true /\
    forallb isDot (generateShortId draw) = true /\
    (forall line,
       test emojiIdRegex
         (line ++ u " " ++ ID_SIGN ++ u " " ++ generateShortId draw) = true) /\
    (forall task,
       includes (task_id task) (u "/") = true ->
       matchOf idTokenRegex (task_text task) = None ->
       getProperIdForLinking draw task = generateShortId draw).
Proof.
  intros draw Hdraw.
  destruct (charAt_ID_CHARS (draw 0)) as (c0 & E0 & A0 & D0); [apply Hdraw; lia|].
  destruct (charAt_ID_CHARS (draw 1)) as (c1 & E1 & A1 & D1); [apply Hdraw; lia|].
  destruct (charAt_ID_CHARS (draw 2)) as (c2 & E2 & A2 & D2); [apply Hdraw; lia|].
  destruct (charAt_ID_CHARS (draw 3)) as (c3 & E3 & A3 & D3); [apply Hdraw; lia|].
  destruct (charAt_ID_CHARS (draw 4)) as (c4 & E4 & A4 & D4); [apply Hdraw; lia|].
  destruct (charAt_ID_CHARS (draw 5)) as (c5 & E5 & A5 & D5); [apply Hdraw; lia|].
  assert (E : generateShortId draw = [c0; c1; c2; c3; c4; c5]).
  { unfold generateShortId. cbn [List.seq fold_left].
    now rewrite E0, E1, E2, E3, E4, E5. }
  assert (L0 := charAt_ID_CHARS_lower (draw 0) c0 ltac:(apply Hdraw; lia) E0).
  assert (L1 := charAt_ID_CHARS_lower (draw 1) c1 ltac:(apply Hdraw; lia) E1).
  assert (L2 := charAt_ID_CHARS_lower (draw 2) c2 ltac:(apply Hdraw; lia) E2).
  assert (L3 := charAt_ID_CHARS_lower (draw 3) c3 ltac:(apply Hdraw; lia) E3).
  assert (L4 := charAt_ID_CHARS_lower (draw 4) c4 ltac:(apply Hdraw; lia) E4).
  assert (L5 := charAt_ID_CHARS_lower (draw 5) c5 ltac:(apply Hdraw; lia) E5).
  rewrite E. split; [reflexivity|]. split.
  { cbn [forallb]. now rewrite L0, L1, L2, L3, L4, L5. }
  split.
  { cbn [flat_map]. now rewrite E0, E1, E2, E3, E4, E5. }
  split.
  { cbn [forallb]. now rewrite A0, A1, A2, A3, A4, A5. }
  split.
  { cbn [forallb]. now rewrite D0, D1, D2, D3, D4, D5. }
  split.
  - intros line. rewrite app_assoc. apply test_app_r.
    unfold test.
    assert (H : emojiIdRegex (ID_SIGN ++ u " " ++ [c0; c1; c2; c3; c4; c5])
                = Some (2 + (1 + 6))).
    { unfold emojiIdRegex, seq, lit, classStar, classN.
      change (startsWith (ID_SIGN ++ u " " ++ [c0; c1; c2; c3; c4; c5]) ID_SIGN)
        with true. cbv iota.
      change (skipn (length ID_SIGN)
                (ID_SIGN ++ u " " ++ [c0; c1; c2; c3; c4; c5]))
        with (32%N :: [c0; c1; c2; c3; c4; c5]).
      cbn [countWhile]. change (isSpace 32) with true. cbv iota.
      rewrite (isAlnum_not_space c0 A0). cbn [skipn length Nat.leb firstn].
      cbn [forallb andb]. now rewrite A0, A1, A2, A3, A4, A5. }
    now rewrite (search_head _ _ _ H).
  - intros task Hslash Hnone. unfold getProperIdForLinking.
    rewrite Hslash, Hnone.
    destruct (task_id task); [discriminate Hslash|].
    cbn [isEmpty negb andb orb]. exact E.
Qed.

Lemma X12_generated_id_is_six_alphanumerics_witness :
  length (generateShortId (fun i => 7 * i)) = 6 /\
  forallb isLowerOrDigit (generateShortId (fun i => 7 * i)) = true /\
  generateShortId (fun i => 7 * i)
  = flat_map (fun i => charAt ID_CHARS ((fun i => 7 * i) i))
      [0; 1; 2; 3; 4; 5] /\
  forallb isAlnum (generateShortId (fun i => 7 * i)) = true /\
  forallb isDot (generateShortId (fun i => 7 * i)) = true /\
  (forall line,
     test emojiIdRegex
       (line ++ u " " ++ ID_SIGN ++ u " " ++
        generateShortId (fun i => 7 * i)) = true) /\
  (forall task,
     includes (task_id task) (u "/") = true ->
     matchOf idTokenRegex (task_text task) = None ->
     getProperIdForLinking (fun i => 7 * i) task
     = generateShortId (fun i => 7 * i)).
Proof.
  apply (X12_generated_id_is_six_alphanumerics (fun i => 7 * i)).
  intros i Hi. lia.
Defined.

(* ================================================================== *)
(** * Properties of the sidebar *)
(* ================================================================== *)

Lemma digitsOf_value : forall fuel n,
  n < fuel ->
  fold_left (fun a d => 10 * a + d) (digitsOf fuel n) 0 = n /\
  Forall (fun d => d < 10) (digitsOf fuel n) /\
  digitsOf fuel n <> [].
Proof.
  induction fuel as [|fuel IH]; intros n H; [lia|].
  cbn [digitsOf]. destruct (n <? 10) eqn:E.
  - apply Nat.ltb_lt in E. split; [cbn [fold_left]; lia|]. split; [|discriminate].
    constructor; [exact E|constructor].
  - apply Nat.ltb_ge in E.
    assert (Hdiv : n / 10 < fuel).
    { assert (n / 10 < n) by (apply Nat.div_lt; lia). lia. }
    destruct (IH (n / 10) Hdiv) as (Hv & Hd & Hne).
    split; [|split].
    + rewrite fold_left_app, Hv. cbn [fold_left].
      pose proof (Nat.div_mod_eq n 10). lia.
    + apply Forall_app. split; [exact Hd|].
      constructor; [|constructor]. apply Nat.mod_upper_bound. lia.
    + intros E'. apply app_eq_nil in E' as [_ E']. discriminate E'.
Qed.

Lemma digit_unit : forall d,
  d < 10 ->
  isDigit (N.of_nat (48 + d)) = true /\
  digitValue (N.of_nat (48 + d)) = d /\
  isSpace (N.of_nat (48 + d)) = false /\
  N.of_nat (48 + d) <> 58%N /\
  N.of_nat (48 + d) <> 45%N /\
  N.of_nat (48 + d) <> 43%N.
Proof.
  intros d H.
  do 10 (destruct d as [|d];
         [repeat split; try reflexivity; discriminate|]).
  lia.
Qed.

Lemma digitsValue_digits : forall ds acc,
  Forall (fun d => d < 10) ds ->
  digitsValue acc (map (fun d => N.of_nat (48 + d)) ds)
  = fold_left (fun a d => 10 * a + d) ds acc.
Proof.
  induction ds as [|d ds IH]; intros acc H; [reflexivity|].
  inversion H as [|? ? Hd Hds]; subst.
  destruct (digit_unit d Hd) as (H1 & H2 & _).
  cbn [map digitsValue fold_left]. rewrite H1, H2. now apply IH.
Qed.

(** Reading the number that was printed. *)
Lemma parseInt_natToString : forall n,
  parseInt (natToString n) = Some (Z.of_nat n).
Proof.
  intros n. destruct (digitsOf_value (S n) n) as (Hv & Hd & Hne); [lia|].
  unfold parseInt, natToString.
  pose proof (digitsValue_digits (digitsOf (S n) n) 0 Hd) as Hval.
  rewrite Hv in Hval.
  destruct (digitsOf (S n) n) as [|d ds]; [contradiction|].
  inversion Hd as [|? ? Hd0 _]; subst.
  destruct (digit_unit d Hd0) as (H1 & _ & H3 & _ & H5 & H6).
  cbn [map trimStart] in *. rewrite H3.
  apply N.eqb_neq in H5, H6. rewrite H5, H6. cbn [snd fst].
  rewrite H1, Hval. f_equal. lia.
Qed.

Lemma natToString_no_colon : forall n, ~ In 58%N (natToString n).
Proof.
  intros n H. destruct (digitsOf_value (S n) n) as (_ & Hd & _); [lia|].
  unfold natToString in H. apply in_map_iff in H as (d & Hd58 & Hin).
  rewrite Forall_forall in Hd. apply Hd in Hin.
  destruct (digit_unit d Hin) as (_ & _ & _ & H & _). contradiction.
Qed.

Lemma natToString_nonempty : forall n, natToString n <> [].
Proof.
  intros n H. destruct (digitsOf_value (S n) n) as (_ & _ & Hne); [lia|].
  unfold natToString in H. apply map_eq_nil in H. contradiction.
Qed.

Lemma splitOn_nonempty : forall sep s, splitOn sep s <> [].
Proof.
  intros sep s. destruct s as [|c s]; [discriminate|].
  simpl. destruct (c =? sep)%N; [discriminate|]. apply consHead_nonempty.
Qed.

Lemma splitOn_none : forall sep d, ~ In sep d -> splitOn sep d = [d].
Proof.
  intros sep. induction d as [|c d IH]; intros H; [reflexivity|].
  simpl. destruct (c =? sep)%N eqn:E.
  - apply N.eqb_eq in E. exfalso. apply H. now left.
  - rewrite IH; [reflexivity|]. intros Hin. apply H. now right.
Qed.

Lemma consHead_app : forall c X (Y : list jsstring),
  X <> [] -> consHead c (X ++ Y) = consHead c X ++ Y.
Proof. intros c X Y H. destruct X; [contradiction|reflexivity]. Qed.

Lemma splitOn_snoc : forall sep p d,
  ~ In sep d -> splitOn sep (p ++ sep :: d) = splitOn sep p ++ [d].
Proof.
  intros sep p d Hd. induction p as [|c p IH].
  - simpl. rewrite N.eqb_refl. now rewrite splitOn_none.
  - simpl. destruct (c =? sep)%N.
    + now rewrite IH.
    + rewrite IH. apply consHead_app. apply splitOn_nonempty.
Qed.

Lemma join_consHead : forall sep c X,
  X <> [] -> join sep (consHead c X) = c :: join sep X.
Proof.
  intros sep c X H. destruct X as [|h t]; [contradiction|].
  destruct t; reflexivity.
Qed.

Lemma join_splitOn : forall sep p, join [sep] (splitOn sep p) = p.
Proof.
  intros sep. induction p as [|c p IH]; [reflexivity|].
  simpl. destruct (c =? sep)%N eqn:E.
  - apply N.eqb_eq in E. subst c.
    pose proof (splitOn_nonempty sep p) as Hne.
    destruct (splitOn sep p) as [|h t] eqn:Es; [contradiction|].
    change (join [sep] ([] :: h :: t))
      with ([] ++ [sep] ++ join [sep] (h :: t)).
    now rewrite IH.
  - rewrite join_consHead by apply splitOn_nonempty. now rewrite IH.
Qed.

(** X13. The id that a scan gives a task, the path of the file, a colon and
    the index of the line, is taken apart again by the handler that opens
    the file: for a path that is not empty and names a file, it opens that
    path at that line, also when the path itself holds colons. *)
Theorem X13_open_file_reads_the_scanned_id :
  forall (isFile : jsstring -> bool) (task : Task) (path : jsstring)
         (index : nat),
    task_id task = Sidebar.stableTaskId path index ->
    path <> [] ->
    isFile path = true ->
    Sidebar.handleOpenFile isFile task = Some (path, Some (Z.of_nat index)).
Proof.
  intros isFile task path index Hid Hpath Hfile.
  unfold Sidebar.handleOpenFile, Sidebar.stableTaskId in *. rewrite Hid.
  change (path ++ u ":" ++ natToString index)
    with (path ++ 58%N :: natToString index).
  assert (Hinc : includes (path ++ 58%N :: natToString index) (u ":") = true).
  { apply includes_single. apply in_or_app. right. now left. }
  rewrite Hinc.
  rewrite splitOn_snoc by apply natToString_no_colon.
  rewrite last_last. unfold withoutLast. rewrite removelast_last.
  change (u ":") with [58%N]. rewrite join_splitOn.
  pose proof (natToString_nonempty index) as Hne.
  destruct (natToString index) as [|c ds] eqn:E; [contradiction|].
  cbn [isEmpty]. rewrite <- E, parseInt_natToString. cbn [fst].
  destruct path as [|p0 path']; [contradiction|].
  cbn [isEmpty]. now rewrite Hfile.
Qed.

Lemma X13_open_file_reads_the_scanned_id_witness :
  Sidebar.handleOpenFile (fun _ => true)
    (sampleTask (Sidebar.stableTaskId (u "Notes/9:30 standup.md") 12)
       (u "write report"))
  = Some (u "Notes/9:30 standup.md", Some (Z.of_nat 12)).
Proof.
  apply (X13_open_file_reads_the_scanned_id (fun _ => true)
           (sampleTask (Sidebar.stableTaskId (u "Notes/9:30 standup.md") 12)
              (u "write report"))
           (u "Notes/9:30 standup.md") 12);
    [reflexivity|discriminate|reflexivity].
Defined.

(* ================================================================== *)
(** * Properties of the document mutator on notes *)
(* ================================================================== *)

(** ** Notes: adding a tag and removing it again *)

Lemma noteDocument_lines : forall l,
  In l (splitLines noteDocument) -> forall l', l <> l' ++ [CR].
Proof.
  intros l Hl l' E. simpl in Hl.
  repeat (destruct Hl as [<-|Hl];
          [apply (f_equal (@rev N)) in E; rewrite rev_app_distr in E;
           discriminate E|]).
  exact Hl.
Qed.

Lemma addTagNote_idempotent_witness :
  exists once,
    addTagNote (u "urgent") noteDocument = Ok once /\
    addTagNote (u "urgent") once = Ok once.
Proof.
  apply (addTagNote_idempotent (u "urgent") noteDocument);
    [discriminate|reflexivity|exact noteDocument_lines].
Defined.

Lemma findTagSlot_refuses : forall tag count j0 lines,
  findTagSlot count j0 lines tag = Ok None ->
  exists item, In item lines /\ listItemIs item tag = true.
Proof.
  intros tag. induction count as [|count IH]; intros j0 lines H; simpl in H;
    [discriminate|].
  unfold get in H. destruct (nth_error lines j0) as [l|] eqn:El;
    [|discriminate]. cbn [bind] in H.
  destruct (isSome (listItemRegex l)); [|discriminate].
  destruct (listItemIs l tag) eqn:Eis.
  - exists l. split; [|exact Eis]. eapply nth_error_In. exact El.
  - now apply (IH (S j0)).
Qed.

Lemma removeTagItem_found : forall tag count j0 lines j item,
  j0 <= j < j0 + count ->
  (forall k, j0 <= k < j ->
     exists l, nth_error lines k = Some l /\
               isSome (listItemRegex l) = true /\ listItemIs l tag = false) ->
  nth_error lines j = Some item ->
  isSome (listItemRegex item) = true ->
  listItemIs item tag = true ->
  removeTagItem count j0 lines tag = Ok (spliceRemove lines j).
Proof.
  intros tag. induction count as [|count IH];
    intros j0 lines j item Hj Hbefore Hitem Hre His; [lia|].
  simpl. unfold get. destruct (Nat.eq_dec j j0) as [->|Hne].
  - rewrite Hitem. cbn [bind]. now rewrite Hre, His.
  - destruct (Hbefore j0) as (l & -> & Hl1 & Hl2); [lia|]. cbn [bind].
    rewrite Hl1, Hl2. apply (IH (S j0) lines j item); try assumption; [lia|].
    intros k Hk. apply Hbefore. lia.
Qed.

Lemma spliceRemove_spliceInsert : forall lines j x,
  j <= length lines -> spliceRemove (spliceInsert lines j [x]) j = lines.
Proof.
  intros lines j x Hj. unfold spliceRemove, spliceInsert.
  assert (Hlen : length (firstn j lines) = j)
    by (rewrite length_firstn; lia).
  rewrite firstn_app, Hlen, Nat.sub_diag, firstn_O, app_nil_r.
  rewrite <- Hlen at 1. rewrite firstn_all.
  rewrite skipn_app, Hlen.
  replace (S j - j) with 1 by lia.
  rewrite skipn_all2 by lia. cbn [app skipn].
  apply firstn_skipn.
Qed.

(** X15. Take a tag that is not empty and holds no line terminator, and a
    note with a closed attribute block that has a [tags:] line, none of whose
    lines is the list item of the tag and none of whose lines ends in a
    carriage return.  Adding the tag writes one more line, the list item of
    the tag, and removing the tag from the document written takes exactly
    that line out again: what is left is the lines of the first document,
    joined by line feeds. *)
Theorem X15_note_tag_added_then_removed :
  forall (tag fileContent : jsstring) (fmEnd tagsIndex : nat),
    tag <> [] ->
    forallb isDot tag = true ->
    (forall l, In l (splitLines fileContent) -> forall l', l <> l' ++ [CR]) ->
    frontmatterEnd (splitLines fileContent) = Some fmEnd ->
    firstIndex (fmEnd - 1) 1
      (fun i => strictEq (splitLines fileContent) i (u "tags:"))
    = Some tagsIndex ->
    (forall l, In l (splitLines fileContent) -> listItemIs l tag = false) ->
    exists once,
      addTagNote tag fileContent = Ok once /\
      length (splitLines once) = S (length (splitLines fileContent)) /\
      In (u "  - " ++ tag) (splitLines once) /\
      removeTagNote tag once = Ok (joinLines (splitLines fileContent)).
Proof.
  intros tag fileContent fmEnd i Hne Hdot Hcr E T Habsent.
  destruct (tagItem_is tag Hne Hdot) as [Hitem His].
  assert (Hgood : forall x, In x [u "  - " ++ tag] ->
                            ~ In LF x /\ forall l', x <> l' ++ [CR]).
  { intros x [<-|[]]. split; [now apply tagItem_no_LF|].
    intros l'. now apply tagItem_no_CR. }
  set (L := splitLines fileContent) in *.
  pose proof (frontmatterEnd_bound _ _ E) as Hbound.
  pose proof (firstIndex_some _ _ _ _ T) as [Hi Htags].
  pose proof (firstIndex_first _ _ _ _ T) as Hfirst.
  destruct (findTagSlot_ok tag (fmEnd - (i + 1)) (i + 1) L) as (slot & Hslot);
    [lia|].
  destruct slot as [j|].
  2:{ apply findTagSlot_refuses in Hslot as (item & Hin & Hitem').
      rewrite (Habsent item Hin) in Hitem'. discriminate Hitem'. }
  pose proof (findTagSlot_some _ _ _ _ _ Hslot) as [Hj Hbefore].
  exists (joinLines (spliceInsert L j [u "  - " ++ tag])).
  assert (Hsplit : splitLines (joinLines (spliceInsert L j [u "  - " ++ tag]))
                   = spliceInsert L j [u "  - " ++ tag]).
  { unfold L. now apply written_lines_read_back. }
  split; [|split; [|split]].
  - unfold addTagNote. cbv zeta. fold L. now rewrite E, T, Hslot.
  - rewrite Hsplit, spliceInsert_length. simpl. lia.
  - rewrite Hsplit. unfold spliceInsert. apply in_or_app. right. now left.
  - unfold removeTagNote. cbv zeta. rewrite Hsplit.
    rewrite (frontmatterEnd_insert L fmEnd j [u "  - " ++ tag] E).
    2:{ lia. }
    2:{ intros x [<-|[]]. discriminate. }
    cbn [length].
    replace (firstIndex (fmEnd + 1 - 1) 1
               (fun k => strictEq (spliceInsert L j [u "  - " ++ tag]) k
                           (u "tags:")))
      with (Some i).
    2:{ symmetry. apply firstIndex_found.
        - lia.
        - rewrite (strictEq_same _ L _ i); [exact Htags|].
          apply spliceInsert_before; lia.
        - intros k Hk. rewrite (strictEq_same _ L _ k).
          + now apply Hfirst.
          + apply spliceInsert_before; lia. }
    rewrite (removeTagItem_found tag _ _ _ j (u "  - " ++ tag)).
    + cbn [bind]. rewrite spliceRemove_spliceInsert by lia. reflexivity.
    + lia.
    + intros k Hk. destruct (Hbefore k Hk) as (l & Hl & Hl1 & Hl2).
      exists l. split; [|now split].
      rewrite spliceInsert_before by lia. exact Hl.
    + replace j with (j + 0) at 2 by lia.
      rewrite spliceInsert_at by (simpl; lia). reflexivity.
    + exact Hitem.
    + exact His.
Qed.

Lemma X15_note_tag_added_then_removed_witness :
  exists once,
    addTagNote (u "urgent") noteDocument = Ok once /\
    length (splitLines once) = S (length (splitLines noteDocument)) /\
    In (u "  - " ++ u "urgent") (splitLines once) /\
    removeTagNote (u "urgent") once
    = Ok (joinLines (splitLines noteDocument)).
Proof.
  apply (X15_note_tag_added_then_removed (u "urgent") noteDocument 4 2);
    [discriminate|reflexivity|exact noteDocument_lines|reflexivity
    |reflexivity|].
  intros l Hl. simpl in Hl.
  repeat (destruct Hl as [<-|Hl]; [reflexivity|]). contradiction.
Defined.

(** ** Notes: the attributes written twice *)

(** A loop that reads the lines it tests is the loop over their indices. *)
Lemma forFirst_as_firstIndex : forall lines (f : jsstring -> bool) count from,
  from + count <= length lines ->
  forFirst count from (fun i => line <- get lines i ;; Ok (f line))
  = Ok (firstIndex count from (lineIs f lines)).
Proof.
  intros lines f. induction count as [|count IH]; intros from H;
    [reflexivity|].
  cbn [forFirst firstIndex]. unfold lineIs at 1.
  destruct (get_ok lines from) as (l & -> & ->); [lia|]. cbn [bind].
  destruct (f l); [reflexivity|]. apply IH. lia.
Qed.

Lemma assign_assign : forall lines i a b,
  assign (assign lines i a) i b = assign lines i b.
Proof.
  induction lines as [|l lines IH]; intros i a b; [reflexivity|].
  destruct i; simpl; [reflexivity|]. now rewrite IH.
Qed.

Lemma assign_id : forall lines i v,
  nth_error lines i = Some v -> assign lines i v = lines.
Proof.
  induction lines as [|l lines IH]; intros i v H; [reflexivity|].
  destruct i; simpl in *.
  - now injection H as ->.
  - now rewrite IH.
Qed.

Lemma frontmatterEnd_assign : forall lines fmEnd i v,
  frontmatterEnd lines = Some fmEnd ->
  1 <= i < fmEnd ->
  v <> u "---" ->
  frontmatterEnd (assign lines i v) = Some fmEnd.
Proof.
  intros lines fmEnd i v H Hi Hv.
  pose proof (frontmatterEnd_bound _ _ H) as Hbound.
  unfold frontmatterEnd in *.
  destruct (strictEq lines 0 (u "---")) eqn:E0; [|discriminate].
  rewrite (strictEq_same (assign lines i v) lines 0 0)
    by (apply assign_other; lia).
  rewrite E0, assign_length.
  pose proof (firstIndex_some _ _ _ _ H) as [_ Hend].
  pose proof (firstIndex_first _ _ _ _ H) as Hfirst.
  apply firstIndex_found.
  - lia.
  - rewrite (strictEq_same _ lines _ fmEnd); [exact Hend|].
    apply assign_other. lia.
  - intros k Hk. destruct (Nat.eq_dec k i) as [->|Hne].
    + apply (strictEq_other _ _ _ v); [|exact Hv].
      apply assign_same. lia.
    + rewrite (strictEq_same _ lines _ k) by now apply assign_other.
      now apply Hfirst.
Qed.

Lemma lineIs_assign_same : forall f lines i v,
  i < length lines -> lineIs f (assign lines i v) i = f v.
Proof. intros f lines i v H. unfold lineIs. now rewrite assign_same. Qed.

Lemma lineIs_assign_other : forall f lines i v k,
  k <> i -> lineIs f (assign lines i v) k = lineIs f lines k.
Proof. intros f lines i v k H. unfold lineIs. now rewrite assign_other. Qed.

Lemma splitLines_joinLines_splitLines : forall fileContent,
  (forall l, In l (splitLines fileContent) -> forall l', l <> l' ++ [CR]) ->
  splitLines (joinLines (splitLines fileContent)) = splitLines fileContent.
Proof.
  intros fileContent Hcr. apply resplit_exact.
  - apply splitLines_nonempty.
  - apply splitLines_no_LF.
  - exact Hcr.
Qed.

Lemma assigned_lines_read_back : forall fileContent i v,
  (forall l, In l (splitLines fileContent) -> forall l', l <> l' ++ [CR]) ->
  ~ In LF v -> (forall l', v <> l' ++ [CR]) ->
  splitLines (joinLines (assign (splitLines fileContent) i v))
  = assign (splitLines fileContent) i v.
Proof.
  intros fileContent i v Hcr Hlf Hv. apply resplit_exact.
  - intros E. apply (f_equal (@length _)) in E.
    rewrite assign_length in E.
    pose proof (splitLines_nonempty fileContent) as Hne.
    destruct (splitLines fileContent); [contradiction|discriminate E].
  - intros l Hl. apply assign_in in Hl as [->|Hl]; [exact Hlf|].
    now apply (splitLines_no_LF fileContent).
  - intros l Hl. apply assign_in in Hl as [->|Hl]; [exact Hv|].
    now apply Hcr.
Qed.

(** A field of the attribute block: its line is plain text that the loop of
    the writer recognises. *)
Lemma field_line_good : forall (f : jsstring -> bool) v,
  f v = true -> v <> u "---" ->
  ~ In LF v -> (forall l', v <> l' ++ [CR]) ->
  forall fileContent fmEnd i,
    (forall l, In l (splitLines fileContent) -> forall l', l <> l' ++ [CR]) ->
    frontmatterEnd (splitLines fileContent) = Some fmEnd ->
    firstIndex (fmEnd - 1) 1 (lineIs f (splitLines fileContent)) = Some i ->
    let written := joinLines (assign (splitLines fileContent) i v) in
    splitLines written = assign (splitLines fileContent) i v /\
    frontmatterEnd (splitLines written) = Some fmEnd /\
    firstIndex (fmEnd - 1) 1 (lineIs f (splitLines written)) = Some i.
Proof.
  intros f v Hf Hdash Hlf Hv fileContent fmEnd i Hcr E T written.
  subst written.
  pose proof (frontmatterEnd_bound _ _ E) as Hbound.
  pose proof (firstIndex_some _ _ _ _ T) as [Hi _].
  pose proof (firstIndex_first _ _ _ _ T) as Hfirst.
  rewrite assigned_lines_read_back by assumption.
  split; [reflexivity|]. split.
  - apply frontmatterEnd_assign; [exact E|lia|exact Hdash].
  - apply firstIndex_found.
    + lia.
    + rewrite lineIs_assign_same by lia. exact Hf.
    + intros k Hk. rewrite lineIs_assign_other by lia. now apply Hfirst.
Qed.

Lemma status_field : forall s,
  startsWith (u "status: " ++ noteStatus s) (u "status:") = true /\
  u "status: " ++ noteStatus s <> u "---" /\
  ~ In LF (u "status: " ++ noteStatus s) /\
  (forall l', u "status: " ++ noteStatus s <> l' ++ [CR]).
Proof.
  intros s. split; [reflexivity|]. split; [discriminate|]. split.
  - intros H. destruct s; simpl in H;
      repeat destruct H as [H|H]; try discriminate H; exact H.
  - intros l' E. apply (f_equal (@rev N)) in E.
    rewrite (rev_app_distr l' [CR]) in E.
    destruct s; discriminate E.
Qed.

(** X16. On a note none of whose lines ends in a carriage return, setting the
    status twice gives what setting the second status alone gives: the last
    write wins, and setting the same status twice changes nothing the second
    time. *)
Theorem X16_note_status_last_write_wins :
  forall (first second : TaskStatus) (fileContent : jsstring),
    (forall l, In l (splitLines fileContent) -> forall l', l <> l' ++ [CR]) ->
    exists once twice,
      updateTaskStatusNote first fileContent = Ok once /\
      updateTaskStatusNote second once = Ok twice /\
      updateTaskStatusNote second fileContent = Ok twice /\
      (first = second -> twice = once).
Proof.
  intros s1 s2 fileContent Hcr. unfold updateTaskStatusNote at 1 3.
  set (L := splitLines fileContent) in *.
  destruct (frontmatterEnd L) as [fmEnd|] eqn:E.
  2:{ exists fileContent, fileContent. repeat split.
      unfold updateTaskStatusNote. fold L. now rewrite E. }
  pose proof (frontmatterEnd_bound _ _ E) as Hbound.
  rewrite !forFirst_as_firstIndex by lia.
  set (f := fun line => startsWith line (u "status:")).
  destruct (firstIndex (fmEnd - 1) 1 (lineIs f L)) as [i|] eqn:T; cbn [bind].
  - destruct (status_field s1) as (Hf & Hdash & Hlf & Hv).
    destruct (field_line_good f _ Hf Hdash Hlf Hv fileContent fmEnd i Hcr E T)
      as (Hsplit & E' & T').
    fold L in Hsplit, E', T'.
    do 2 eexists. split; [reflexivity|]. split; [|split; [reflexivity|]].
    + unfold updateTaskStatusNote. cbv zeta. rewrite E'.
      rewrite forFirst_as_firstIndex.
      2:{ rewrite Hsplit, assign_length. lia. }
      fold f. rewrite T'. cbn [bind]. rewrite Hsplit.
      now rewrite assign_assign.
    + now intros ->.
  - exists (joinLines L), (joinLines L). repeat split.
    unfold updateTaskStatusNote. unfold L.
    rewrite splitLines_joinLines_splitLines by exact Hcr. fold L.
    rewrite E, forFirst_as_firstIndex by lia. fold f. now rewrite T.
Qed.

Lemma X16_note_status_last_write_wins_witness :
  exists once twice,
    updateTaskStatusNote in_progress noteDocument = Ok once /\
    updateTaskStatusNote done once = Ok twice /\
    updateTaskStatusNote done noteDocument = Ok twice /\
    (in_progress = done -> twice = once).
Proof.
  apply (X16_note_status_last_write_wins in_progress done noteDocument).
  exact noteDocument_lines.
Defined.

Lemma starred_field : forall v,
  v = u "starred: true" \/ v = u "starred: false" ->
  isSome (starredRegex v) = true /\
  v <> u "---" /\
  ~ In LF v /\
  (forall l', v <> l' ++ [CR]).
Proof.
  intros v [-> | ->].
  - split; [reflexivity|]. split; [discriminate|]. split.
    + intros H. simpl in H.
      repeat destruct H as [H|H]; try discriminate H; exact H.
    + intros l' E. apply (f_equal (@rev N)) in E.
      rewrite (rev_app_distr l' [CR]) in E. discriminate E.
  - split; [reflexivity|]. split; [discriminate|]. split.
    + intros H. simpl in H.
      repeat destruct H as [H|H]; try discriminate H; exact H.
    + intros l' E. apply (f_equal (@rev N)) in E.
      rewrite (rev_app_distr l' [CR]) in E. discriminate E.
Qed.

(** X17. On a note none of whose lines ends in a carriage return, starring is
    idempotent and so is unstarring: run on the document it wrote, each
    callback gives that document back.  A second starring finds the field
    the first one set or inserted, so the field is never written twice. *)
Theorem X17_note_star_is_idempotent :
  forall (fileContent : jsstring),
    (forall l, In l (splitLines fileContent) -> forall l', l <> l' ++ [CR]) ->
    (exists once,
       addStarNote fileContent = Ok once /\ addStarNote once = Ok once) /\
    (exists once,
       removeStarNote fileContent = Ok once /\ removeStarNote once = Ok once).
Proof.
  intros fileContent Hcr.
  set (L := splitLines fileContent) in *.
  set (f := fun line => isSome (starredRegex line)).
  destruct (frontmatterEnd L) as [fmEnd|] eqn:E.
  2:{ split; exists fileContent; split;
        unfold addStarNote, removeStarNote; fold L; now rewrite E. }
  pose proof (frontmatterEnd_bound _ _ E) as Hbound.
  destruct (firstIndex (fmEnd - 1) 1 (lineIs f L)) as [i|] eqn:T.
  - (* the field is there *)
    split.
    + destruct (starred_field (u "starred: true") (or_introl eq_refl))
        as (Hf & Hdash & Hlf & Hv).
      destruct (field_line_good f _ Hf Hdash Hlf Hv fileContent fmEnd i
                  Hcr E T) as (Hsplit & E' & T').
      fold L in Hsplit, E', T'.
      exists (joinLines (assign L i (u "starred: true"))). split.
      * unfold addStarNote. fold L. rewrite E.
        rewrite forFirst_as_firstIndex by lia. fold f. now rewrite T.
      * unfold addStarNote. cbv zeta. rewrite E'.
        rewrite forFirst_as_firstIndex
          by (rewrite Hsplit, assign_length; lia).
        fold f. rewrite T'. cbn [bind]. rewrite Hsplit.
        now rewrite assign_assign.
    + destruct (starred_field (u "starred: false") (or_intror eq_refl))
        as (Hf & Hdash & Hlf & Hv).
      destruct (field_line_good f _ Hf Hdash Hlf Hv fileContent fmEnd i
                  Hcr E T) as (Hsplit & E' & T').
      fold L in Hsplit, E', T'.
      exists (joinLines (assign L i (u "starred: false"))). split.
      * unfold removeStarNote. fold L. rewrite E.
        rewrite forFirst_as_firstIndex by lia. fold f. now rewrite T.
      * unfold removeStarNote. cbv zeta. rewrite E'.
        rewrite forFirst_as_firstIndex
          by (rewrite Hsplit, assign_length; lia).
        fold f. rewrite T'. cbn [bind]. rewrite Hsplit.
        now rewrite assign_assign.
  - (* the field is not there *)
    pose proof (firstIndex_none_elim _ _ _ T) as Hnone.
    split.
    + set (g := fun line => isSome (priorityRegex line)).
      set (j := match firstIndex (fmEnd - 1) 1 (lineIs g L) with
                | Some p => p + 1
                | None => fmEnd
                end).
      assert (Hj : 1 <= j <= fmEnd).
      { unfold j. destruct (firstIndex (fmEnd - 1) 1 (lineIs g L)) as [p|] eqn:P;
          [|lia].
        apply firstIndex_some in P as [P _]. lia. }
      set (v := u "starred: true").
      destruct (starred_field (u "starred: true") (or_introl eq_refl))
        as (Hf & Hdash & Hlf & Hv).
      fold v in Hf, Hdash, Hlf, Hv.
      assert (Hsplit : splitLines (joinLines (spliceInsert L j [v]))
                       = spliceInsert L j [v]).
      { unfold L. apply written_lines_read_back; [exact Hcr|].
        intros x [<-|[]]. now split. }
      exists (joinLines (spliceInsert L j [v])). split.
      * unfold addStarNote. fold L. rewrite E.
        rewrite !forFirst_as_firstIndex by lia. fold f. rewrite T.
        cbn [bind]. fold g. reflexivity.
      * unfold addStarNote. cbv zeta. rewrite Hsplit.
        rewrite (frontmatterEnd_insert L fmEnd j [v] E Hj).
        2:{ intros x [<-|[]]. exact Hdash. }
        cbn [length].
        rewrite forFirst_as_firstIndex
          by (rewrite spliceInsert_length; simpl; lia).
        fold f.
        assert (Hat : nth_error (spliceInsert L j [v]) j = Some v).
        { replace j with (j + 0) at 2 by lia.
          rewrite spliceInsert_at by (simpl; lia). reflexivity. }
        replace (firstIndex (fmEnd + 1 - 1) 1
                   (lineIs f (spliceInsert L j [v])))
          with (Some j).
        2:{ symmetry. apply firstIndex_found.
            - lia.
            - unfold lineIs. rewrite Hat. exact Hf.
            - intros k Hk. unfold lineIs.
              rewrite spliceInsert_before by lia.
              apply (Hnone k). lia. }
        cbn [bind]. now rewrite assign_id.
    + exists (joinLines L). split.
      * unfold removeStarNote. fold L. rewrite E.
        rewrite forFirst_as_firstIndex by lia. fold f. now rewrite T.
      * unfold removeStarNote. unfold L.
        rewrite splitLines_joinLines_splitLines by exact Hcr. fold L.
        rewrite E, forFirst_as_firstIndex by lia. fold f. now rewrite T.
Qed.

Lemma X17_note_star_is_idempotent_witness :
  (exists once,
     addStarNote noteDocument = Ok once /\ addStarNote once = Ok once) /\
  (exists once,
     removeStarNote noteDocument = Ok once /\ removeStarNote once = Ok once).
Proof.
  apply (X17_note_star_is_idempotent noteDocument).
  exact noteDocument_lines.
Defined.

(** ** Notes: adding a dependency twice *)

Lemma firstIndex_exists : forall count from p i,
  from <= i < from + count -> p i = true ->
  exists i', firstIndex count from p = Some i'.
Proof.
  induction count as [|count IH]; intros from p i Hi Hp; [lia|].
  simpl. destruct (p from) eqn:E; [now eexists|].
  apply (IH (S from) p i); [|exact Hp].
  destruct (Nat.eq_dec i from) as [->|Hne]; [congruence|lia].
Qed.

Lemma skipBlockedByItems_range : forall bound lines closing,
  nth_error lines bound = Some closing ->
  isSome (reltypeItemRegex closing) = false ->
  forall fuel insertIndex stop,
    insertIndex <= bound ->
    skipBlockedByItems fuel bound lines insertIndex = Ok stop ->
    insertIndex <= stop <= bound.
Proof.
  intros bound lines closing Hclosing Hnot.
  induction fuel as [|fuel IH]; intros insertIndex stop Hle H;
    cbn [skipBlockedByItems] in H;
    destruct (insertIndex <? bound) eqn:E;
    try (injection H as <-; apply Nat.ltb_ge in E; lia);
    [discriminate H|].
  apply Nat.ltb_lt in E. unfold get in H.
  destruct (nth_error lines insertIndex) as [l|]; [|discriminate H].
  cbn [bind] in H.
  destruct (isSome (uidItemRegex l)); [|injection H as <-; lia].
  destruct (insertIndex + 1 <? length lines) eqn:E2.
  - destruct (nth_error lines (insertIndex + 1)) as [next|] eqn:En;
      [|discriminate H].
    cbn [bind] in H.
    destruct (isSome (reltypeItemRegex next)) eqn:Er.
    + assert (insertIndex + 1 <> bound).
      { intros Heq. rewrite Heq, Hclosing in En. injection En as <-.
        congruence. }
      apply IH in H; lia.
    + apply IH in H; lia.
  - cbn [bind] in H. apply IH in H; lia.
Qed.

Lemma closing_line : forall lines fmEnd,
  frontmatterEnd lines = Some fmEnd -> nth_error lines fmEnd = Some (u "---").
Proof.
  intros lines fmEnd H. unfold frontmatterEnd in H.
  destruct (strictEq lines 0 (u "---")); [|discriminate].
  apply firstIndex_some in H as [_ H]. unfold strictEq in H.
  destruct (nth_error lines fmEnd) as [l|]; [|discriminate].
  apply eqb_eq in H. now subst l.
Qed.

Lemma uidLine_good : forall text,
  forallb isDot text = true ->
  let taskIdentifier := u "[[" ++ text ++ u "]]" in
  let uidLine := u "  - uid: " ++ QUOTE ++ taskIdentifier ++ QUOTE in
  includes uidLine (u "uid:") && includes uidLine taskIdentifier = true /\
  uidLine <> u "---" /\
  ~ In LF uidLine /\
  (forall l', uidLine <> l' ++ [CR]).
Proof.
  intros text Hdot taskIdentifier uidLine. subst uidLine taskIdentifier.
  split; [|split; [|split]].
  - apply andb_true_iff. split.
    + apply includes_app_l. reflexivity.
    + rewrite (app_assoc (u "  - uid: ") QUOTE). apply includes_app_r.
      apply includes_app_l. apply includes_self.
  - discriminate.
  - intros H. apply in_app_or in H as [H|H].
    { simpl in H. repeat destruct H as [H|H]; try discriminate H; exact H. }
    apply in_app_or in H as [H|H].
    { simpl in H. repeat destruct H as [H|H]; try discriminate H; exact H. }
    apply in_app_or in H as [H|H].
    2:{ simpl in H. repeat destruct H as [H|H]; try discriminate H; exact H. }
    apply in_app_or in H as [H|H].
    { simpl in H. repeat destruct H as [H|H]; try discriminate H; exact H. }
    apply in_app_or in H as [H|H].
    { now apply (isDot_no_LF text). }
    simpl in H. repeat destruct H as [H|H]; try discriminate H; exact H.
  - intros l' E. rewrite !app_assoc in E. apply app_inj_tail in E as [_ E].
    discriminate E.
Qed.

(** X18. On a note none of whose lines ends in a carriage return, recording
    a dependency on a task whose text holds no line terminator is idempotent:
    the second run finds the entry the first one wrote in the attribute
    block and returns the document unchanged. *)
Theorem X18_note_dependency_is_idempotent :
  forall (fromTask : Task) (fileContent : jsstring),
    forallb isDot (task_text fromTask) = true ->
    (forall l, In l (splitLines fileContent) -> forall l', l <> l' ++ [CR]) ->
    exists once,
      addDependencyCallback fromTask fileContent = Ok once /\
      addDependencyCallback fromTask once = Ok once.
Proof.
  intros fromTask fileContent Hdot Hcr.
  destruct (uidLine_good (task_text fromTask) Hdot)
    as (Hh & Hdash & Hlf & Hv).
  cbv zeta in Hh, Hdash, Hlf, Hv.
  set (ident := u "[[" ++ task_text fromTask ++ u "]]") in *.
  set (uidLine := u "  - uid: " ++ QUOTE ++ ident ++ QUOTE) in *.
  set (reltypeLine := u "    reltype: FINISHTOSTART").
  set (h := fun line => includes line (u "uid:") && includes line ident).
  set (g := fun line => isSome (blockedByRegex line)).
  assert (Hunfold : forall doc fmEnd,
    frontmatterEnd (splitLines doc) = Some fmEnd ->
    addDependencyCallback fromTask doc
    = match firstIndex (fmEnd - 1) 1 (lineIs h (splitLines doc)) with
      | Some _ => Ok doc
      | None =>
          match firstIndex (fmEnd - 1) 0
                  (lineIs g (firstn (fmEnd - 1) (skipn 1 (splitLines doc))))
          with
          | None =>
              Ok (joinLines
                    (spliceInsert (splitLines doc) fmEnd
                       [u "blockedBy:"; uidLine; reltypeLine]))
          | Some b =>
              insertIndex <-
                skipBlockedByItems (length (splitLines doc)) fmEnd
                  (splitLines doc) (b + 2) ;;
              Ok (joinLines
                    (spliceInsert (splitLines doc) insertIndex
                       [uidLine; reltypeLine]))
          end
      end).
  { intros doc fmEnd E. unfold addDependencyCallback. cbv zeta. rewrite E.
    pose proof (frontmatterEnd_bound _ _ E) as Hbound.
    assert (Hlen : length (firstn (fmEnd - 1) (skipn 1 (splitLines doc)))
                   = fmEnd - 1).
    { rewrite length_firstn, length_skipn. lia. }
    rewrite forFirst_as_firstIndex by lia. cbn [bind].
    rewrite forFirst_as_firstIndex by lia. cbn [bind].
    fold ident. fold h. fold g. rewrite Hlen.
    destruct (firstIndex (fmEnd - 1) 1 (lineIs h (splitLines doc)));
      [reflexivity|].
    destruct (firstIndex (fmEnd - 1) 0 _) as [b|]; [|reflexivity].
    replace (0 + 1 + (fmEnd - 1)) with fmEnd by lia.
    replace (0 + 1 + b + 1) with (b + 2) by lia. reflexivity. }
  set (L := splitLines fileContent) in *.
  destruct (frontmatterEnd L) as [fmEnd|] eqn:E.
  2:{ exists fileContent. split; unfold addDependencyCallback; fold L;
        now rewrite E. }
  pose proof (frontmatterEnd_bound _ _ E) as Hbound.
  rewrite (Hunfold fileContent fmEnd E). fold L.
  destruct (firstIndex (fmEnd - 1) 1 (lineIs h L)) as [i|] eqn:X.
  { exists fileContent. split; [reflexivity|].
    rewrite (Hunfold fileContent fmEnd E). fold L. now rewrite X. }
  (* the entry is written at [j], with the uid line [o] lines further *)
  assert (Hwritten : forall j (items : list jsstring) o,
    1 <= j <= fmEnd ->
    nth_error items o = Some uidLine ->
    (forall x, In x items ->
       x <> u "---" /\ ~ In LF x /\ forall l', x <> l' ++ [CR]) ->
    addDependencyCallback fromTask (joinLines (spliceInsert L j items))
    = Ok (joinLines (spliceInsert L j items))).
  { intros j items o Hj Ho Hitems.
    assert (Hsplit : splitLines (joinLines (spliceInsert L j items))
                     = spliceInsert L j items).
    { unfold L. apply written_lines_read_back; [exact Hcr|].
      intros x Hx. destruct (Hitems x Hx) as (_ & H1 & H2). now split. }
    assert (Ho' : o < length items) by (apply nth_error_Some; congruence).
    rewrite (Hunfold _ (fmEnd + length items)).
    2:{ rewrite Hsplit. apply frontmatterEnd_insert; [exact E|exact Hj|].
        intros x Hx. now destruct (Hitems x Hx). }
    rewrite Hsplit.
    destruct (firstIndex_exists (fmEnd + length items - 1) 1
                (lineIs h (spliceInsert L j items)) (j + o)) as (i' & ->);
      [lia| |reflexivity].
    unfold lineIs. rewrite spliceInsert_at by lia. rewrite Ho. exact Hh. }
  assert (Hrel : reltypeLine <> u "---" /\ ~ In LF reltypeLine /\
                 forall l', reltypeLine <> l' ++ [CR]).
  { split; [discriminate|]. split.
    - intros H. simpl in H.
      repeat destruct H as [H|H]; try discriminate H; exact H.
    - intros l' H. apply (f_equal (@rev N)) in H.
      rewrite (rev_app_distr l' [CR]) in H. discriminate H. }
  destruct (firstIndex (fmEnd - 1) 0
              (lineIs g (firstn (fmEnd - 1) (skipn 1 L)))) as [b|] eqn:B.
  - apply firstIndex_some in B as [Hb _].
    destruct (skipBlockedByItems_ok fmEnd L (length L) (b + 2))
      as (j & Hskip); [lia|lia|].
    rewrite Hskip. cbn [bind].
    assert (Hstart : b + 2 <= fmEnd) by lia.
    pose proof (skipBlockedByItems_range fmEnd L (u "---")
                  (closing_line _ _ E) eq_refl (length L) (b + 2) j
                  Hstart Hskip) as Hj.
    eexists. split; [reflexivity|].
    apply (Hwritten j [uidLine; reltypeLine] 0); [lia|reflexivity|].
    intros x [<-|[<-|[]]]; [now repeat split|exact Hrel].
  - eexists. split; [reflexivity|].
    apply (Hwritten fmEnd [u "blockedBy:"; uidLine; reltypeLine] 1);
      [lia|reflexivity|].
    intros x [<-|[<-|[<-|[]]]]; [|now repeat split|exact Hrel].
    split; [discriminate|]. split.
    + intros H. simpl in H.
      repeat destruct H as [H|H]; try discriminate H; exact H.
    + intros l' H. apply (f_equal (@rev N)) in H.
      rewrite (rev_app_distr l' [CR]) in H. discriminate H.
Qed.

Lemma X18_note_dependency_is_idempotent_witness :
  exists once,
    addDependencyCallback reportTask noteDocument = Ok once /\
    addDependencyCallback reportTask once = Ok once.
Proof.
  apply (X18_note_dependency_is_idempotent reportTask noteDocument);
    [reflexivity|exact noteDocument_lines].
Defined.

(** ** Notes: adding a dependency and removing it again *)

Lemma looseUid_includes : forall line,
  isSome (looseUidRegex line) = true -> includes line (u "uid:") = true.
Proof.
  intros line H. unfold looseUidRegex, seq, classStar, lit in H.
  destruct (startsWith (skipn (countWhile isSpace line) line) (u "- uid:"))
    eqn:E; [|discriminate H].
  apply startsWith_eq in E.
  rewrite <- (firstn_skipn (countWhile isSpace line) line), E.
  apply includes_app_r.
  change (u "- uid:") with (u "- " ++ u "uid:"). rewrite <- app_assoc.
  apply includes_app_r. apply includes_app_l. apply includes_self.
Qed.

Lemma removeDependencyItems_done : forall basename fuel i fmEnd lines,
  fmEnd <= i -> removeDependencyItems fuel i fmEnd lines basename = Ok lines.
Proof.
  intros basename fuel i fmEnd lines H.
  assert (E : (i <? fmEnd) = false) by (apply Nat.ltb_ge; exact H).
  destruct fuel; cbn [removeDependencyItems]; now rewrite E.
Qed.

Lemma removeDependencyItems_skip : forall basename lines fmEnd n fuel i,
  i + n <= fmEnd -> fmEnd <= length lines ->
  (forall k, i <= k < i + n ->
             lineIs (namesDependency basename) lines k = false) ->
  removeDependencyItems (n + fuel) i fmEnd lines basename
  = removeDependencyItems fuel (i + n) fmEnd lines basename.
Proof.
  intros basename lines fmEnd. induction n as [|n IH];
    intros fuel i Hn Hlen Hnone.
  - now rewrite Nat.add_0_r.
  - cbn [Nat.add removeDependencyItems].
    assert (E : (i <? fmEnd) = true) by (apply Nat.ltb_lt; lia).
    rewrite E.
    destruct (get_ok lines i) as (l & Hget & Hl); [lia|].
    rewrite Hget. cbn [bind].
    pose proof (Hnone i ltac:(lia)) as Hi. unfold lineIs in Hi.
    rewrite Hl in Hi. unfold namesDependency in Hi. rewrite Hi.
    rewrite IH; [f_equal; lia|lia|exact Hlen|].
    intros k Hk. apply Hnone. lia.
Qed.

Lemma spliceRemove_app : forall (A : list jsstring) x B,
  spliceRemove (A ++ x :: B) (length A) = A ++ B.
Proof.
  intros A x B. unfold spliceRemove.
  rewrite firstn_app, Nat.sub_diag, firstn_O, app_nil_r, firstn_all.
  rewrite skipn_app, skipn_all2 by lia.
  replace (S (length A) - length A) with 1 by lia. reflexivity.
Qed.

Lemma nth_error_middle : forall (A : list jsstring) x B,
  nth_error (A ++ x :: B) (length A) = Some x.
Proof.
  intros A x B. rewrite nth_error_app2 by lia.
  now rewrite Nat.sub_diag.
Qed.

Lemma removeDependencyItems_entry :
  forall basename fuel fmEnd (A : list jsstring) uidLine reltypeLine B,
    length A < fmEnd ->
    namesDependency basename uidLine = true ->
    isSome (looseReltypeRegex reltypeLine) = true ->
    removeDependencyItems (S fuel) (length A) fmEnd
      (A ++ uidLine :: reltypeLine :: B) basename
    = removeDependencyItems fuel (length A) (fmEnd - 2) (A ++ B) basename.
Proof.
  intros basename fuel fmEnd A uidLine reltypeLine B Hlt Huid Hrel.
  cbn [removeDependencyItems].
  assert (E : (length A <? fmEnd) = true) by (apply Nat.ltb_lt; lia).
  rewrite E. unfold get at 1. rewrite nth_error_middle. cbn [bind].
  unfold namesDependency in Huid. rewrite Huid.
  rewrite spliceRemove_app.
  assert (E2 : (length A <? length (A ++ reltypeLine :: B)) = true).
  { apply Nat.ltb_lt. rewrite length_app. simpl. lia. }
  rewrite E2. unfold get at 1. rewrite nth_error_middle. cbn [bind].
  rewrite Hrel. now rewrite spliceRemove_app.
Qed.

Lemma spliceInsert_as_app : forall lines j pre items,
  spliceInsert lines j (pre ++ items)
  = (firstn j lines ++ pre) ++ items ++ skipn j lines.
Proof.
  intros lines j pre items. unfold spliceInsert.
  now rewrite <- !app_assoc.
Qed.

(** X19. Take a source task whose text holds no line terminator and is the
    base name of its id, and a note with a closed attribute block, none of
    whose lines ends in a carriage return and none of whose lines, in the
    block or below it, holds both [uid:] and the text of the source task
    between double brackets.  Recording the dependency and removing it again
    by the id of the source task takes out the two lines of the entry.  When
    the block had a [blockedBy:] line before, what is left is the lines of
    the first document, joined by line feeds; when it had none, the
    [blockedBy:] line that was written with the entry stays behind. *)
Theorem X19_note_dependency_added_then_removed :
  forall (fromTask : Task) (fileContent : jsstring) (fmEnd : nat),
    forallb isDot (task_text fromTask) = true ->
    basenameOf (task_id fromTask) = task_text fromTask ->
    (forall l, In l (splitLines fileContent) -> forall l', l <> l' ++ [CR]) ->
    frontmatterEnd (splitLines fileContent) = Some fmEnd ->
    (forall l, In l (splitLines fileContent) ->
               includes l (u "uid:") &&
               includes l (u "[[" ++ task_text fromTask ++ u "]]") = false) ->
    exists once restored,
      addDependencyCallback fromTask fileContent = Ok once /\
      removeDependencyCallback (task_id fromTask) once = Ok restored /\
      ((exists k, 1 <= k < fmEnd /\
                  lineIs (fun line => isSome (blockedByRegex line))
                    (splitLines fileContent) k = true) ->
       restored = joinLines (splitLines fileContent)) /\
      ((forall k, 1 <= k < fmEnd ->
                  lineIs (fun line => isSome (blockedByRegex line))
                    (splitLines fileContent) k = false) ->
       restored
       = joinLines (spliceInsert (splitLines fileContent) fmEnd
                      [u "blockedBy:"])).
Proof.
  intros fromTask fileContent fmEnd Hdot Hbase Hcr E Hfresh.
  destruct (uidLine_good (task_text fromTask) Hdot)
    as (Hh & Hdash & Hlf & Hv).
  cbv zeta in Hh, Hdash, Hlf, Hv.
  set (ident := u "[[" ++ task_text fromTask ++ u "]]") in *.
  set (uidLine := u "  - uid: " ++ QUOTE ++ ident ++ QUOTE) in *.
  set (reltypeLine := u "    reltype: FINISHTOSTART").
  set (h := fun line => includes line (u "uid:") && includes line ident).
  set (g := fun line => isSome (blockedByRegex line)).
  set (L := splitLines fileContent) in *.
  pose proof (frontmatterEnd_bound _ _ E) as Hbound.
  assert (Hlen : length (firstn (fmEnd - 1) (skipn 1 L)) = fmEnd - 1).
  { rewrite length_firstn, length_skipn. lia. }
  assert (Hrel : reltypeLine <> u "---" /\ ~ In LF reltypeLine /\
                 forall l', reltypeLine <> l' ++ [CR]).
  { split; [discriminate|]. split.
    - intros H. simpl in H.
      repeat destruct H as [H|H]; try discriminate H; exact H.
    - intros l' H. apply (f_equal (@rev N)) in H.
      rewrite (rev_app_distr l' [CR]) in H. discriminate H. }
  assert (Hbb : u "blockedBy:" <> u "---" /\ ~ In LF (u "blockedBy:") /\
                forall l', u "blockedBy:" <> l' ++ [CR]).
  { split; [discriminate|]. split.
    - intros H. simpl in H.
      repeat destruct H as [H|H]; try discriminate H; exact H.
    - intros l' H. apply (f_equal (@rev N)) in H.
      rewrite (rev_app_distr l' [CR]) in H. discriminate H. }
  assert (Hnone : forall k, lineIs (namesDependency (task_text fromTask)) L k
                            = false).
  { intros k. unfold lineIs. destruct (nth_error L k) as [l|] eqn:El;
      [|reflexivity].
    unfold namesDependency. fold ident.
    destruct (isSome (looseUidRegex l)) eqn:Eu; [|reflexivity].
    apply looseUid_includes in Eu.
    pose proof (Hfresh l (nth_error_In _ _ El)) as Hl. fold ident in Hl.
    rewrite Eu in Hl. exact Hl. }
  assert (Huid : namesDependency (task_text fromTask) uidLine = true).
  { unfold namesDependency. fold ident. apply andb_true_iff.
    split; [reflexivity|]. now apply andb_true_iff in Hh as [_ Hh]. }
  (* what adding does *)
  assert (Hadd : forall j pre,
    1 <= j <= fmEnd ->
    (match firstIndex (fmEnd - 1) 0 (lineIs g (firstn (fmEnd - 1) (skipn 1 L)))
     with
     | None => j = fmEnd /\ pre = [u "blockedBy:"]
     | Some b =>
         skipBlockedByItems (length L) fmEnd L (b + 2) = Ok j /\ pre = []
     end) ->
    addDependencyCallback fromTask fileContent
    = Ok (joinLines (spliceInsert L j (pre ++ [uidLine; reltypeLine])))).
  { intros j pre Hj Hcase. unfold addDependencyCallback. cbv zeta. fold L.
    rewrite E. rewrite forFirst_as_firstIndex by lia. cbn [bind].
    rewrite forFirst_as_firstIndex by lia. cbn [bind].
    fold ident. fold h. fold g. rewrite Hlen.
    replace (firstIndex (fmEnd - 1) 1 (lineIs h L)) with (@None nat).
    2:{ symmetry. destruct (firstIndex (fmEnd - 1) 1 (lineIs h L)) as [i|] eqn:X;
          [|reflexivity].
        apply firstIndex_some in X as [_ X]. unfold lineIs in X.
        destruct (nth_error L i) as [l|] eqn:El; [|discriminate X].
        pose proof (Hfresh l (nth_error_In _ _ El)) as Hl. fold ident in Hl.
        unfold h in X. congruence. }
    destruct (firstIndex (fmEnd - 1) 0 _) as [b|].
    - destruct Hcase as [Hskip ->].
      replace (0 + 1 + (fmEnd - 1)) with fmEnd by lia.
      replace (0 + 1 + b + 1) with (b + 2) by lia.
      rewrite Hskip. reflexivity.
    - destruct Hcase as [-> ->]. reflexivity. }
  (* what removing does to the document that was written *)
  assert (Hremove : forall j pre,
    1 <= j <= fmEnd ->
    (forall x, In x pre ->
       (x <> u "---" /\ ~ In LF x /\ forall l', x <> l' ++ [CR]) /\
       namesDependency (task_text fromTask) x = false) ->
    (pre <> [] -> j = fmEnd) ->
    removeDependencyCallback (task_id fromTask)
      (joinLines (spliceInsert L j (pre ++ [uidLine; reltypeLine])))
    = Ok (joinLines (spliceInsert L j pre))).
  { intros j pre Hj Hpre Hpos.
    set (items := pre ++ [uidLine; reltypeLine]).
    assert (Hitems : forall x, In x items ->
              x <> u "---" /\ ~ In LF x /\ forall l', x <> l' ++ [CR]).
    { intros x Hx. apply in_app_or in Hx as [Hx|[<-|[<-|[]]]].
      - now apply Hpre.
      - now repeat split.
      - exact Hrel. }
    assert (Hsplit : splitLines (joinLines (spliceInsert L j items))
                     = spliceInsert L j items).
    { unfold L. apply written_lines_read_back; [exact Hcr|].
      intros x Hx. destruct (Hitems x Hx) as (_ & H1 & H2). now split. }
    unfold removeDependencyCallback. cbv zeta. rewrite Hsplit.
    rewrite (frontmatterEnd_insert L fmEnd j items E Hj).
    2:{ intros x Hx. now destruct (Hitems x Hx). }
    rewrite Hbase.
    assert (Hilen : length items = length pre + 2).
    { unfold items. rewrite length_app. simpl. lia. }
    rewrite spliceInsert_length, Hilen.
    unfold items. rewrite spliceInsert_as_app.
    set (A := firstn j L ++ pre).
    assert (HA : length A = j + length pre).
    { unfold A. rewrite length_app, length_firstn. lia. }
    cbn [app].
    (* the lines before the entry *)
    replace (length L + (length pre + 2))
      with ((length A - 1) + S (length L + 2 - j)) by lia.
    rewrite removeDependencyItems_skip.
    2:{ lia. }
    2:{ rewrite length_app. simpl. rewrite length_skipn. lia. }
    2:{ intros k Hk. unfold lineIs.
        rewrite nth_error_app1 by lia. unfold A.
        destruct (Nat.lt_ge_cases k j) as [Hlt|Hge].
        - rewrite nth_error_app1 by (rewrite length_firstn; lia).
          rewrite nth_error_firstn.
          rewrite (proj2 (Nat.ltb_lt k j) Hlt). apply Hnone.
        - rewrite nth_error_app2 by (rewrite length_firstn; lia).
          destruct (nth_error pre (k - length (firstn j L))) as [x|] eqn:Ex;
            [|reflexivity].
          apply nth_error_In in Ex. now apply Hpre. }
    replace (1 + (length A - 1)) with (length A) by lia.
    rewrite removeDependencyItems_entry; [|lia|exact Huid|reflexivity].
    replace (fmEnd + (length pre + 2) - 2) with (fmEnd + length pre) by lia.
    (* the lines after the entry *)
    replace (length L + 2 - j)
      with ((fmEnd + length pre - length A) + (length L + 2 - fmEnd)) by lia.
    rewrite removeDependencyItems_skip.
    2:{ lia. }
    2:{ rewrite length_app, length_skipn. lia. }
    2:{ intros k Hk. unfold lineIs.
        rewrite nth_error_app2 by lia. rewrite nth_error_skipn. apply Hnone. }
    rewrite removeDependencyItems_done by lia. cbn [bind].
    unfold A, spliceInsert. now rewrite <- app_assoc. }
  destruct (firstIndex (fmEnd - 1) 0
              (lineIs g (firstn (fmEnd - 1) (skipn 1 L)))) as [b|] eqn:B.
  - pose proof (firstIndex_some _ _ _ _ B) as [Hb Hgb].
    destruct (skipBlockedByItems_ok fmEnd L (length L) (b + 2))
      as (j & Hskip); [lia|lia|].
    assert (Hstart : b + 2 <= fmEnd) by lia.
    pose proof (skipBlockedByItems_range fmEnd L (u "---")
                  (closing_line _ _ E) eq_refl (length L) (b + 2) j
                  Hstart Hskip) as Hj.
    exists (joinLines (spliceInsert L j ([] ++ [uidLine; reltypeLine]))),
           (joinLines (spliceInsert L j [])).
    split; [|split; [|split]].
    + apply Hadd; [lia|]. now split.
    + apply Hremove; [lia| |].
      * intros x [].
      * intros H. now contradiction H.
    + intros _. unfold spliceInsert. cbn [app]. now rewrite firstn_skipn.
    + intros Hno. exfalso.
      pose proof (Hno (b + 1) ltac:(lia)) as Hk.
      unfold lineIs in Hgb, Hk.
      rewrite nth_error_firstn in Hgb.
      rewrite (proj2 (Nat.ltb_lt b (fmEnd - 1)) ltac:(lia)) in Hgb.
      rewrite nth_error_skipn in Hgb.
      replace (1 + b) with (b + 1) in Hgb by lia. congruence.
  - pose proof (firstIndex_none_elim _ _ _ B) as Hnob.
    exists (joinLines (spliceInsert L fmEnd
                         ([u "blockedBy:"] ++ [uidLine; reltypeLine]))),
           (joinLines (spliceInsert L fmEnd [u "blockedBy:"])).
    split; [|split; [|split]].
    + apply Hadd; [lia|]. now split.
    + apply Hremove; [lia| |reflexivity].
      intros x [<-|[]]. split; [exact Hbb|reflexivity].
    + intros (k & Hk & Hgk). exfalso.
      pose proof (Hnob (k - 1) ltac:(lia)) as Hk'.
      unfold lineIs in Hgk, Hk'.
      rewrite nth_error_firstn in Hk'.
      rewrite (proj2 (Nat.ltb_lt (k - 1) (fmEnd - 1)) ltac:(lia)) in Hk'.
      rewrite nth_error_skipn in Hk'.
      replace (1 + (k - 1)) with k in Hk' by lia. congruence.
    + intros _. reflexivity.
Qed.

Lemma X19_note_dependency_added_then_removed_witness :
  exists once restored,
    addDependencyCallback standupNote noteDocument = Ok once /\
    removeDependencyCallback (task_id standupNote) once = Ok restored /\
    ((exists k, 1 <= k < 4 /\
                lineIs (fun line => isSome (blockedByRegex line))
                  (splitLines noteDocument) k = true) ->
     restored = joinLines (splitLines noteDocument)) /\
    ((forall k, 1 <= k < 4 ->
                lineIs (fun line => isSome (blockedByRegex line))
                  (splitLines noteDocument) k = false) ->
     restored
     = joinLines (spliceInsert (splitLines noteDocument) 4
                    [u "blockedBy:"])).
Proof.
  apply (X19_note_dependency_added_then_removed standupNote noteDocument 4);
    [reflexivity|reflexivity|exact noteDocument_lines|reflexivity|].
  intros l Hl. simpl in Hl.
  repeat (destruct Hl as [<-|Hl]; [reflexivity|]). contradiction.
Defined.

(** ** The documents a mutation writes *)

Lemma guarded_frame : forall checkText task vault fn,
  (forall fileContent, exists doc, fn fileContent = Ok doc) ->
  exists vault',
    guarded checkText task vault fn = Ok vault' /\
    (forall path, path <> task_link task -> vault' path = vault path) /\
    (forall path, vault' path = None <-> vault path = None).
Proof.
  intros checkText task vault fn Hfn. unfold guarded.
  destruct (isEmpty (task_link task) || checkText && isEmpty (task_text task)).
  { exists vault. now repeat split. }
  destruct (vault (task_link task)) as [fileContent|] eqn:Efile.
  2:{ exists vault. now repeat split. }
  unfold process. rewrite Efile.
  destruct (Hfn fileContent) as (doc & ->). cbn [bind].
  eexists. split; [reflexivity|]. unfold writeFile. split.
  - intros path Hpath. apply eqb_neq in Hpath. now rewrite Hpath.
  - intros path. destruct (eqb path (task_link task)) eqn:E; [|reflexivity].
    apply eqb_eq in E. subst path. rewrite Efile. split; discriminate.
Qed.

(** X20. Every mutation of the vault returns, writes no document but the one
    the task links to, and neither creates nor deletes a document: the vault
    holds a document at a path afterwards exactly when it held one there
    before. *)
Theorem X20_mutation_writes_only_the_task_document :
  forall removeEmojiId removeDataviewId removeTags normalizeWhitespace
         (op : Operation) (task : Task) (vault : Vault),
    exists vault',
      mutateVault removeEmojiId removeDataviewId removeTags
        normalizeWhitespace op task vault = Ok vault' /\
      (forall path, path <> task_link task -> vault' path = vault path) /\
      (forall path, vault' path = None <-> vault path = None).
Proof.
  intros rE rD rT nW op task vault. rewrite mutateVault_guarded.
  apply guarded_frame. intros fileContent. apply callback_ok.
Qed.


(* ================================================================== *)
(** * Properties of the tag editor of a node *)
(* ================================================================== *)

Lemma hasString_false : forall l s,
  Canvas.hasString l s = false <-> ~ In s l.
Proof.
  intros l s. unfold Canvas.hasString. induction l as [|x l IH]; simpl.
  - split; [intros _ []|reflexivity].
  - rewrite orb_false_iff, IH, eqb_neq. intuition congruence.
Qed.

Lemma filter_out_appended : forall (l : list jsstring) s,
  ~ In s l -> filter (fun x => negb (eqb x s)) (l ++ [s]) = l.
Proof.
  intros l s H. rewrite filter_app. simpl. rewrite eqb_refl. simpl.
  rewrite app_nil_r. induction l as [|x l IH]; [reflexivity|].
  simpl. assert (Hx : eqb x s = false).
  { apply eqb_neq. intros ->. apply H. now left. }
  rewrite Hx. simpl. f_equal. apply IH. intros Hin. apply H. now right.
Qed.

Lemma countWhile_stops : forall p s c t,
  skipn (countWhile p s) s = c :: t -> p c = false.
Proof.
  intros p. induction s as [|d s IH]; intros c t H; [discriminate|].
  simpl in H. destruct (p d) eqn:E.
  - now apply (IH c t).
  - simpl in H. now injection H as <- _.
Qed.

Lemma cleanTagOf_no_hash : forall tagToAdd,
  startsWith (TaskNodeView.cleanTagOf tagToAdd) (u "#") = false.
Proof.
  intros tagToAdd. unfold TaskNodeView.cleanTagOf. cbv zeta.
  destruct (skipn _ (trim tagToAdd)) as [|c t] eqn:E; [reflexivity|].
  apply countWhile_stops in E. simpl. now rewrite E.
Qed.

(** X22. Adding a tag in the editor of a node either leaves the tags of the
    node as they are or appends one tag, the input trimmed and without its
    leading number signs.  A tag is appended only when the input holds no
    space, is not blank, the tag is not shown yet and the mutation of the
    vault returned; so a list without duplicates stays without duplicates,
    and a mutation that does not return leaves the tags and the vault as
    they were.  The tag handed to the mutation never starts with a number
    sign. *)
Theorem X22_add_tag_keeps_tags_distinct :
  forall (addTag : jsstring -> Vault -> outcome Vault)
         (tagToAdd : jsstring) (tags : list jsstring) (vault : Vault),
    let cleanTag := TaskNodeView.cleanTagOf tagToAdd in
    let after := TaskNodeView.handleAddTag addTag tagToAdd (tags, vault) in
    (after = (tags, vault) \/
     (fst after = tags ++ [cleanTag] /\
      addTag cleanTag vault = Ok (snd after) /\
      ~ In cleanTag tags /\
      includes tagToAdd (u " ") = false /\
      trim tagToAdd <> [])) /\
    ((forall vault', addTag cleanTag vault <> Ok vault') ->
     after = (tags, vault)) /\
    (NoDup tags -> NoDup (fst after)) /\
    startsWith cleanTag (u "#") = false.
Proof.
  intros addTag tagToAdd tags vault cleanTag after. subst after.
  unfold TaskNodeView.handleAddTag. fold cleanTag.
  split; [|split; [|split]]; try apply cleanTagOf_no_hash.
  - destruct (trim tagToAdd) as [|c0 t0] eqn:Et; [now left|]. cbn [isEmpty].
    destruct (includes tagToAdd (u " ")) eqn:Esp; [now left|].
    destruct (Canvas.hasString tags cleanTag) eqn:Ehas; [now left|].
    apply hasString_false in Ehas.
    destruct (addTag cleanTag vault) as [vault'| |] eqn:Eop.
    + right. cbn [fst snd]. repeat split; try assumption. discriminate.
    + left. now rewrite filter_out_appended.
    + left. now rewrite filter_out_appended.
  - intros Hfail.
    destruct (isEmpty (trim tagToAdd)); [reflexivity|].
    destruct (includes tagToAdd (u " ")); [reflexivity|].
    destruct (Canvas.hasString tags cleanTag) eqn:Ehas; [reflexivity|].
    apply hasString_false in Ehas.
    destruct (addTag cleanTag vault) as [vault'| |] eqn:Eop.
    + exfalso. now apply (Hfail vault').
    + now rewrite filter_out_appended.
    + now rewrite filter_out_appended.
  - intros Hnodup.
    destruct (isEmpty (trim tagToAdd)); [exact Hnodup|].
    destruct (includes tagToAdd (u " ")); [exact Hnodup|].
    destruct (Canvas.hasString tags cleanTag) eqn:Ehas; [exact Hnodup|].
    apply hasString_false in Ehas.
    destruct (addTag cleanTag vault) as [vault'| |] eqn:Eop; cbn [fst].
    + apply NoDup_app; [exact Hnodup|repeat constructor; intros []|].
      intros x Hx [<-|[]]. contradiction.
    + now rewrite filter_out_appended.
    + now rewrite filter_out_appended.
Qed.

Lemma filter_other_in : forall (l : list jsstring) s x,
  In x (filter (fun y => negb (eqb y s)) l) <-> In x l /\ x <> s.
Proof.
  intros l s x. rewrite filter_In, negb_true_iff, eqb_neq. reflexivity.
Qed.

Lemma permutation_move_to_end : forall (l : list jsstring) s,
  NoDup l -> In s l ->
  Permutation l (filter (fun y => negb (eqb y s)) l ++ [s]).
Proof.
  induction l as [|x l IH]; intros s Hnd Hin; [contradiction|].
  inversion Hnd as [|? ? Hx Hl]; subst. simpl.
  destruct (eqb x s) eqn:E.
  - apply eqb_eq in E. subst x. simpl.
    assert (Hf : filter (fun y => negb (eqb y s)) l = l).
    { clear -Hx. induction l as [|y l IH]; [reflexivity|]. simpl.
      assert (Hy : eqb y s = false).
      { apply eqb_neq. intros ->. apply Hx. now left. }
      rewrite Hy. simpl. f_equal. apply IH. intros H. apply Hx. now right. }
    rewrite Hf. apply Permutation_cons_append.
  - simpl. apply perm_skip. apply IH; [exact Hl|].
    destruct Hin as [->|Hin]; [|exact Hin].
    rewrite eqb_refl in E. discriminate E.
Qed.

(** X23. Removing a tag in the editor of a node takes every occurrence of
    the tag out of the list when the mutation of the vault returns.  When
    the mutation does not return, the vault is as it was and the tag is put
    back at the end of the list: the list then has the tags it had before,
    and for a list without duplicates that showed the tag it is a
    rearrangement of the list before. *)
Theorem X23_failed_removal_puts_the_tag_back :
  forall (removeTag : jsstring -> Vault -> outcome Vault)
         (tagToRemove : jsstring) (tags : list jsstring) (vault : Vault),
    let after :=
      TaskNodeView.handleTagRemove removeTag tagToRemove (tags, vault) in
    (forall vault',
       removeTag tagToRemove vault = Ok vault' ->
       snd after = vault' /\
       ~ In tagToRemove (fst after) /\
       forall x, In x (fst after) <-> In x tags /\ x <> tagToRemove) /\
    ((forall vault', removeTag tagToRemove vault <> Ok vault') ->
     snd after = vault /\
     (forall x, In x (fst after) <-> In x tags \/ x = tagToRemove) /\
     (NoDup tags -> In tagToRemove tags -> Permutation tags (fst after))).
Proof.
  intros removeTag tagToRemove tags vault after. subst after.
  unfold TaskNodeView.handleTagRemove. split.
  - intros vault' Hop. rewrite Hop. cbn [fst snd].
    split; [reflexivity|]. split.
    + intros H. apply filter_other_in in H as [_ H]. now apply H.
    + intros x. apply filter_other_in.
  - intros Hfail.
    assert (E : match removeTag tagToRemove vault with
                | Ok vault' =>
                    (filter (fun tag => negb (eqb tag tagToRemove)) tags,
                     vault')
                | _ =>
                    (filter (fun tag => negb (eqb tag tagToRemove)) tags ++
                     [tagToRemove], vault)
                end
                = (filter (fun tag => negb (eqb tag tagToRemove)) tags ++
                   [tagToRemove], vault)).
    { destruct (removeTag tagToRemove vault) as [vault'| |] eqn:Eop;
        [|reflexivity|reflexivity].
      exfalso. now apply (Hfail vault'). }
    rewrite E. cbn [fst snd]. split; [reflexivity|]. split.
    + intros x. rewrite in_app_iff, filter_other_in. simpl.
      destruct (list_eq_dec N.eq_dec x tagToRemove) as [->|Hne];
        intuition congruence.
    + intros Hnd Hin. now apply permutation_move_to_end.
Qed.

(* ================================================================== *)
(** * Properties of the scan *)
(* ================================================================== *)

Lemma natToString_injective : forall n m,
  natToString n = natToString m -> n = m.
Proof.
  intros n m H. apply (f_equal parseInt) in H.
  rewrite !parseInt_natToString in H. injection H as H. lia.
Qed.

Lemma stableTaskId_parts : forall path index,
  splitOn 58 (Sidebar.stableTaskId path index)
  = splitOn 58 path ++ [natToString index].
Proof.
  intros path index. unfold Sidebar.stableTaskId.
  change (path ++ u ":" ++ natToString index)
    with (path ++ 58%N :: natToString index).
  apply splitOn_snoc. apply natToString_no_colon.
Qed.

Lemma stableTaskId_injective : forall path1 index1 path2 index2,
  Sidebar.stableTaskId path1 index1 = Sidebar.stableTaskId path2 index2 ->
  path1 = path2 /\ index1 = index2.
Proof.
  intros path1 index1 path2 index2 H.
  apply (f_equal (splitOn 58)) in H. rewrite !stableTaskId_parts in H.
  apply app_inj_tail in H as [Hp Hi]. split.
  - rewrite <- (join_splitOn 58 path1), <- (join_splitOn 58 path2).
    now rewrite Hp.
  - now apply natToString_injective.
Qed.

Lemma scanned_from : forall parse path lines start task,
  In task (concat (mapiFrom (Scanner.scanLine parse path) start lines)) ->
  exists k line n,
    nth_error lines k = Some line /\
    Parser.checklistRegex line = Some n /\
    task = Scanner.withId
             (parse (firstn 1 (skipn (n - 2) line))
                (Scanner.textOfLine line) path)
             (Sidebar.stableTaskId path (start + k)).
Proof.
  intros parse path. induction lines as [|line lines IH];
    intros start task H; [contradiction|].
  cbn [mapiFrom concat] in H. apply in_app_or in H as [H|H].
  - unfold Scanner.scanLine in H.
    destruct (Parser.checklistRegex line) as [n|] eqn:E; [|contradiction].
    destruct H as [<-|[]]. exists 0, line, n.
    rewrite Nat.add_0_r. now repeat split.
  - apply IH in H as (k & l & n & Hk & Hn & ->).
    exists (S k), l, n. split; [exact Hk|]. split; [exact Hn|].
    now replace (start + S k) with (S start + k) by lia.
Qed.

Lemma scanned_ids_increase : forall parse path lines start,
  exists indices,
    map task_id (concat (mapiFrom (Scanner.scanLine parse path) start lines))
    = map (Sidebar.stableTaskId path) indices /\
    NoDup indices /\
    forall k, In k indices -> start <= k.
Proof.
  intros parse path. induction lines as [|line lines IH]; intros start.
  - exists []. repeat split; [constructor|contradiction].
  - destruct (IH (S start)) as (indices & Hids & Hnd & Hge).
    cbn [mapiFrom concat]. rewrite map_app, Hids.
    unfold Scanner.scanLine.
    destruct (Parser.checklistRegex line) as [n|].
    + exists (start :: indices). split; [reflexivity|]. split.
      * constructor; [|exact Hnd]. intros H. apply Hge in H. lia.
      * intros k [<-|H]; [lia|]. apply Hge in H. lia.
    + exists indices. split; [reflexivity|]. split; [exact Hnd|].
      intros k H. apply Hge in H. lia.
Qed.

Lemma NoDup_map_injective : forall (A B : Type) (f : A -> B) l,
  (forall x y, f x = f y -> x = y) -> NoDup l -> NoDup (map f l).
Proof.
  intros A B f l Hinj H. induction H as [|x l Hx Hl IH]; simpl;
    constructor; [|exact IH].
  intros Hin. apply in_map_iff in Hin as (y & Hy & Hin).
  apply Hinj in Hy. now subst y.
Qed.

(** X24. The ids the scan gives the tasks of a file, the path, a colon and
    the index of the line, are pairwise different: two ids are the same only
    for the same path and the same line.  So the tasks scanned from one file
    have different ids, each is the id of a line that starts with a
    checklist marker, and the tasks of two files with different paths share
    no id. *)
Theorem X24_scanned_ids_are_distinct :
  forall (parse : jsstring -> jsstring -> jsstring -> Task)
         (path content : jsstring),
    (forall path1 index1 path2 index2,
       Sidebar.stableTaskId path1 index1 = Sidebar.stableTaskId path2 index2 ->
       path1 = path2 /\ index1 = index2) /\
    NoDup (map task_id (Scanner.scanFile parse path content)) /\
    (forall task,
       In task (Scanner.scanFile parse path content) ->
       exists index line,
         nth_error (splitOn 10 content) index = Some line /\
         Parser.scanStatusCode line <> None /\
         task_id task = Sidebar.stableTaskId path index) /\
    (forall path' content' task task',
       path' <> path ->
       In task (Scanner.scanFile parse path content) ->
       In task' (Scanner.scanFile parse path' content') ->
       task_id task <> task_id task').
Proof.
  intros parse path content.
  assert (Hfrom : forall p c task,
            In task (Scanner.scanFile parse p c) ->
            exists index line n,
              nth_error (splitOn 10 c) index = Some line /\
              Parser.checklistRegex line = Some n /\
              task_id task = Sidebar.stableTaskId p index).
  { intros p c task H. unfold Scanner.scanFile, mapi in H.
    apply scanned_from in H as (k & line & n & Hk & Hn & ->).
    exists k, line, n. now repeat split. }
  split; [exact stableTaskId_injective|]. split; [|split].
  - unfold Scanner.scanFile, mapi.
    destruct (scanned_ids_increase parse path (splitOn 10 content) 0)
      as (indices & -> & Hnd & _).
    apply NoDup_map_injective; [|exact Hnd].
    intros i j H. now apply stableTaskId_injective in H.
  - intros task H. apply Hfrom in H as (index & line & n & Hk & Hn & Hid).
    exists index, line. split; [exact Hk|]. split; [|exact Hid].
    unfold Parser.scanStatusCode. rewrite Hn.
    intros Hnone. apply nth_error_None in Hnone.
    unfold Parser.checklistRegex, seq, classStar, lit, classN in Hn.
    destruct (startsWith (skipn (countWhile isSpace line) line) (u "- ["))
      eqn:E1; [|discriminate Hn].
    change (length (u "- [")) with 3 in Hn.
    destruct ((1 <=? length (skipn 3 (skipn (countWhile isSpace line) line)))
              && _) eqn:E2; [|discriminate Hn].
    destruct (startsWith _ (u "]")); [|discriminate Hn].
    injection Hn as <-.
    apply andb_true_iff in E2 as [E2 _]. apply Nat.leb_le in E2.
    rewrite !length_skipn in E2. cbn [length] in Hnone. lia.
  - intros path' content' task task' Hpath H H' Heq.
    apply Hfrom in H as (i & _ & _ & _ & _ & Hid).
    apply Hfrom in H' as (i' & _ & _ & _ & _ & Hid').
    rewrite Hid, Hid' in Heq. apply stableTaskId_injective in Heq as [Hp _].
    now apply Hpath.
Qed.

(* ================================================================== *)
(** * Properties of the plugin *)
(* ================================================================== *)

(** X25. Once a canvas that shows at least one node is saved, the ids the
    plugin answers without a view, from the snapshot, are the ids it answers
    with the view, from the canvas.  When the canvas is emptied by a
    deletion, the save is skipped, so without a view the plugin still
    answers the ids of the snapshot while the view answers none. *)
Theorem X25_closed_view_answers_the_saved_ids :
  forall viewport nodeId (st : Canvas.State),
    Canvas.st_nodes st <> [] ->
    let saved := Canvas.saveGraphDataImmediate viewport st in
    Plugin.getCanvasTaskIds None (Canvas.st_graphData saved)
    = Plugin.getCanvasTaskIds (Some saved) (Canvas.st_graphData saved) /\
    Plugin.getCanvasTaskIds (Some saved) (Canvas.st_graphData saved)
    = map node_id (Canvas.st_nodes st) /\
    ((forall n, In n (Canvas.st_nodes st) -> node_id n = nodeId) ->
     let emptied :=
       Canvas.saveGraphDataImmediate viewport
         (Canvas.deleteNode nodeId saved) in
     Plugin.getCanvasTaskIds (Some emptied) (Canvas.st_graphData emptied) = [] /\
     Plugin.getCanvasTaskIds None (Canvas.st_graphData emptied)
     = map node_id (Canvas.st_nodes st)).
Proof.
  intros viewport nodeId st Hne saved.
  assert (Hsaved : Canvas.st_nodes saved = Canvas.st_nodes st /\
                   map saved_taskId (gd_nodes (Canvas.st_graphData saved))
                   = map node_id (Canvas.st_nodes st)).
  { subst saved. unfold Canvas.saveGraphDataImmediate.
    destruct (Canvas.st_nodes st) as [|n nodes] eqn:E; [contradiction|].
    cbn [Canvas.st_nodes Canvas.st_graphData gd_nodes].
    split; [reflexivity|]. now rewrite map_map. }
  destruct Hsaved as [Hnodes Hids]. unfold Plugin.getCanvasTaskIds.
  rewrite Hnodes, Hids. split; [reflexivity|]. split; [reflexivity|].
  intros Hall. cbv zeta.
  assert (Hempty : Canvas.st_nodes (Canvas.deleteNode nodeId saved) = []).
  { unfold Canvas.deleteNode.
    cbn [Canvas.setEdges Canvas.setNodes Canvas.st_nodes].
    apply filter_all_out. intros n Hn. rewrite Hnodes in Hn.
    rewrite (Hall n Hn), eqb_refl. reflexivity. }
  assert (Hskip : Canvas.saveGraphDataImmediate viewport
                     (Canvas.deleteNode nodeId saved)
                   = Canvas.deleteNode nodeId saved).
  { unfold Canvas.saveGraphDataImmediate at 1. now rewrite Hempty. }
  rewrite Hskip, Hempty.
  change (Canvas.st_graphData (Canvas.deleteNode nodeId saved))
    with (Canvas.st_graphData saved).
  rewrite Hids. now split.
Qed.

Lemma X25_closed_view_answers_the_saved_ids_witness :
  let st :=
    Canvas.mkState [] [sampleNode (u "N1") 40 70] [] (mkViewport 0 0 1)
      DEFAULT_GRAPH_DATA in
  let saved := Canvas.saveGraphDataImmediate (mkViewport 0 0 1) st in
  Plugin.getCanvasTaskIds None (Canvas.st_graphData saved)
  = Plugin.getCanvasTaskIds (Some saved) (Canvas.st_graphData saved) /\
  Plugin.getCanvasTaskIds (Some saved) (Canvas.st_graphData saved)
  = map node_id (Canvas.st_nodes st) /\
  ((forall n, In n (Canvas.st_nodes st) -> node_id n = u "N1") ->
   let emptied :=
     Canvas.saveGraphDataImmediate (mkViewport 0 0 1)
       (Canvas.deleteNode (u "N1") saved) in
   Plugin.getCanvasTaskIds (Some emptied) (Canvas.st_graphData emptied) = [] /\
   Plugin.getCanvasTaskIds None (Canvas.st_graphData emptied)
   = map node_id (Canvas.st_nodes st)).
Proof.
  apply (X25_closed_view_answers_the_saved_ids (mkViewport 0 0 1) (u "N1")
           (Canvas.mkState [] [sampleNode (u "N1") 40 70] []
              (mkViewport 0 0 1) DEFAULT_GRAPH_DATA)).
  simpl. discriminate.
Defined.

(* ================================================================== *)
(** * Properties of the filters *)
(* ================================================================== *)

Lemma hasString_true : forall l s, Canvas.hasString l s = true <-> In s l.
Proof.
  intros l s. unfold Canvas.hasString. rewrite existsb_exists. split.
  - intros (x & Hx & E). apply eqb_eq in E. now subst x.
  - intros H. exists s. split; [exact H|apply eqb_refl].
Qed.

Lemma hasString_incl : forall l l' s,
  (forall x, In x l -> In x l') ->
  Canvas.hasString l s = true -> Canvas.hasString l' s = true.
Proof.
  intros l l' s Hincl H. apply hasString_true. apply Hincl.
  now apply hasString_true.
Qed.

(** X26. The tag filter is a union and so is the status filter: once a tag is
    selected, selecting more tags never takes a task out of the filtered
    ids, and once a status is selected, selecting more statuses never does.
    Every filtered id is the id of one of the tasks.  With nothing selected
    every task passes. *)
Theorem X26_selecting_more_never_hides :
  forall NO_TAGS_VALUE (tasks : list Task)
         (selectedTags moreTags : list jsstring)
         (selectedStatuses moreStatuses : list TaskStatus) (id : jsstring),
    (In id (Canvas.getFilteredNodeIds NO_TAGS_VALUE tasks selectedTags
              selectedStatuses) ->
     In id (map task_id tasks)) /\
    Canvas.getFilteredNodeIds NO_TAGS_VALUE tasks [] [] = map task_id tasks /\
    (selectedTags <> [] -> selectedStatuses <> [] ->
     (forall tag, In tag selectedTags -> In tag moreTags) ->
     (forall s, In s selectedStatuses -> In s moreStatuses) ->
     In id (Canvas.getFilteredNodeIds NO_TAGS_VALUE tasks selectedTags
              selectedStatuses) ->
     In id (Canvas.getFilteredNodeIds NO_TAGS_VALUE tasks moreTags
              moreStatuses)).
Proof.
  intros noTags tasks tags tags' sts sts' id.
  split; [|split].
  - unfold Canvas.getFilteredNodeIds. cbv zeta. intros H.
    apply in_map_iff in H as (t & Hid & Ht). apply in_map_iff.
    exists t. split; [exact Hid|].
    destruct (0 <? length sts); [apply filter_In in Ht as [Ht _]|];
      (destruct (0 <? length tags); [apply filter_In in Ht as [Ht _]|]);
      exact Ht.
  - reflexivity.
  - intros Htags Hsts Hmore Hmores H.
    assert (Htags' : tags' <> []).
    { destruct tags as [|t tags]; [contradiction|].
      intros E. specialize (Hmore t (or_introl eq_refl)). rewrite E in Hmore.
      contradiction. }
    assert (Hsts' : sts' <> []).
    { destruct sts as [|s sts]; [contradiction|].
      intros E. specialize (Hmores s (or_introl eq_refl)). rewrite E in Hmores.
      contradiction. }
    unfold Canvas.getFilteredNodeIds in *. cbv zeta in *.
    assert (Hpos : forall (A : Type) (l : list A), l <> [] ->
                     (0 <? length l) = true).
    { intros A l Hl. destruct l; [contradiction|reflexivity]. }
    rewrite (Hpos _ tags Htags), (Hpos _ sts Hsts) in H.
    rewrite (Hpos _ tags' Htags'), (Hpos _ sts' Hsts').
    apply in_map_iff in H as (t & Hid & Ht). apply in_map_iff.
    exists t. split; [exact Hid|].
    apply filter_In in Ht as [Ht Hstatus].
    apply filter_In in Ht as [Ht Htag].
    apply filter_In. split; [apply filter_In; split; [exact Ht|]|].
    + apply orb_true_iff in Htag as [Hno|Hreg]; apply orb_true_iff.
      * left. apply andb_true_iff in Hno as [Hno Hlen].
        apply andb_true_iff. split; [|exact Hlen].
        now apply (hasString_incl tags).
      * right. apply andb_true_iff in Hreg as [_ Hreg].
        apply existsb_exists in Hreg as (tag & Hin & Hhas).
        apply filter_In in Hin as [Hin Hne].
        assert (Hin' : In tag (filter (fun tag0 => negb (eqb tag0 noTags))
                                 tags')).
        { apply filter_In. split; [now apply Hmore|exact Hne]. }
        apply andb_true_iff. split.
        -- destruct (filter _ tags'); [contradiction|reflexivity].
        -- apply existsb_exists. now exists tag.
    + apply existsb_exists in Hstatus as (s & Hin & Hs).
      apply existsb_exists. exists s. split; [now apply Hmores|exact Hs].
Qed.

(* ================================================================== *)
(** * Paths of notes *)
(* ================================================================== *)

Lemma removeMdSuffix_md : forall s, removeMdSuffix (s ++ u ".md") = s.
Proof.
  intros s. unfold removeMdSuffix.
  assert (Hlen : length (s ++ u ".md") - 3 = length s).
  { rewrite length_app. simpl. lia. }
  rewrite Hlen, skipn_app_length, firstn_app_length.
  assert (H3 : (3 <=? length (s ++ u ".md")) = true).
  { apply Nat.leb_le. rewrite length_app. simpl. lia. }
  rewrite H3. reflexivity.
Qed.

(** X27. The base name that removing a note dependency computes from the id
    of the source task is the name of its file: for a path made of a
    folder, a slash, a name without a slash and the extension [.md] it is
    the name, and so it is for a file at the top of the vault.  This is the
    text that adding the dependency wrote between the brackets. *)
Theorem X27_basename_of_a_note_path :
  forall (folder name : jsstring),
    ~ In 47%N name ->
    basenameOf (folder ++ u "/" ++ name ++ u ".md") = name /\
    basenameOf (name ++ u ".md") = name.
Proof.
  intros folder name Hname. unfold basenameOf. split.
  - rewrite !app_assoc, removeMdSuffix_md, <- app_assoc.
    change (folder ++ u "/" ++ name) with (folder ++ 47%N :: name).
    rewrite splitOn_snoc by exact Hname. apply last_last.
  - rewrite removeMdSuffix_md, splitOn_none by exact Hname. reflexivity.
Qed.

Lemma X27_basename_of_a_note_path_witness :
  basenameOf (u "Notes/Team" ++ u "/" ++ u "standup" ++ u ".md") = u "standup" /\
  basenameOf (u "standup" ++ u ".md") = u "standup".
Proof.
  apply (X27_basename_of_a_note_path (u "Notes/Team") (u "standup")).
  intros H. simpl in H. repeat destruct H as [H|H]; try discriminate H.
  exact H.
Defined.

(** * Linking a task and unlinking it again *)

Lemma search_none_when : forall (m : matcher) s,
  m [] = None ->
  (forall c t, In c s -> m (c :: t) = None) ->
  search m s = None.
Proof.
  intros m s Hnil. induction s as [|c s IH]; intros H.
  - simpl. now rewrite Hnil.
  - simpl. rewrite (H c s (or_introl eq_refl)).
    rewrite IH; [reflexivity|]. intros d t Hd. apply H. now right.
Qed.

Lemma lit_needs_head : forall p pat c t,
  c <> p -> lit (p :: pat) (c :: t) = None.
Proof.
  intros p pat c t H. unfold lit. cbn [startsWith].
  apply N.eqb_neq in H. now rewrite H.
Qed.

Lemma includes_needs_head : forall s p pat,
  ~ In p s -> includes s (p :: pat) = false.
Proof.
  induction s as [|c s IH]; intros p pat H; [reflexivity|].
  cbn [includes startsWith].
  assert (Hc : (c =? p)%N = false).
  { apply N.eqb_neq. intros ->. apply H. now left. }
  rewrite Hc. cbn [andb orb]. apply IH. intros Hin. apply H. now right.
Qed.

Lemma startsWith_prefix : forall a b t,
  startsWith t (a ++ b) = true -> startsWith t a = true.
Proof.
  induction a as [|p a IH]; intros b t H; [now destruct t|].
  destruct t as [|c t]; [discriminate H|].
  cbn [app startsWith] in *. apply andb_true_iff in H as [-> H].
  now apply (IH b).
Qed.

Lemma search_none_without : forall (m : matcher) pat s,
  (forall t n, m t = Some n -> startsWith t pat = true) ->
  includes s pat = false ->
  search m s = None.
Proof.
  intros m pat s Hm. induction s as [|c s IH]; intros H.
  - simpl. destruct (m []) as [n|] eqn:E; [|reflexivity].
    apply Hm in E. simpl in H. rewrite E in H. discriminate H.
  - cbn [includes] in H. apply orb_false_iff in H as [Hhead Htail].
    cbn [search]. destruct (m (c :: s)) as [n|] eqn:E.
    + apply Hm in E. congruence.
    + now rewrite IH.
Qed.

Lemma no_double_bracket_no_field : forall s,
  includes s (u "[[") = false ->
  search dataviewRegex s = None /\ search dataviewIdRegex s = None.
Proof.
  intros s H. split; apply (search_none_without _ (u "[[")); try exact H;
    intros t n Hn.
  - unfold dataviewRegex, dataviewHead, seq, lit in Hn.
    destruct (startsWith t (u "[[dependsOn::")) eqn:E; [|discriminate Hn].
    apply (startsWith_prefix (u "[[") (u "dependsOn::")). exact E.
  - unfold dataviewIdRegex, seq, lit in Hn.
    destruct (startsWith t (u "[[id::")) eqn:E; [|discriminate Hn].
    apply (startsWith_prefix (u "[[") (u "id::")). exact E.
Qed.

Lemma no_double_bracket_app : forall line r,
  includes line (u "[[") = false ->
  ~ In 91%N r ->
  includes (line ++ r) (u "[[") = false.
Proof.
  change (u "[[") with [91%N; 91%N].
  induction line as [|c line IH]; intros r H Hr.
  - cbn [app]. now apply includes_needs_head.
  - cbn [includes] in H. apply orb_false_iff in H as [Hhead Htail].
    cbn [app includes]. rewrite (IH r Htail Hr), orb_false_r.
    cbn [startsWith] in *.
    destruct (c =? 91)%N; [|reflexivity]. cbn [andb] in *.
    destruct line as [|d line]; cbn [app].
    + destruct r as [|e r]; [reflexivity|].
      assert (He : (e =? 91)%N = false).
      { apply N.eqb_neq. intros ->. apply Hr. now left. }
      now rewrite He.
    + exact Hhead.
Qed.

Lemma no_stop_no_marker : forall (m : matcher) c t,
  c <> 9940%N -> seq stopHead m (c :: t) = None.
Proof.
  intros m c t H. unfold seq, stopHead, seq.
  change STOP_SIGN with [9940%N]. now rewrite lit_needs_head.
Qed.

Lemma replaceFirst_after : forall a p pat r rep,
  ~ In p a ->
  replaceFirst (a ++ (p :: pat) ++ r) (p :: pat) rep = a ++ rep ++ r.
Proof.
  induction a as [|c a IH]; intros p pat r rep H.
  - cbn [app]. destruct pat as [|q pat]; cbn [replaceFirst].
    + cbn [startsWith]. rewrite N.eqb_refl. reflexivity.
    + change (p :: (q :: pat) ++ r) with ((p :: q :: pat) ++ r).
      rewrite startsWith_app. now rewrite skipn_app_length.
  - cbn [app replaceFirst startsWith].
    assert (Hc : (c =? p)%N = false).
    { apply N.eqb_neq. intros ->. apply H. now left. }
    rewrite Hc. cbn [andb]. f_equal. apply IH. intros Hin. apply H. now right.
Qed.

Lemma trim_plain : forall s,
  (forall c, In c s -> isSpace c = false) -> trim s = s.
Proof.
  intros s H.
  assert (Hstart : forall t, (forall c, In c t -> isSpace c = false) ->
                             trimStart t = t).
  { intros t Ht. destruct t as [|c t]; [reflexivity|].
    simpl. now rewrite (Ht c (or_introl eq_refl)). }
  unfold trim, trimEnd. rewrite (Hstart s H).
  rewrite Hstart; [apply rev_involutive|].
  intros c Hc. apply H. now apply in_rev.
Qed.

Lemma alnum_units : forall hash c,
  forallb isAlnum hash = true -> In c hash ->
  isSpace c = false /\ c <> 91%N /\ c <> 9940%N /\ c <> 44%N /\ c <> CR /\
  c <> LF.
Proof.
  intros hash c H Hc. rewrite forallb_forall in H. specialize (H c Hc).
  split; [now apply isAlnum_not_space|].
  repeat split; intros ->; discriminate H.
Qed.

(** The marker of one dependency, as the expression of the removal reads
    it. *)
Lemma marker_read : forall hash,
  hash <> [] -> forallb isAlnum hash = true ->
  looseCsvRegex (STOP_SIGN ++ u " " ++ hash)
  = Some (length (STOP_SIGN ++ u " " ++ hash)) /\
  stopGroup (STOP_SIGN ++ u " " ++ hash) = hash /\
  idsOf hash = [hash].
Proof.
  intros hash Hne Halnum.
  destruct hash as [|h0 hash']; [contradiction|].
  set (hash := h0 :: hash') in *.
  assert (Hh0 : isSpace h0 = false).
  { apply (alnum_units hash h0 Halnum). now left. }
  assert (Hstop : stopHead (STOP_SIGN ++ u " " ++ hash) = Some 2).
  { unfold stopHead, seq, lit, classStar. subst hash.
    change (startsWith (STOP_SIGN ++ u " " ++ h0 :: hash') STOP_SIGN)
      with true. cbv iota.
    change (skipn (length STOP_SIGN) (STOP_SIGN ++ u " " ++ h0 :: hash'))
      with (32%N :: h0 :: hash').
    cbn [countWhile]. change (isSpace 32) with true. cbv iota.
    now rewrite Hh0. }
  split; [|split].
  - unfold looseCsvRegex, seq at 1. rewrite Hstop.
    change (skipn 2 (STOP_SIGN ++ u " " ++ hash)) with hash.
    unfold seq, classPlus. rewrite countWhile_all by exact Halnum.
    subst hash. cbn [length]. cbv iota.
    change (S (length hash')) with (length (h0 :: hash')).
    rewrite skipn_all. unfold star. cbn [length many]. cbv iota.
    f_equal. rewrite !length_app. change (length STOP_SIGN) with 1.
    change (length (u " ")) with 1. cbn [length]. lia.
  - unfold stopGroup. rewrite Hstop. reflexivity.
  - unfold idsOf. rewrite splitOn_none.
    + cbn [map]. rewrite trim_plain; [reflexivity|].
      intros c Hc. now apply (alnum_units hash c Halnum).
    + intros Hin. now apply (alnum_units hash _ Halnum) in Hin.
Qed.

(** X28. On the line of a task that holds no stop sign and no two opening
    brackets in a row, under the individual and under the csv style, adding a
    dependency with a hash of letters and digits appends the marker of the
    dependency, and removing that dependency from the document written takes
    the marker out again: the line is then the line it was, without the white
    space at its end. *)
Theorem X28_dependency_marker_added_then_removed :
  forall (task : Task) (hash : jsstring) (linkingStyle : LinkingStyle)
         (fileContent : jsstring) (taskLineIdx : nat) (line : jsstring),
    linkingStyle <> dataview ->
    hash <> [] ->
    forallb isAlnum hash = true ->
    findIndex (fun l => includes l (task_text task)) (splitLines fileContent)
    = Some taskLineIdx ->
    nth_error (splitLines fileContent) taskLineIdx = Some line ->
    ~ In 9940%N line ->
    includes line (u "[[") = false ->
    exists linked unlinked,
      addSignCallback task SignStop hash linkingStyle fileContent
      = Ok linked /\
      nth_error (splitLines linked) taskLineIdx
      = Some (line ++ u " " ++ STOP_SIGN ++ u " " ++ hash) /\
      removeSignCallback task SignStop hash linked = Ok unlinked /\
      unlinked
      = joinLines (assign (splitLines linked) taskLineIdx (trimEnd line)) /\
      nth_error (splitLines unlinked) taskLineIdx = Some (trimEnd line).
Proof.
  intros task hash linkingStyle fileContent idx line Hstyle Hne Halnum F Hline
    Hstop Hbracket.
  set (L := splitLines fileContent) in *.
  set (marker := STOP_SIGN ++ u " " ++ hash).
  set (newline := line ++ u " " ++ marker).
  destruct (marker_read hash Hne Halnum) as (Hread & Hgroup & Hids).
  fold marker in Hread, Hgroup.
  assert (Hlf : ~ In LF line).
  { apply (splitLines_no_LF fileContent). eapply nth_error_In. exact Hline. }
  destruct (no_double_bracket_no_field line Hbracket) as [Hdv Hdvid].
  (* adding *)
  assert (Hadd : addSignCallback task SignStop hash linkingStyle fileContent
                 = Ok (joinLines (assign L idx newline))).
  { unfold addSignCallback. fold L. rewrite F. unfold get. rewrite Hline.
    cbn [bind]. unfold test. rewrite Hdv, Hdvid.
    assert (Hcsv : matchOf csvRegex line = None).
    { unfold matchOf. rewrite search_none_when; [reflexivity|reflexivity|].
      intros c t Hc. unfold csvRegex. apply no_stop_no_marker.
      intros ->. contradiction. }
    destruct linkingStyle; [| |contradiction]; cbn [orb]; cbv iota.
    - change (STOP_SIGN ++ u " " ++ hash) with (9940%N :: u " " ++ hash).
      rewrite (includes_needs_head line 9940%N (u " " ++ hash) Hstop).
      reflexivity.
    - rewrite Hcsv, (conversion_branch_is_dead line Hcsv). reflexivity. }
  (* the document written *)
  assert (Hnl_lf : ~ In LF newline).
  { unfold newline, marker. intros H.
    apply in_app_or in H as [H|H]; [contradiction|].
    apply in_app_or in H as [H|H].
    { simpl in H. destruct H as [H|[]]. discriminate H. }
    apply in_app_or in H as [H|H].
    { simpl in H. destruct H as [H|[]]. discriminate H. }
    apply in_app_or in H as [H|H].
    { simpl in H. destruct H as [H|[]]. discriminate H. }
    now apply (alnum_units hash _ Halnum) in H. }
  assert (Hkept : forall b, readBack newline b -> b = newline).
  { intros b Hb. unfold newline, marker in *. rewrite !app_assoc in *.
    apply tail_kept in Hb; [exact Hb|exact Hne|].
    intros l' E. destruct (exists_last Hne) as (h' & z & Ez).
    rewrite Ez in E. apply app_inj_tail in E as [_ ->].
    assert (Hz : In CR hash) by (rewrite Ez; apply in_or_app; right; now left).
    now apply (alnum_units hash _ Halnum) in Hz. }
  assert (Hreadback : Forall2 readBack (assign L idx newline)
                        (splitLines (joinLines (assign L idx newline)))).
  { now apply (rewritten_lines_read_back fileContent idx line). }
  assert (Hgrows : forall pat, includes line pat = true ->
                               includes newline pat = true).
  { intros pat Hp. now apply includes_app_l. }
  pose proof (relocate_same L _ idx line newline Hline Hreadback Hkept)
    as Hsame.
  pose proof (relocate_found L _ idx line newline Hline Hreadback Hkept
                Hgrows _ F) as Hfound.
  set (L2 := splitLines (joinLines (assign L idx newline))) in *.
  (* removing *)
  assert (Hnl_bracket : includes newline (u "[[") = false).
  { unfold newline, marker. apply no_double_bracket_app; [exact Hbracket|].
    intros H.
    apply in_app_or in H as [H|H].
    { simpl in H. destruct H as [H|[]]. discriminate H. }
    apply in_app_or in H as [H|H].
    { simpl in H. destruct H as [H|[]]. discriminate H. }
    apply in_app_or in H as [H|H].
    { simpl in H. destruct H as [H|[]]. discriminate H. }
    now apply (alnum_units hash _ Halnum) in H. }
  assert (Hsplit : newline = (line ++ u " ") ++ marker ++ []).
  { unfold newline. now rewrite app_nil_r, <- app_assoc. }
  assert (Hbefore : ~ In 9940%N (line ++ u " ")).
  { intros H. apply in_app_or in H as [H|H]; [contradiction|].
    simpl in H. destruct H as [H|[]]. discriminate H. }
  assert (Hmatch : matchOf looseCsvRegex newline = Some marker).
  { unfold matchOf.
    rewrite Hsplit, app_nil_r.
    rewrite (search_prefix looseCsvRegex (line ++ u " ") marker 0
               (length marker)).
    - rewrite Nat.add_0_r, skipn_app_length. now rewrite firstn_all.
    - intros c s Hc. unfold looseCsvRegex. apply no_stop_no_marker.
      intros ->. contradiction.
    - now apply search_head. }
  assert (Hremove : removeSignCallback task SignStop hash
                      (joinLines (assign L idx newline))
                    = Ok (joinLines (assign L2 idx (trimEnd line)))).
  { unfold removeSignCallback. fold L2. rewrite Hfound. unfold get.
    rewrite Hsame. cbn [bind].
    destruct (no_double_bracket_no_field newline Hnl_bracket) as [Hdv2 _].
    unfold matchOf at 1. rewrite Hdv2. rewrite Hmatch, Hgroup, Hids.
    unfold withoutId. cbn [filter]. rewrite eqb_refl. cbn [negb length].
    cbn [Nat.eqb].
    rewrite Hsplit at 1. unfold marker at 1 2.
    change (STOP_SIGN ++ u " " ++ hash) with (9940%N :: u " " ++ hash).
    rewrite replaceFirst_after by exact Hbefore.
    cbn [app]. rewrite app_nil_r.
    rewrite trimEnd_skip by reflexivity. reflexivity. }
  exists (joinLines (assign L idx newline)),
         (joinLines (assign L2 idx (trimEnd line))).
  split; [exact Hadd|]. split; [exact Hsame|]. split; [exact Hremove|].
  split; [reflexivity|].
  assert (Hread2 : Forall2 readBack (assign L2 idx (trimEnd line))
                     (splitLines (joinLines (assign L2 idx (trimEnd line))))).
  { apply (rewritten_lines_read_back _ idx newline); [exact Hsame|].
    intros H. apply trimEnd_in in H. contradiction. }
  apply (relocate_same L2 _ idx newline (trimEnd line) Hsame Hread2).
  intros b [H|H]; [exact H|]. apply trimEnd_last in H. discriminate H.
Qed.

Lemma X28_dependency_marker_added_then_removed_witness :
  exists linked unlinked,
    addSignCallback reportTask SignStop (u "k3x9ab") csv planDocument
    = Ok linked /\
    nth_error (splitLines linked) 1
    = Some (u "- [ ] write report" ++ u " " ++ STOP_SIGN ++ u " " ++
            u "k3x9ab") /\
    removeSignCallback reportTask SignStop (u "k3x9ab") linked
    = Ok unlinked /\
    unlinked
    = joinLines (assign (splitLines linked) 1
                   (trimEnd (u "- [ ] write report"))) /\
    nth_error (splitLines unlinked) 1
    = Some (trimEnd (u "- [ ] write report")).
Proof.
  apply (X28_dependency_marker_added_then_removed reportTask (u "k3x9ab") csv
           planDocument 1 (u "- [ ] write report"));
    try reflexivity; try discriminate.
  intros H. simpl in H. repeat destruct H as [H|H]; try discriminate H.
  exact H.
Defined.

(** * The lookup of the tag operations *)

Lemma includes_nil : forall s, includes s [] = true.
Proof. intros s. destruct s; reflexivity. Qed.

Lemma findIndex_found : forall (p : jsstring -> bool) X n x,
  nth_error X n = Some x -> p x = true ->
  (forall j y, j < n -> nth_error X j = Some y -> p y = false) ->
  findIndex p X = Some n.
Proof.
  intros p X n x Hx Hp Hbefore. unfold findIndex.
  now rewrite (findIndexFrom_found p X 0 n x Hx Hp Hbefore).
Qed.

(** C3. The lookup of the inline tag operations falls back on comparing the
    texts without their markers, and an empty line passes that comparison
    for every task, the empty text being part of any text.  So when no line
    of the document carries the id marker, the id field or the text of an
    inline task, and the document has an empty line that no line passing the
    comparison comes before, adding a tag does not return the document it was
    given: it writes a space and the tag on the empty line.  On the same
    document set-status, add-star, remove-star and the sign operations, whose
    lookup goes by id and text only, return the document as it is; and every
    callback returns a document, whatever it is given.  The last part is the
    case of a note whose attribute block is there and whose status field is
    not: the callback returns the lines joined by line feeds, so the carriage
    returns of the document are gone. *)
Theorem C3_tag_fallback_takes_an_empty_line :
  forall removeEmojiId removeDataviewId removeTags normalizeWhitespace
         (task : Task) (tagToAdd : jsstring) (fileContent : jsstring)
         (i : nat),
    let run :=
      callback removeEmojiId removeDataviewId removeTags normalizeWhitespace in
    let formattedTag :=
      if startsWith tagToAdd (u "#") then tagToAdd else u "#" ++ tagToAdd in
    coreTextOf removeEmojiId removeDataviewId removeTags normalizeWhitespace []
    = [] ->
    task_type task = inline ->
    ~ In LF tagToAdd ->
    (forall line, In line (splitLines fileContent) ->
                  marksTask task line = false) ->
    nth_error (splitLines fileContent) i = Some [] ->
    (forall k line,
       k < i -> nth_error (splitLines fileContent) k = Some line ->
       sameCoreText removeEmojiId removeDataviewId removeTags
         normalizeWhitespace task line = false) ->
    run (AddTag tagToAdd) task fileContent
    = Ok (joinLines
            (assign (splitLines fileContent) i (u " " ++ formattedTag))) /\
    run (AddTag tagToAdd) task fileContent <> Ok fileContent /\
    (forall newStatus,
       run (SetStatus newStatus) task fileContent = Ok fileContent) /\
    run AddStar task fileContent = Ok fileContent /\
    run RemoveStar task fileContent = Ok fileContent /\
    (forall type hash linkingStyle,
       run (AddSign type hash linkingStyle) task fileContent
       = Ok fileContent) /\
    (forall op task' document, exists written,
       run op task' document = Ok written) /\
    updateTaskStatusNote done crlfNote
    = Ok (u "---" ++ [LF] ++ u "title: standup" ++ [LF] ++ u "---" ++ [LF] ++
          u "Body").
Proof.
  intros rE rD rT nW task tag fileContent i run formattedTag Hcore Hinline
    Hlf Hmarks Hline Hbefore.
  assert (Hadd : run (AddTag tag) task fileContent
                 = Ok (joinLines
                         (assign (splitLines fileContent) i
                            (u " " ++ formattedTag)))).
  { subst run. cbn [callback]. rewrite Hinline. unfold addTagInline.
    unfold findTaskLineForTags.
    rewrite findTaskLineByIdOrText_missing by exact Hmarks.
    rewrite (findIndex_found _ _ i [] Hline).
    - unfold get. rewrite Hline. reflexivity.
    - cbv zeta. rewrite Hcore. now rewrite includes_nil, orb_true_r.
    - intros j y Hj Hy. exact (Hbefore j y Hj Hy). }
  assert (Hmissing : forall op,
            targetOf op task = LineByIdOrText \/ targetOf op task = LineByText ->
            run op task fileContent = Ok fileContent).
  { intros op Ht. subst run. apply callback_missing. unfold targetMissing.
    destruct Ht as [-> | ->]; [exact Hmarks|].
    intros line Hin. specialize (Hmarks line Hin). unfold marksTask in Hmarks.
    now apply orb_false_iff in Hmarks as [_ Hmarks]. }
  split; [exact Hadd|]. split.
  { rewrite Hadd.
    assert (Hnew_lf : ~ In LF (u " " ++ formattedTag)).
    { intros [H|H]; [discriminate H|]. subst formattedTag.
      destruct (startsWith tag (u "#")); [contradiction|].
      destruct H as [H|H]; [discriminate H|contradiction]. }
    assert (Hnew : forall b : N,
              (u " " ++ formattedTag) <> [] /\ (u " " ++ formattedTag) <> [b]).
    { intros b. split; [discriminate|]. subst formattedTag.
      destruct (startsWith tag (u "#")) eqn:Eh.
      - destruct tag as [|c tag]; [discriminate Eh|]. discriminate.
      - discriminate. }
    pose proof (rewritten_lines_read_back fileContent i [] _ Hline Hnew_lf)
      as Hback.
    set (newline := u " " ++ formattedTag) in *.
    intros E. injection E as E.
    rewrite E in Hback.
    assert (Hlen : i < length (splitLines fileContent))
      by (apply nth_error_Some; congruence).
    destruct (Forall2_nth_error_l _ _ _ i _ Hback
                (assign_same _ _ _ Hlen)) as (b & Hb & Hread).
    rewrite Hline in Hb. injection Hb as <-.
    destruct Hread as [H|H].
    - now apply (proj1 (Hnew CR)).
    - now apply (proj2 (Hnew CR)). }
  split.
  { intros newStatus. apply Hmissing. left. simpl. now rewrite Hinline. }
  split; [apply Hmissing; left; simpl; now rewrite Hinline|].
  split; [apply Hmissing; left; simpl; now rewrite Hinline|].
  split; [intros type hash linkingStyle; apply Hmissing; now right|].
  split; [intros op task' document; apply callback_ok|].
  reflexivity.
Qed.

Lemma C3_tag_fallback_takes_an_empty_line_witness :
  let run :=
    callback sampleRemoveEmojiId sampleRemoveDataviewId sampleRemoveTags
      sampleNormalizeWhitespace in
  run (AddTag (u "x")) reportTask rewordedDocument
  = Ok (u "# Plan" ++ [LF] ++ u " #x" ++ [LF] ++ u "- [x] other") /\
  run (AddTag (u "x")) reportTask rewordedDocument <> Ok rewordedDocument /\
  (forall newStatus,
     run (SetStatus newStatus) reportTask rewordedDocument
     = Ok rewordedDocument) /\
  run AddStar reportTask rewordedDocument = Ok rewordedDocument /\
  run RemoveStar reportTask rewordedDocument = Ok rewordedDocument /\
  (forall type hash linkingStyle,
     run (AddSign type hash linkingStyle) reportTask rewordedDocument
     = Ok rewordedDocument) /\
  (forall op task' document, exists written,
     run op task' document = Ok written) /\
  updateTaskStatusNote done crlfNote
  = Ok (u "---" ++ [LF] ++ u "title: standup" ++ [LF] ++ u "---" ++ [LF] ++
        u "Body").
Proof.
  apply (C3_tag_fallback_takes_an_empty_line sampleRemoveEmojiId
           sampleRemoveDataviewId sampleRemoveTags sampleNormalizeWhitespace
           reportTask (u "x") rewordedDocument 1).
  - reflexivity.
  - reflexivity.
  - intros H. simpl in H. destruct H as [H|[]]. discriminate H.
  - intros line H. simpl in H.
    destruct H as [<-|[<-|[<-|[]]]]; reflexivity.
  - reflexivity.
  - intros k line Hk H. destruct k as [|k]; [|lia].
    simpl in H. injection H as <-. vm_compute. reflexivity.
Defined.
